(** * Audio stream dump: StreamDumper and AudioDumpManager

    A shallow embedding of [src/android/hal/StreamDumper.{h,cpp}] and
    [src/android/hal/AudioDumpManager.{h,cpp}], and the properties the
    specification states about them; then of the streams of
    [src/android/hal/StreamOut_integration.cpp] and
    [src/android/hal/StreamIn_integration.cpp] that use them, and further
    properties of all of this code.

    Conventions of the embedding.
    - [size_t] and [ssize_t] are 64 bits wide, [uint32_t] 32 bits; every
      arithmetic operation of the source on them is written with its
      wrap-around ([wrap_size], [wrap_u32], [to_ssize]).
    - A [const void* buffer, size_t size] pair is an [option (list byte)]:
      [None] is the null pointer, [Some data] a buffer of [length data]
      bytes.
    - The operating system is a [world]: a path-indexed file system, the
      system properties, a script of outcomes for the calls that can fail,
      and the trace of every file-system operation and notification, in
      the order they happened.
    - [std::mutex] members are not modelled: every operation runs to its end
      on the caller's thread. Diagnostic log lines other than the
      [AUDIO_DUMP_READY] notification are not modelled. *)

From Stdlib Require Import ZArith Lia String Ascii List.
From Stdlib.Strings Require Import Byte.
From stdpp Require Import base option list gmap strings.

Local Open Scope string_scope.
Local Open Scope list_scope.
Local Open Scope Z_scope.

(** ** Machine integers *)

Definition SIZE_MODULUS : Z := 18446744073709551616.
Definition SSIZE_LIMIT : Z := 9223372036854775808.
Definition U32_MODULUS : Z := 4294967296.

Definition wrap_size (x : Z) : Z := x mod SIZE_MODULUS.
Definition wrap_u32 (x : Z) : Z := x mod U32_MODULUS.

(** [static_cast<ssize_t>(x)] for a [size_t] x. *)
Definition to_ssize (x : Z) : Z :=
  if x <? SSIZE_LIMIT then x else x - SIZE_MODULUS.

(** ** C strings *)

(** [s.c_str()] as a C function reads it: up to the first NUL. *)
Fixpoint c_str (s : string) : string :=
  match s with
  | EmptyString => EmptyString
  | String c r => if Ascii.eqb c zero then EmptyString else String c (c_str r)
  end.

Fixpoint str_take (n : nat) (s : string) : string :=
  match n, s with
  | S n', String c r => String c (str_take n' r)
  | _, _ => EmptyString
  end.

(** [snprintf(buf, size, ...)] keeps at most [size - 1] characters. *)
Definition snprintf (size : nat) (formatted : string) : string :=
  str_take (pred size) formatted.

Definition digit_char (d : Z) : ascii :=
  ascii_of_nat (48 + Z.to_nat d).

Fixpoint fmt_digits (fuel : nat) (n : Z) (acc : string) : string :=
  match fuel with
  | O => acc
  | S fuel' =>
      let acc' := String (digit_char (n mod 10)) acc in
      if n / 10 =? 0 then acc' else fmt_digits fuel' (n / 10) acc'
  end.

(** [%u] of a [uint32_t]: at most ten decimal digits. *)
Definition fmt_u (n : Z) : string := fmt_digits 10 n EmptyString.

Fixpoint last_char (s : string) : option ascii :=
  match s with
  | EmptyString => None
  | String c EmptyString => Some c
  | String _ r => last_char r
  end.

(** ** The operating system *)

Inductive node : Type :=
  | NFile (content : list byte)
  | NDir.

Inductive event : Type :=
  | EvOpen (path : string)                     (* created, or truncated to empty *)
  | EvWrite (path : string) (data : list byte) (* bytes appended through the open stream *)
  | EvClose (path : string)
  | EvRename (src dst : string)
  | EvUnlink (path : string)
  | EvMkdir (path : string)
  | EvAppend (path : string) (data : list byte) (* open-append-write-close *)
  | EvLog (line : string).                     (* a line on the diagnostic log *)

Definition file_content (fs : gmap string node) (path : string) : list byte :=
  match fs !! path with
  | Some (NFile c) => c
  | _ => []
  end.

Definition apply_event (e : event) (fs : gmap string node) : gmap string node :=
  match e with
  | EvOpen p => <[p := NFile []]> fs
  | EvWrite p data =>
      match fs !! p with
      | Some (NFile c) => <[p := NFile (c ++ data)]> fs
      | _ => fs
      end
  | EvClose _ => fs
  | EvRename src dst =>
      match fs !! src with
      | Some n => <[dst := n]> (delete src fs)
      | None => fs
      end
  | EvUnlink p => delete p fs
  | EvMkdir p => <[p := NDir]> fs
  | EvAppend p data => <[p := NFile (file_content fs p ++ data)]> fs
  | EvLog _ => fs
  end.

Definition replay (tr : list event) (fs : gmap string node) : gmap string node :=
  fold_left (fun fs e => apply_event e fs) tr fs.

(** The calls whose failure the source looks at. *)
Inductive syscall : Type :=
  | SysOpen | SysWrite | SysFlush | SysRename | SysMkdir | SysAppend.

(** For each such call, the outcomes of its successive invocations
    ([true]: it succeeds); past the end of a script every call succeeds. *)
Record Faults : Type := {
  f_open : list bool;
  f_write : list bool;
  f_flush : list bool;
  f_rename : list bool;
  f_mkdir : list bool;
  f_append : list bool;
}.

Definition get_faults (k : syscall) (F : Faults) : list bool :=
  match k with
  | SysOpen => f_open F
  | SysWrite => f_write F
  | SysFlush => f_flush F
  | SysRename => f_rename F
  | SysMkdir => f_mkdir F
  | SysAppend => f_append F
  end.

Definition set_faults (k : syscall) (l : list bool) (F : Faults) : Faults :=
  match k with
  | SysOpen => {| f_open := l; f_write := f_write F; f_flush := f_flush F;
                  f_rename := f_rename F; f_mkdir := f_mkdir F; f_append := f_append F |}
  | SysWrite => {| f_open := f_open F; f_write := l; f_flush := f_flush F;
                   f_rename := f_rename F; f_mkdir := f_mkdir F; f_append := f_append F |}
  | SysFlush => {| f_open := f_open F; f_write := f_write F; f_flush := l;
                   f_rename := f_rename F; f_mkdir := f_mkdir F; f_append := f_append F |}
  | SysRename => {| f_open := f_open F; f_write := f_write F; f_flush := f_flush F;
                    f_rename := l; f_mkdir := f_mkdir F; f_append := f_append F |}
  | SysMkdir => {| f_open := f_open F; f_write := f_write F; f_flush := f_flush F;
                   f_rename := f_rename F; f_mkdir := l; f_append := f_append F |}
  | SysAppend => {| f_open := f_open F; f_write := f_write F; f_flush := f_flush F;
                    f_rename := f_rename F; f_mkdir := f_mkdir F; f_append := l |}
  end.

Definition no_faults : Faults :=
  {| f_open := []; f_write := []; f_flush := []; f_rename := []; f_mkdir := [];
     f_append := [] |}.

Definition all_true (l : list bool) : bool := forallb (fun b => b) l.

(** No call fails. *)
Definition fault_free (F : Faults) : bool :=
  all_true (f_open F) && all_true (f_write F) && all_true (f_flush F)
  && all_true (f_rename F) && all_true (f_mkdir F) && all_true (f_append F).

Record world : Type := {
  w_fs : gmap string node;
  w_props : gmap string string;
  w_faults : Faults;
  w_trace : list event;
}.

Definition with_faults (F : Faults) (w : world) : world :=
  {| w_fs := w_fs w; w_props := w_props w; w_faults := F; w_trace := w_trace w |}.

(** Perform a file-system operation: the file system changes and the
    operation is appended to the trace. *)
Definition emit (e : event) (w : world) : world :=
  {| w_fs := apply_event e (w_fs w); w_props := w_props w;
     w_faults := w_faults w; w_trace := w_trace w ++ [e] |}.

Definition next_faults (k : syscall) (F : Faults) : Faults :=
  set_faults k (tail (get_faults k F)) F.

(** The outcome of the next call of kind [k]; its script moves on. *)
Definition outcome (k : syscall) (w : world) : bool * world :=
  (hd true (get_faults k (w_faults w)),
   with_faults (next_faults k (w_faults w)) w).

(** [rename(2)]: fails when the source does not exist, or when the system
    says so. *)
Definition sys_rename (src dst : string) (w : world) : bool * world :=
  let src := c_str src in
  let dst := c_str dst in
  match w_fs w !! src with
  | None => (false, w)
  | Some _ =>
      let '(ok, w) := outcome SysRename w in
      if ok then (true, emit (EvRename src dst) w) else (false, w)
  end.

(** [unlink(2)]; its result is not looked at by the source. *)
Definition sys_unlink (path : string) (w : world) : world :=
  emit (EvUnlink (c_str path)) w.

Definition sys_stat (path : string) (w : world) : option node :=
  w_fs w !! c_str path.

Definition sys_mkdir (path : string) (w : world) : bool * world :=
  match w_fs w !! c_str path with
  | Some _ => (false, w)
  | None =>
      let '(ok, w) := outcome SysMkdir w in
      if ok then (true, emit (EvMkdir (c_str path)) w) else (false, w)
  end.

(** [property_get(key, value, default)]: an unset or empty property reads
    as the default. *)
Definition property_get (key default : string) (w : world) : string :=
  match w_props w !! key with
  | Some v => if String.eqb v "" then default else v
  | None => default
  end.

(** ** std::ofstream *)

Record ofstream : Type := {
  is_open : bool;
  good : bool;
  of_path : string;
}.

Definition ofstream_init : ofstream :=
  {| is_open := false; good := true; of_path := "" |}.

(** [open(path, binary | trunc)]: fails on a stream that is open already;
    success clears the error state. *)
Definition ofs_open (path : string) (f : ofstream) (w : world) : ofstream * world :=
  if is_open f then ({| is_open := true; good := false; of_path := of_path f |}, w)
  else
    let '(ok, w) := outcome SysOpen w in
    if ok then
      ({| is_open := true; good := true; of_path := c_str path |},
       emit (EvOpen (c_str path)) w)
    else ({| is_open := false; good := false; of_path := of_path f |}, w).

(** [write(data, n)]: does nothing on a stream in an error state. *)
Definition ofs_write (data : list byte) (f : ofstream) (w : world) : ofstream * world :=
  if is_open f && good f then
    let '(ok, w) := outcome SysWrite w in
    if ok then (f, emit (EvWrite (of_path f) data) w)
    else ({| is_open := true; good := false; of_path := of_path f |}, w)
  else ({| is_open := is_open f; good := false; of_path := of_path f |}, w).

Definition ofs_flush (f : ofstream) (w : world) : ofstream * world :=
  if is_open f && good f then
    let '(ok, w) := outcome SysFlush w in
    if ok then (f, w)
    else ({| is_open := true; good := false; of_path := of_path f |}, w)
  else (f, w).

(** [close()]; closing itself is not a call that fails in this model. *)
Definition ofs_close (f : ofstream) (w : world) : ofstream * world :=
  if is_open f then
    ({| is_open := false; good := good f; of_path := of_path f |},
     emit (EvClose (of_path f)) w)
  else ({| is_open := false; good := false; of_path := of_path f |}, w).

(** ** AudioDumpManager *)

Inductive AudioStreamType : Type :=
  | STREAM_OUT   (* playback stream *)
  | STREAM_IN.   (* recording stream *)

Definition newline : string := String (ascii_of_nat 10) EmptyString.

Module AudioDumpManager.

Definition PROP_STREAMOUT_DUMP : string := "vendor.streamout.pcm.dump".
Definition PROP_STREAMIN_DUMP : string := "vendor.streamin.pcm.dump".
Definition DEFAULT_DUMP_DIR : string := "/data/vendor/audio_dump/".
Definition QUEUE_FILE_NAME : string := ".queue".

Record t : Type := {
  mDumpDirectory : string;
  mQueueFilePath : string;
  mCompletedFiles : list string;   (* std::queue: pushed at the back *)
  mFileCounter : Z;                (* std::atomic<uint32_t> *)
  mInitialized : bool;
}.

Definition ctor : t :=
  {| mDumpDirectory := DEFAULT_DUMP_DIR;
     mQueueFilePath := DEFAULT_DUMP_DIR +:+ QUEUE_FILE_NAME;
     mCompletedFiles := [];
     mFileCounter := 0;
     mInitialized := false |}.

Definition with_mInitialized (b : bool) (m : t) : t :=
  {| mDumpDirectory := mDumpDirectory m; mQueueFilePath := mQueueFilePath m;
     mCompletedFiles := mCompletedFiles m; mFileCounter := mFileCounter m;
     mInitialized := b |}.

Definition with_mCompletedFiles (q : list string) (m : t) : t :=
  {| mDumpDirectory := mDumpDirectory m; mQueueFilePath := mQueueFilePath m;
     mCompletedFiles := q; mFileCounter := mFileCounter m;
     mInitialized := mInitialized m |}.

Definition with_mFileCounter (c : Z) (m : t) : t :=
  {| mDumpDirectory := mDumpDirectory m; mQueueFilePath := mQueueFilePath m;
     mCompletedFiles := mCompletedFiles m; mFileCounter := c;
     mInitialized := mInitialized m |}.

Definition EnsureDumpDirectory (m : t) (w : world) : bool * world :=
  match sys_stat (mDumpDirectory m) w with
  | Some NDir => (true, w)
  | Some (NFile _) => (false, w)
  | None => sys_mkdir (mDumpDirectory m) w
  end.

Definition Initialize (m : t) (w : world) : bool * t * world :=
  if mInitialized m then (true, m, w)
  else
    let '(ok, w) := EnsureDumpDirectory m w in
    if ok then (true, with_mInitialized true m, w) else (false, m, w).

Definition Shutdown (m : t) : t :=
  if mInitialized m then with_mInitialized false (with_mCompletedFiles [] m)
  else m.

Definition IsStreamOutDumpEnabled (w : world) : bool :=
  String.eqb (property_get PROP_STREAMOUT_DUMP "0" w) "1".

Definition IsStreamInDumpEnabled (w : world) : bool :=
  String.eqb (property_get PROP_STREAMIN_DUMP "0" w) "1".

(** [mFileCounter.fetch_add(1)]: the value before the increment. *)
Definition GetNextCounter (m : t) : Z * t :=
  (mFileCounter m, with_mFileCounter (wrap_u32 (mFileCounter m + 1)) m).

Definition AppendToQueueFile (filename : string) (m : t) (w : world) : bool * world :=
  let '(opened, w) := outcome SysAppend w in
  if opened then
    (true, emit (EvAppend (c_str (mQueueFilePath m))
                          (list_byte_of_string (filename +:+ newline))) w)
  else (false, w).

Definition READY_TAG : string := "AUDIO_DUMP_READY: ".

Definition OnDumpFileCompleted (filename : string) (m : t) (w : world) : t * world :=
  let m := with_mCompletedFiles (mCompletedFiles m ++ [filename]) m in
  let '(_, w) := AppendToQueueFile filename m w in
  (m, emit (EvLog (READY_TAG +:+ c_str filename)) w).

End AudioDumpManager.

(** The process: the singleton [AudioDumpManager::GetInstance()] and the
    operating system around it. *)
Record process : Type := {
  instance : AudioDumpManager.t;
  os : world;
}.

Definition with_os (w : world) (p : process) : process :=
  {| instance := instance p; os := w |}.

(** ** StreamDumper *)

Module StreamDumper.

Definition BUFFER_SIZE : Z := 262144.           (* 256 * 1024 *)
Definition FLUSH_THRESHOLD : Z := 10485760.     (* 10 * 1024 * 1024 *)
Definition MAX_FILE_SIZE : Z := 104857600.      (* 100 * 1024 * 1024 *)

Record t : Type := {
  mType : AudioStreamType;
  mDumpDirectory : string;
  mTimestamp : string;
  mBaseCounter : Z;         (* uint32_t *)
  mFileIndex : Z;           (* uint32_t *)
  mFile : ofstream;
  mCurrentFilePath : string;
  mCurrentFilename : string;
  mBuffer : list byte;
  mBufferOffset : Z;        (* size_t *)
  mCurrentFileSize : Z;     (* size_t *)
  mBytesSinceFlush : Z;     (* size_t *)
  mTotalBytesWritten : Z;   (* size_t *)
  mFileCount : Z;           (* uint32_t *)
  mIsValid : bool;
}.

Definition with_mFileIndex (v : Z) (d : t) : t :=
  {| mType := mType d; mDumpDirectory := mDumpDirectory d; mTimestamp := mTimestamp d;
     mBaseCounter := mBaseCounter d; mFileIndex := v; mFile := mFile d;
     mCurrentFilePath := mCurrentFilePath d; mCurrentFilename := mCurrentFilename d;
     mBuffer := mBuffer d; mBufferOffset := mBufferOffset d;
     mCurrentFileSize := mCurrentFileSize d; mBytesSinceFlush := mBytesSinceFlush d;
     mTotalBytesWritten := mTotalBytesWritten d; mFileCount := mFileCount d;
     mIsValid := mIsValid d |}.

Definition with_mFile (v : ofstream) (d : t) : t :=
  {| mType := mType d; mDumpDirectory := mDumpDirectory d; mTimestamp := mTimestamp d;
     mBaseCounter := mBaseCounter d; mFileIndex := mFileIndex d; mFile := v;
     mCurrentFilePath := mCurrentFilePath d; mCurrentFilename := mCurrentFilename d;
     mBuffer := mBuffer d; mBufferOffset := mBufferOffset d;
     mCurrentFileSize := mCurrentFileSize d; mBytesSinceFlush := mBytesSinceFlush d;
     mTotalBytesWritten := mTotalBytesWritten d; mFileCount := mFileCount d;
     mIsValid := mIsValid d |}.

Definition with_mCurrentFilePath (v : string) (d : t) : t :=
  {| mType := mType d; mDumpDirectory := mDumpDirectory d; mTimestamp := mTimestamp d;
     mBaseCounter := mBaseCounter d; mFileIndex := mFileIndex d; mFile := mFile d;
     mCurrentFilePath := v; mCurrentFilename := mCurrentFilename d;
     mBuffer := mBuffer d; mBufferOffset := mBufferOffset d;
     mCurrentFileSize := mCurrentFileSize d; mBytesSinceFlush := mBytesSinceFlush d;
     mTotalBytesWritten := mTotalBytesWritten d; mFileCount := mFileCount d;
     mIsValid := mIsValid d |}.

Definition with_mCurrentFilename (v : string) (d : t) : t :=
  {| mType := mType d; mDumpDirectory := mDumpDirectory d; mTimestamp := mTimestamp d;
     mBaseCounter := mBaseCounter d; mFileIndex := mFileIndex d; mFile := mFile d;
     mCurrentFilePath := mCurrentFilePath d; mCurrentFilename := v;
     mBuffer := mBuffer d; mBufferOffset := mBufferOffset d;
     mCurrentFileSize := mCurrentFileSize d; mBytesSinceFlush := mBytesSinceFlush d;
     mTotalBytesWritten := mTotalBytesWritten d; mFileCount := mFileCount d;
     mIsValid := mIsValid d |}.

Definition with_mBuffer (v : list byte) (d : t) : t :=
  {| mType := mType d; mDumpDirectory := mDumpDirectory d; mTimestamp := mTimestamp d;
     mBaseCounter := mBaseCounter d; mFileIndex := mFileIndex d; mFile := mFile d;
     mCurrentFilePath := mCurrentFilePath d; mCurrentFilename := mCurrentFilename d;
     mBuffer := v; mBufferOffset := mBufferOffset d;
     mCurrentFileSize := mCurrentFileSize d; mBytesSinceFlush := mBytesSinceFlush d;
     mTotalBytesWritten := mTotalBytesWritten d; mFileCount := mFileCount d;
     mIsValid := mIsValid d |}.

Definition with_mBufferOffset (v : Z) (d : t) : t :=
  {| mType := mType d; mDumpDirectory := mDumpDirectory d; mTimestamp := mTimestamp d;
     mBaseCounter := mBaseCounter d; mFileIndex := mFileIndex d; mFile := mFile d;
     mCurrentFilePath := mCurrentFilePath d; mCurrentFilename := mCurrentFilename d;
     mBuffer := mBuffer d; mBufferOffset := v;
     mCurrentFileSize := mCurrentFileSize d; mBytesSinceFlush := mBytesSinceFlush d;
     mTotalBytesWritten := mTotalBytesWritten d; mFileCount := mFileCount d;
     mIsValid := mIsValid d |}.

Definition with_mCurrentFileSize (v : Z) (d : t) : t :=
  {| mType := mType d; mDumpDirectory := mDumpDirectory d; mTimestamp := mTimestamp d;
     mBaseCounter := mBaseCounter d; mFileIndex := mFileIndex d; mFile := mFile d;
     mCurrentFilePath := mCurrentFilePath d; mCurrentFilename := mCurrentFilename d;
     mBuffer := mBuffer d; mBufferOffset := mBufferOffset d;
     mCurrentFileSize := v; mBytesSinceFlush := mBytesSinceFlush d;
     mTotalBytesWritten := mTotalBytesWritten d; mFileCount := mFileCount d;
     mIsValid := mIsValid d |}.

Definition with_mBytesSinceFlush (v : Z) (d : t) : t :=
  {| mType := mType d; mDumpDirectory := mDumpDirectory d; mTimestamp := mTimestamp d;
     mBaseCounter := mBaseCounter d; mFileIndex := mFileIndex d; mFile := mFile d;
     mCurrentFilePath := mCurrentFilePath d; mCurrentFilename := mCurrentFilename d;
     mBuffer := mBuffer d; mBufferOffset := mBufferOffset d;
     mCurrentFileSize := mCurrentFileSize d; mBytesSinceFlush := v;
     mTotalBytesWritten := mTotalBytesWritten d; mFileCount := mFileCount d;
     mIsValid := mIsValid d |}.

Definition with_mTotalBytesWritten (v : Z) (d : t) : t :=
  {| mType := mType d; mDumpDirectory := mDumpDirectory d; mTimestamp := mTimestamp d;
     mBaseCounter := mBaseCounter d; mFileIndex := mFileIndex d; mFile := mFile d;
     mCurrentFilePath := mCurrentFilePath d; mCurrentFilename := mCurrentFilename d;
     mBuffer := mBuffer d; mBufferOffset := mBufferOffset d;
     mCurrentFileSize := mCurrentFileSize d; mBytesSinceFlush := mBytesSinceFlush d;
     mTotalBytesWritten := v; mFileCount := mFileCount d;
     mIsValid := mIsValid d |}.

Definition with_mFileCount (v : Z) (d : t) : t :=
  {| mType := mType d; mDumpDirectory := mDumpDirectory d; mTimestamp := mTimestamp d;
     mBaseCounter := mBaseCounter d; mFileIndex := mFileIndex d; mFile := mFile d;
     mCurrentFilePath := mCurrentFilePath d; mCurrentFilename := mCurrentFilename d;
     mBuffer := mBuffer d; mBufferOffset := mBufferOffset d;
     mCurrentFileSize := mCurrentFileSize d; mBytesSinceFlush := mBytesSinceFlush d;
     mTotalBytesWritten := mTotalBytesWritten d; mFileCount := v;
     mIsValid := mIsValid d |}.

Definition with_mIsValid (v : bool) (d : t) : t :=
  {| mType := mType d; mDumpDirectory := mDumpDirectory d; mTimestamp := mTimestamp d;
     mBaseCounter := mBaseCounter d; mFileIndex := mFileIndex d; mFile := mFile d;
     mCurrentFilePath := mCurrentFilePath d; mCurrentFilename := mCurrentFilename d;
     mBuffer := mBuffer d; mBufferOffset := mBufferOffset d;
     mCurrentFileSize := mCurrentFileSize d; mBytesSinceFlush := mBytesSinceFlush d;
     mTotalBytesWritten := mTotalBytesWritten d; mFileCount := mFileCount d;
     mIsValid := v |}.

Definition GetStreamTypeString (d : t) : string :=
  match mType d with
  | STREAM_OUT => "streamout"
  | STREAM_IN => "streamin"
  end.

(** The text [snprintf] formats, before it is cut to the buffer. *)
Definition filename_text (withTmp : bool) (d : t) : string :=
  "audio_" +:+ GetStreamTypeString d +:+ "_" +:+ c_str (mTimestamp d) +:+ "_"
    +:+ fmt_u (mBaseCounter d) +:+ "_" +:+ fmt_u (mFileIndex d) +:+ "."
    +:+ (if withTmp then "pcm.tmp" else "pcm").

Definition GenerateFilename (withTmp : bool) (d : t) : string :=
  snprintf 256 (filename_text withTmp d).

Definition IsValid (d : t) : bool := mIsValid d.
Definition GetCurrentFileSize (d : t) : Z := mCurrentFileSize d.
Definition GetTotalBytesWritten (d : t) : Z := mTotalBytesWritten d.
Definition GetFileCount (d : t) : Z := mFileCount d.

Definition OpenNewFile (d : t) (w : world) : bool * t * world :=
  let d := with_mCurrentFilename (GenerateFilename false d) d in
  let tmpFilename := GenerateFilename true d in
  let d := with_mCurrentFilePath (mDumpDirectory d +:+ tmpFilename) d in
  let '(f, w) := ofs_open (mCurrentFilePath d) (mFile d) w in
  let d := with_mFile f d in
  if negb (is_open f) then (false, d, w)
  else
    let d := with_mCurrentFileSize 0 d in
    let d := with_mBytesSinceFlush 0 d in
    let d := with_mBufferOffset 0 d in
    let d := with_mFileCount (wrap_u32 (mFileCount d + 1)) d in
    let d := with_mFileIndex (wrap_u32 (mFileIndex d + 1)) d in
    (true, d, w).

Definition CloseCurrentFile (complete : bool) (d : t) (p : process) : t * process :=
  if negb (is_open (mFile d)) then (d, p)
  else
    let '(f, w) := ofs_close (mFile d) (os p) in
    let d := with_mFile f d in
    let p :=
      if complete && (0 <? mCurrentFileSize d) then
        let finalPath := mDumpDirectory d +:+ mCurrentFilename d in
        let '(renamed, w) := sys_rename (mCurrentFilePath d) finalPath w in
        if renamed then
          let '(m, w) :=
            AudioDumpManager.OnDumpFileCompleted (mCurrentFilename d) (instance p) w in
          {| instance := m; os := w |}
        else with_os w p
      else with_os (sys_unlink (mCurrentFilePath d) w) p in
    (with_mCurrentFilePath "" d, p).

Definition FlushBuffer (d : t) (w : world) : bool * t * world :=
  if mBufferOffset d =? 0 then (true, d, w)
  else if negb (is_open (mFile d)) then (false, d, w)
  else
    let '(f, w) :=
      ofs_write (take (Z.to_nat (mBufferOffset d)) (mBuffer d)) (mFile d) w in
    let d := with_mFile f d in
    if negb (good f) then (false, d, w)
    else
      let d := with_mCurrentFileSize
                 (wrap_size (mCurrentFileSize d + mBufferOffset d)) d in
      let d := with_mTotalBytesWritten
                 (wrap_size (mTotalBytesWritten d + mBufferOffset d)) d in
      let d := with_mBytesSinceFlush
                 (wrap_size (mBytesSinceFlush d + mBufferOffset d)) d in
      (true, with_mBufferOffset 0 d, w).

(** [memcpy(dst.data() + off, src, length src)] on a vector. *)
Definition memcpy_at (dst : list byte) (off : Z) (src : list byte) : list byte :=
  take (Z.to_nat off) dst ++ src ++ drop (Z.to_nat off + length src) dst.

(** One turn of the [while (bytesRemaining > 0)] loop of [WriteData], on
    the bytes [data] that remain: [inl] when the turn returns -1, [inr]
    with the bytes still to copy otherwise. *)
Definition WriteTurn (data : list byte) (d : t) (p : process)
  : (t * process) + (Z * list byte * t * process) :=
  (* Check if we need to switch to a new file *)
  let '(opened, d, p) :=
    if MAX_FILE_SIZE <=? mCurrentFileSize d then
      let '(d, p) := CloseCurrentFile true d p in
      let '(ok, d, w) := OpenNewFile d (os p) in
      (ok, d, with_os w p)
    else (true, d, p) in
  if negb opened then inl (with_mIsValid false d, p)
  else
    (* Calculate how much we can write to buffer *)
    let bytesRemaining := Z.of_nat (length data) in
    let spaceInBuffer := wrap_size (BUFFER_SIZE - mBufferOffset d) in
    let bytesToCopy := Z.min bytesRemaining spaceInBuffer in
    (* Copy to buffer *)
    let chunk := take (Z.to_nat bytesToCopy) data in
    let d := with_mBuffer (memcpy_at (mBuffer d) (mBufferOffset d) chunk) d in
    let d := with_mBufferOffset (wrap_size (mBufferOffset d + bytesToCopy)) d in
    let data := drop (Z.to_nat bytesToCopy) data in
    (* Flush if buffer is full *)
    let '(flushed, d, w) :=
      if BUFFER_SIZE <=? mBufferOffset d then FlushBuffer d (os p)
      else (true, d, os p) in
    if negb flushed then inl (with_mIsValid false d, with_os w p)
    else
      (* Check if we should flush based on bytes since last flush *)
      let '(d, w) :=
        if FLUSH_THRESHOLD <=? mBytesSinceFlush d then
          let '(f, w) := ofs_flush (mFile d) w in
          (with_mBytesSinceFlush 0 (with_mFile f d), w)
        else (d, w) in
      inr (bytesToCopy, data, d, with_os w p).

(** The loop; [None] only when [fuel] turns did not consume [data]. *)
Fixpoint WriteLoop (fuel : nat) (data : list byte) (totalWritten : Z)
    (d : t) (p : process) : option (Z * t * process) :=
  match data with
  | [] => Some (to_ssize totalWritten, d, p)
  | _ :: _ =>
      match fuel with
      | O => None
      | S fuel' =>
          match WriteTurn data d p with
          | inl (d, p) => Some (-1, d, p)
          | inr (bytesToCopy, data, d, p) =>
              WriteLoop fuel' data (wrap_size (totalWritten + bytesToCopy)) d p
          end
      end
  end.

Definition WriteData (buffer : option (list byte)) (d : t) (p : process)
  : option (Z * t * process) :=
  match buffer with
  | None => Some (-1, d, p)
  | Some data =>
      if negb (mIsValid d) || (Z.of_nat (length data) =? 0) then Some (-1, d, p)
      else WriteLoop (S (length data)) data 0 d p
  end.

Definition ForceClose (d : t) (p : process) : t * process :=
  let '(d, p) :=
    if is_open (mFile d) then
      (* Flush any remaining data in buffer *)
      let '(d, w) :=
        if 0 <? mBufferOffset d then
          let '(f, w) :=
            ofs_write (take (Z.to_nat (mBufferOffset d)) (mBuffer d)) (mFile d) (os p) in
          let d := with_mFile f d in
          let d := with_mCurrentFileSize
                     (wrap_size (mCurrentFileSize d + mBufferOffset d)) d in
          let d := with_mTotalBytesWritten
                     (wrap_size (mTotalBytesWritten d + mBufferOffset d)) d in
          (with_mBufferOffset 0 d, w)
        else (d, os p) in
      CloseCurrentFile true d (with_os w p)
    else (d, p) in
  (with_mIsValid false d, p).

(** The constructor. *)
Definition ctor (type : AudioStreamType) (dumpDir timestamp : string)
    (baseCounter : Z) (w : world) : t * world :=
  let d :=
    {| mType := type; mDumpDirectory := dumpDir; mTimestamp := timestamp;
       mBaseCounter := baseCounter; mFileIndex := 0; mFile := ofstream_init;
       mCurrentFilePath := ""; mCurrentFilename := "";
       mBuffer := repeat x00 (Z.to_nat BUFFER_SIZE);
       mBufferOffset := 0; mCurrentFileSize := 0; mBytesSinceFlush := 0;
       mTotalBytesWritten := 0; mFileCount := 0; mIsValid := false |} in
  let '(ok, d, w) := OpenNewFile d w in
  if ok then (with_mIsValid true d, w) else (d, w).

(** The destructor. *)
Definition dtor (d : t) (p : process) : t * process := ForceClose d p.

End StreamDumper.

(** [AudioDumpManager::CreateStreamDumper], declared in the manager and
    defined here, after the class it constructs. [timestamp] is the text
    [strftime] produced for the current time. *)
Definition CreateStreamDumper (type : AudioStreamType) (timestamp : string)
    (p : process) : option StreamDumper.t * process :=
  let enabled :=
    match type with
    | STREAM_OUT => AudioDumpManager.IsStreamOutDumpEnabled (os p)
    | STREAM_IN => AudioDumpManager.IsStreamInDumpEnabled (os p)
    end in
  if negb enabled then (None, p)
  else
    let '(ok, m, w) :=
      if negb (AudioDumpManager.mInitialized (instance p)) then
        AudioDumpManager.Initialize (instance p) (os p)
      else (true, instance p, os p) in
    if negb ok then (None, {| instance := m; os := w |})
    else
      let '(counter, m) := AudioDumpManager.GetNextCounter m in
      let '(dumper, w) :=
        StreamDumper.ctor type (AudioDumpManager.mDumpDirectory m) timestamp counter w in
      (Some dumper, {| instance := m; os := w |}).

(** ** The streams that carry a dumper

    [StreamOut_integration.cpp] and [StreamIn_integration.cpp] are the same
    code for the two stream kinds: [StreamOutWithDump] and
    [StreamInWithDump], and the wrappers [StreamOutDumpWrapper] and
    [StreamInDumpWrapper]. [StreamWithDump] and [StreamDumpWrapper] below
    are that code with the stream kind as a parameter; the four classes
    are its two instances. A [unique_ptr<StreamDumper>] is an
    [option StreamDumper.t]; letting go of the dumper it holds runs the
    dumper's destructor. *)

(** The first [size] bytes at [buffer]; a caller passes a buffer that
    holds at least that many. *)
Definition sized (buffer : option (list byte)) (size : Z) : option (list byte) :=
  match buffer with
  | Some data => Some (take (Z.to_nat size) data)
  | None => None
  end.

(** [IsStreamOutDumpEnabled()] or [IsStreamInDumpEnabled()], as the class
    of that kind calls it. *)
Definition IsDumpEnabled (type : AudioStreamType) (w : world) : bool :=
  match type with
  | STREAM_OUT => AudioDumpManager.IsStreamOutDumpEnabled w
  | STREAM_IN => AudioDumpManager.IsStreamInDumpEnabled w
  end.

(** [~unique_ptr()], [reset()] and the assignment of a new pointer: the
    dumper held, if any, is destroyed. *)
Definition destroy (held : option StreamDumper.t) (p : process) : process :=
  match held with
  | Some d => (StreamDumper.dtor d p).2
  | None => p
  end.

Module StreamWithDump.

Record t : Type := { mDumper : option StreamDumper.t }.

(** [mDumper] as a condition: it holds a dumper. *)
Definition holds (s : t) : bool :=
  match mDumper s with
  | Some _ => true
  | None => false
  end.

Section Kind.

Variable type : AudioStreamType.

Definition initDumper (timestamp : string) (s : t) (p : process) : t * process :=
  (* Check if dump is enabled via system property *)
  if IsDumpEnabled type (os p) then
    let '(dumper, p) := CreateStreamDumper type timestamp p in
    ({| mDumper := dumper |}, destroy (mDumper s) p)
  else (s, p).

Definition closeDumper (s : t) (p : process) : t * process :=
  match mDumper s with
  | Some d =>
      let '(d, p) := StreamDumper.ForceClose d p in
      ({| mDumper := None |}, destroy (Some d) p)
  | None => (s, p)
  end.

(** The constructor; [timestamp] is the time [CreateStreamDumper] reads. *)
Definition ctor (timestamp : string) (p : process) : t * process :=
  initDumper timestamp {| mDumper := None |} p.

(** The destructor: [closeDumper()], then the member [mDumper] goes. *)
Definition dtor (s : t) (p : process) : process :=
  let '(s, p) := closeDumper s p in destroy (mDumper s) p.

(** [write(buffer, bytes)] of the playback stream, [read(buffer, bytes)]
    of the recording stream; the transfer itself is the placeholder of the
    source, which moves all [bytes]. [None] only when [WriteData] ran out
    of fuel. *)
Definition transfer (buffer : option (list byte)) (bytes : Z) (s : t) (p : process)
    : option (Z * t * process) :=
  let written := to_ssize bytes in
  match mDumper s with
  | Some d =>
      if 0 <? written then
        match StreamDumper.WriteData (sized buffer written) d p with
        | Some (_, d, p) => Some (written, {| mDumper := Some d |}, p)
        | None => None
        end
      else Some (written, s, p)
  | None => Some (written, s, p)
  end.

Definition close (s : t) (p : process) : t * process := closeDumper s p.

Definition refreshDumpStatus (timestamp : string) (s : t) (p : process) : t * process :=
  let shouldDump := IsDumpEnabled type (os p) in
  if shouldDump && negb (holds s) then
    (* Dump was just enabled *)
    initDumper timestamp s p
  else if negb shouldDump && holds s then
    (* Dump was just disabled *)
    closeDumper s p
  else (s, p).

End Kind.

End StreamWithDump.

Module StreamOutWithDump.
Definition t : Type := StreamWithDump.t.
Definition initDumper := StreamWithDump.initDumper STREAM_OUT.
Definition closeDumper := StreamWithDump.closeDumper.
Definition ctor := StreamWithDump.ctor STREAM_OUT.
Definition dtor := StreamWithDump.dtor.
Definition write := StreamWithDump.transfer.
Definition close := StreamWithDump.close.
Definition refreshDumpStatus := StreamWithDump.refreshDumpStatus STREAM_OUT.
End StreamOutWithDump.

Module StreamInWithDump.
Definition t : Type := StreamWithDump.t.
Definition initDumper := StreamWithDump.initDumper STREAM_IN.
Definition closeDumper := StreamWithDump.closeDumper.
Definition ctor := StreamWithDump.ctor STREAM_IN.
Definition dtor := StreamWithDump.dtor.
Definition read := StreamWithDump.transfer.
Definition close := StreamWithDump.close.
Definition refreshDumpStatus := StreamWithDump.refreshDumpStatus STREAM_IN.
End StreamInWithDump.

Module StreamDumpWrapper.

Record t : Type := { mDumper : option StreamDumper.t }.

Section Kind.

Variable type : AudioStreamType.

Definition ctor (timestamp : string) (p : process) : t * process :=
  if IsDumpEnabled type (os p) then
    let '(dumper, p) := CreateStreamDumper type timestamp p in
    ({| mDumper := dumper |}, p)
  else ({| mDumper := None |}, p).

(** The destructor: [ForceClose()] if a dumper is held, then the member
    [mDumper] goes. *)
Definition dtor (s : t) (p : process) : process :=
  match mDumper s with
  | Some d =>
      let '(d, p) := StreamDumper.ForceClose d p in destroy (Some d) p
  | None => p
  end.

(** [onDataWritten(buffer, size)], [onDataRead(buffer, size)]. *)
Definition onData (buffer : option (list byte)) (s : t) (p : process)
    : option (t * process) :=
  match mDumper s with
  | Some d =>
      if StreamDumper.IsValid d then
        match StreamDumper.WriteData buffer d p with
        | Some (_, d, p) => Some ({| mDumper := Some d |}, p)
        | None => None
        end
      else Some (s, p)
  | None => Some (s, p)
  end.

End Kind.

End StreamDumpWrapper.

Module StreamOutDumpWrapper.
Definition t : Type := StreamDumpWrapper.t.
Definition ctor := StreamDumpWrapper.ctor STREAM_OUT.
Definition dtor := StreamDumpWrapper.dtor.
Definition onDataWritten := StreamDumpWrapper.onData.
End StreamOutDumpWrapper.

Module StreamInDumpWrapper.
Definition t : Type := StreamDumpWrapper.t.
Definition ctor := StreamDumpWrapper.ctor STREAM_IN.
Definition dtor := StreamDumpWrapper.dtor.
Definition onDataRead := StreamDumpWrapper.onData.
End StreamInDumpWrapper.


(** * Vocabulary of the properties *)

(** A sequence of [WriteData] calls on one dumper; the values they
    returned, oldest first. *)
Fixpoint WriteAll (buffers : list (option (list byte))) (d : StreamDumper.t)
    (p : process) : option (list Z * StreamDumper.t * process) :=
  match buffers with
  | [] => Some ([], d, p)
  | buffer :: rest =>
      match StreamDumper.WriteData buffer d p with
      | None => None
      | Some (r, d, p) =>
          match WriteAll rest d p with
          | None => None
          | Some (rs, d, p) => Some (r :: rs, d, p)
          end
      end
  end.

(** The writes a caller makes: non-empty buffers, of a size [ssize_t] can
    return. *)
Definition sendable (data : list byte) : Prop :=
  data <> [] /\ Z.of_nat (length data) < SSIZE_LIMIT.

(** The sum of the sizes of a sequence of writes. *)
Definition total_size (datas : list (list byte)) : Z :=
  fold_right (fun data acc => Z.of_nat (length data) + acc) 0 datas.

Definition sizes (datas : list (list byte)) : list Z :=
  map (fun data => Z.of_nat (length data)) datas.

(** The lines of the notification side channel, oldest first. *)
Fixpoint notifications (tr : list event) : list string :=
  match tr with
  | [] => []
  | EvLog line :: rest => line :: notifications rest
  | _ :: rest => notifications rest
  end.

(** The switch [CreateStreamDumper] reads for a stream kind. *)
Definition dump_enabled (type : AudioStreamType) (w : world) : bool :=
  match type with
  | STREAM_OUT => AudioDumpManager.IsStreamOutDumpEnabled w
  | STREAM_IN => AudioDumpManager.IsStreamInDumpEnabled w
  end.

(** A string a C function reads whole: it holds no NUL. *)
Definition nul_free (s : string) : Prop := c_str s = s.

(** ** The files of one dumper *)

Section Naming.

Variables (type : AudioStreamType) (dumpDir timestamp : string) (baseCounter : Z).

(** A dumper with the constructor's arguments, before its first file. *)
Definition seed : StreamDumper.t :=
  {| StreamDumper.mType := type; StreamDumper.mDumpDirectory := dumpDir;
     StreamDumper.mTimestamp := timestamp; StreamDumper.mBaseCounter := baseCounter;
     StreamDumper.mFileIndex := 0; StreamDumper.mFile := ofstream_init;
     StreamDumper.mCurrentFilePath := ""; StreamDumper.mCurrentFilename := "";
     StreamDumper.mBuffer := repeat x00 (Z.to_nat StreamDumper.BUFFER_SIZE);
     StreamDumper.mBufferOffset := 0; StreamDumper.mCurrentFileSize := 0;
     StreamDumper.mBytesSinceFlush := 0; StreamDumper.mTotalBytesWritten := 0;
     StreamDumper.mFileCount := 0; StreamDumper.mIsValid := false |}.

(** The name [GenerateFilename] gives the i-th file the dumper opens
    (i = 0 for the first), and the paths the system calls receive. *)
Definition file_name (withTmp : bool) (i : Z) : string :=
  StreamDumper.GenerateFilename withTmp (StreamDumper.with_mFileIndex (wrap_u32 i) seed).

Definition tmp_path (i : Z) : string := c_str (dumpDir +:+ file_name true i).
Definition final_path (i : Z) : string := c_str (dumpDir +:+ file_name false i).

(** What the two names of file [i] have in common. *)
Definition file_stem (i : Z) : string :=
  "audio_" +:+ (match type with STREAM_OUT => "streamout" | STREAM_IN => "streamin" end)
    +:+ "_" +:+ c_str timestamp +:+ "_" +:+ fmt_u baseCounter +:+ "_"
    +:+ fmt_u (wrap_u32 i).

End Naming.

(** ** The state a dumper reaches by writing without failures *)

Section Layout.

Variables (type : AudioStreamType) (dumpDir timestamp : string) (baseCounter : Z).

(** The process the dumper was constructed in. *)
Variable p0 : process.

(** Files closed for rotation once [n] bytes were accepted: the file in
    use is closed only when a further byte arrives. *)
Definition files_done (n : Z) : Z :=
  if n =? 0 then 0 else (n - 1) / StreamDumper.MAX_FILE_SIZE.

(** Of [n] accepted bytes, those that left the buffer. *)
Definition flushed (n : Z) : Z := n - n mod StreamDumper.BUFFER_SIZE.

(** Bytes [a] (included) to [b] (excluded) of [L]. *)
Definition slice (L : list byte) (a b : Z) : list byte :=
  take (Z.to_nat (b - a)) (drop (Z.to_nat a) L).

Definition queue_path : string :=
  c_str (AudioDumpManager.mQueueFilePath (instance p0)).

Definition queue_line (i : Z) : list byte :=
  list_byte_of_string (file_name type dumpDir timestamp baseCounter false i +:+ newline).

Definition ready_line (name : string) : string :=
  AudioDumpManager.READY_TAG +:+ c_str name.

(** The file system once the first [k] files, each holding
    [MAX_FILE_SIZE] bytes of the stream [L], were renamed and recorded. *)
Fixpoint finalized_fs (L : list byte) (k : nat) : gmap string node :=
  match k with
  | O => w_fs (os p0)
  | S j =>
      let i := Z.of_nat j in
      apply_event (EvAppend queue_path (queue_line i))
        (apply_event
           (EvRename (tmp_path type dumpDir timestamp baseCounter i)
                     (final_path type dumpDir timestamp baseCounter i))
           (<[tmp_path type dumpDir timestamp baseCounter i :=
                NFile (slice L (i * StreamDumper.MAX_FILE_SIZE)
                               ((i + 1) * StreamDumper.MAX_FILE_SIZE))]>
              (finalized_fs L j)))
  end.

Definition finalized_names (k : nat) : list string :=
  map (fun j => file_name type dumpDir timestamp baseCounter false (Z.of_nat j)) (seq 0 k).

(** The dumper on its file number [r] (files 0 .. r-1 are finalized)
    after [n] bytes were accepted, with [buf] as buffer. *)
Definition dumper_at (r n : Z) (buf : list byte) : StreamDumper.t :=
  {| StreamDumper.mType := type; StreamDumper.mDumpDirectory := dumpDir;
     StreamDumper.mTimestamp := timestamp; StreamDumper.mBaseCounter := baseCounter;
     StreamDumper.mFileIndex := wrap_u32 (r + 1);
     StreamDumper.mFile :=
       {| is_open := true; good := true;
          of_path := tmp_path type dumpDir timestamp baseCounter r |};
     StreamDumper.mCurrentFilePath :=
       dumpDir +:+ file_name type dumpDir timestamp baseCounter true r;
     StreamDumper.mCurrentFilename := file_name type dumpDir timestamp baseCounter false r;
     StreamDumper.mBuffer := buf;
     StreamDumper.mBufferOffset := n mod StreamDumper.BUFFER_SIZE;
     StreamDumper.mCurrentFileSize := flushed n - r * StreamDumper.MAX_FILE_SIZE;
     StreamDumper.mBytesSinceFlush :=
       (flushed n - r * StreamDumper.MAX_FILE_SIZE) mod StreamDumper.FLUSH_THRESHOLD;
     StreamDumper.mTotalBytesWritten := wrap_size (flushed n);
     StreamDumper.mFileCount := wrap_u32 (r + 1);
     StreamDumper.mIsValid := true |}.

(** The process then: files 0 .. r-1 renamed, recorded and notified; the
    flushed bytes of file [r] under its temporary name. *)
Definition process_at (r : Z) (L : list byte) (F : Faults) (tr : list event) : process :=
  let n := Z.of_nat (length L) in
  {| instance :=
       AudioDumpManager.with_mCompletedFiles
         (AudioDumpManager.mCompletedFiles (instance p0)
            ++ finalized_names (Z.to_nat r))
         (instance p0);
     os := {| w_fs :=
                <[tmp_path type dumpDir timestamp baseCounter r :=
                    NFile (slice L (r * StreamDumper.MAX_FILE_SIZE) (flushed n))]>
                  (finalized_fs L (Z.to_nat r));
              w_props := w_props (os p0);
              w_faults := F;
              w_trace := tr |} |}.

Definition Layout (r : Z) (L : list byte) (d : StreamDumper.t) (p : process) : Prop :=
  let n := Z.of_nat (length L) in
  exists buf F tr,
    d = dumper_at r n buf /\
    p = process_at r L F tr /\
    length buf = Z.to_nat StreamDumper.BUFFER_SIZE /\
    take (Z.to_nat (n mod StreamDumper.BUFFER_SIZE)) buf = drop (Z.to_nat (flushed n)) L /\
    fault_free F = true /\
    notifications tr =
      notifications (w_trace (os p0)) ++ map ready_line (finalized_names (Z.to_nat r)).

(** [Written L d p]: the dumper [d] and the process [p] are what the
    constructor followed by writes of the bytes [L], none of which failed,
    lead to. *)
Definition Written (L : list byte) (d : StreamDumper.t) (p : process) : Prop :=
  Layout (files_done (Z.of_nat (length L))) L d p.

(** What [ForceClose] leaves of a dumper that accepted [n] > 0 bytes. *)
Definition dumper_closed (n : Z) (buf : list byte) : StreamDumper.t :=
  let r := files_done n in
  {| StreamDumper.mType := type; StreamDumper.mDumpDirectory := dumpDir;
     StreamDumper.mTimestamp := timestamp; StreamDumper.mBaseCounter := baseCounter;
     StreamDumper.mFileIndex := wrap_u32 (r + 1);
     StreamDumper.mFile :=
       {| is_open := false; good := true;
          of_path := tmp_path type dumpDir timestamp baseCounter r |};
     StreamDumper.mCurrentFilePath := "";
     StreamDumper.mCurrentFilename := file_name type dumpDir timestamp baseCounter false r;
     StreamDumper.mBuffer := buf;
     StreamDumper.mBufferOffset := 0;
     StreamDumper.mCurrentFileSize := n - r * StreamDumper.MAX_FILE_SIZE;
     StreamDumper.mBytesSinceFlush :=
       (flushed n - r * StreamDumper.MAX_FILE_SIZE) mod StreamDumper.FLUSH_THRESHOLD;
     StreamDumper.mTotalBytesWritten := wrap_size n;
     StreamDumper.mFileCount := wrap_u32 (r + 1);
     StreamDumper.mIsValid := false |}.

(** The process [ForceClose] leaves then: every file, the last included,
    renamed, recorded and notified. *)
Definition process_closed (L : list byte) (F : Faults) (tr : list event) : process :=
  let k := S (Z.to_nat (files_done (Z.of_nat (length L)))) in
  {| instance :=
       AudioDumpManager.with_mCompletedFiles
         (AudioDumpManager.mCompletedFiles (instance p0) ++ finalized_names k)
         (instance p0);
     os := {| w_fs := finalized_fs L k;
              w_props := w_props (os p0);
              w_faults := F;
              w_trace := tr |} |}.

End Layout.

(** ** The commit protocol, as a property of traces *)

Fixpoint has_suffix (suffix s : string) : bool :=
  String.eqb s suffix
  || match s with
     | EmptyString => false
     | String _ r => has_suffix suffix r
     end.

Fixpoint strip_prefix (prefix s : string) : option string :=
  match prefix, s with
  | EmptyString, _ => Some s
  | String a p', String b s' => if Ascii.eqb a b then strip_prefix p' s' else None
  | String _ _, EmptyString => None
  end.

Definition temp_named (path : string) : bool := has_suffix ".pcm.tmp" path.
Definition final_named (path : string) : bool := has_suffix ".pcm" path.

(** Where a dumper stands in the life of its current file. *)
Inductive phase : Type :=
  | Idle                      (* no file *)
  | Opened (path : string)    (* the temporary file is open and receives writes *)
  | Closed (path : string)    (* closed; renamed, removed or left behind next *)
  | Renamed (dst : string).   (* promoted to its final name; to be notified *)

(** The operations a dumper working in directory [dir] may perform in
    each phase. Bytes go to the open temporary file only; a rename takes
    the closed temporary file to the same path without [.tmp]; the
    notification follows the rename and names the renamed file. *)
Definition commit_step (dir : string) (ph : phase) (e : event) : option phase :=
  match e, ph with
  | EvOpen q, (Idle | Closed _) => if temp_named q then Some (Opened q) else None
  | EvWrite q _, Opened q' => if String.eqb q q' then Some ph else None
  | EvClose q, Opened q' => if String.eqb q q' then Some (Closed q) else None
  | EvRename src dst, Closed q =>
      if String.eqb src q && String.eqb src (dst +:+ ".tmp") && final_named dst
      then Some (Renamed dst) else None
  | EvUnlink q, Closed q' => if String.eqb q q' then Some Idle else None
  | EvAppend q _, Renamed dst =>
      if negb (temp_named q) && negb (final_named q) then Some ph else None
  | EvLog line, Renamed dst =>
      match strip_prefix AudioDumpManager.READY_TAG line with
      | Some name => if String.eqb dst (dir +:+ name) then Some Idle else None
      | None => None
      end
  | _, _ => None
  end.

Fixpoint commit_run (dir : string) (ph : phase) (tr : list event) : option phase :=
  match tr with
  | [] => Some ph
  | e :: rest =>
      match commit_step dir ph e with
      | Some ph' => commit_run dir ph' rest
      | None => None
      end
  end.

(** The file a phase speaks of has a temporary name. *)
Definition phase_ok (ph : phase) : Prop :=
  match ph with
  | Opened q | Closed q => temp_named q = true
  | Idle | Renamed _ => True
  end.

(** No file is mid-commit: none is open, none is renamed but not yet
    notified. *)
Definition settled (ph : phase) : bool :=
  match ph with
  | Idle | Closed _ => true
  | Opened _ | Renamed _ => false
  end.

(** The paths renamed onto, oldest first. *)
Fixpoint renamed (tr : list event) : list string :=
  match tr with
  | [] => []
  | EvRename _ dst :: rest => dst :: renamed rest
  | _ :: rest => renamed rest
  end.

(** The path a notification line speaks of. *)
Definition notified_path (dir line : string) : string :=
  match strip_prefix AudioDumpManager.READY_TAG line with
  | Some name => dir +:+ name
  | None => EmptyString
  end.

(** What a concurrent reader of the directory can rely on, at every
    operation [e] of the trace [tr] run from the file system [fs0]: bytes
    are written, and files truncated, under temporary names only; a file
    that is not temporary changes, appears or disappears only by a rename
    of the file [path.tmp] onto it, or is the queue file being appended
    to. *)
Definition atomic_commit (tr : list event) (fs0 : gmap string node) : Prop :=
  forall pre e post, tr = pre ++ e :: post ->
    (forall q data, e = EvWrite q data -> temp_named q = true) /\
    (forall q, e = EvOpen q -> temp_named q = true) /\
    (forall q, final_named q = true ->
       apply_event e (replay pre fs0) !! q <> replay pre fs0 !! q ->
       e = EvRename (q +:+ ".tmp") q).

(** Between two renames onto it, a file with a final name is found as it
    was: whenever a reader looks, from the operations [pre] to the
    operations [pre ++ mid] with no rename onto [q] in [mid], it finds the
    same file [q], or none both times. *)
Definition stable_between_renames (tr : list event) (fs0 : gmap string node) : Prop :=
  forall pre mid post q, tr = pre ++ mid ++ post ->
    final_named q = true ->
    (forall src, ~ In (EvRename src q) mid) ->
    replay (pre ++ mid) fs0 !! q = replay pre fs0 !! q.

Definition is_append (e : event) : bool :=
  match e with
  | EvAppend _ _ => true
  | _ => false
  end.

(** Every notification of the trace [tr] comes after the rename that gave
    the file it names its final name, with nothing in between but the
    manager's append to its queue file. *)
Definition notified_after_rename (dir : string) (tr : list event) : Prop :=
  forall pre line post, tr = pre ++ EvLog line :: post ->
    exists pre' name queue,
      line = AudioDumpManager.READY_TAG +:+ name /\
      pre = pre' ++ EvRename ((dir +:+ name) +:+ ".tmp") (dir +:+ name) :: queue /\
      forallb is_append queue = true.

(** The run [tr] of a dumper, during which the manager recorded [names]:
    the files renamed, the names recorded and the notifications are the
    same, in the same order, one notification for each rename, and each
    notification follows its rename. *)
Definition notified_once_after_rename (dir : string) (tr : list event)
    (names : list string) : Prop :=
  notifications tr = map ready_line names /\
  renamed tr = map (fun name => dir +:+ c_str name) names /\
  notified_after_rename dir tr.

(** The rename [CloseCurrentFile] is about to try fails: the temporary
    file is gone, or the system refuses. *)
Definition rename_fails (d : StreamDumper.t) (p : process) : Prop :=
  w_fs (os p) !! c_str (StreamDumper.mCurrentFilePath d) = None \/
  hd true (get_faults SysRename (w_faults (os p))) = false.

(** Closing the file of [d], which holds bytes, goes by without a trace
    but the close itself: nothing is recorded or notified, the files are
    as they were, the dumper is as valid as before, and its next file opens
    whenever the system lets it. *)
Definition close_leaves_temp_file (d : StreamDumper.t) (p : process) : Prop :=
  let '(d', p') := StreamDumper.CloseCurrentFile true d p in
  instance p' = instance p /\
  w_trace (os p') = w_trace (os p) ++ [EvClose (of_path (StreamDumper.mFile d))] /\
  notifications (w_trace (os p')) = notifications (w_trace (os p)) /\
  w_fs (os p') = w_fs (os p) /\
  StreamDumper.IsValid d' = StreamDumper.IsValid d /\
  is_open (StreamDumper.mFile d') = false /\
  (StreamDumper.OpenNewFile d' (os p')).1.1
  = hd true (get_faults SysOpen (w_faults (os p))).

(** The calls a caller makes on a dumper. *)
Inductive call : Type :=
  | CallWriteData (buffer : option (list byte))
  | CallForceClose.

Fixpoint Calls (cs : list call) (d : StreamDumper.t) (p : process)
    : option (StreamDumper.t * process) :=
  match cs with
  | [] => Some (d, p)
  | CallWriteData buffer :: rest =>
      match StreamDumper.WriteData buffer d p with
      | Some (_, d, p) => Calls rest d p
      | None => None
      end
  | CallForceClose :: rest =>
      let '(d, p) := StreamDumper.ForceClose d p in Calls rest d p
  end.

(** The queue file is not named like a dump file. *)
Definition queue_apart (p : process) : Prop :=
  temp_named (c_str (AudioDumpManager.mQueueFilePath (instance p))) = false /\
  final_named (c_str (AudioDumpManager.mQueueFilePath (instance p))) = false.

(** From world [w] in phase [ph], operations that follow the protocol and
    notify nothing lead to [w'] in phase [ph']. *)
Definition WSteps (dir : string) (ph : phase) (w : world) (ph' : phase) (w' : world)
    : Prop :=
  exists tr,
    w_trace w' = w_trace w ++ tr /\
    w_fs w' = replay tr (w_fs w) /\
    commit_run dir ph tr = Some ph' /\
    notifications tr = [].

(** The same for a process: operations [tr] that follow the protocol; the
    manager recorded [names], and these are the files notified. *)
Definition PSteps (dir : string) (ph : phase) (p : process) (ph' : phase) (p' : process)
    (tr : list event) (names : list string) : Prop :=
  w_trace (os p') = w_trace (os p) ++ tr /\
  w_fs (os p') = replay tr (w_fs (os p)) /\
  commit_run dir ph tr = Some ph' /\
  AudioDumpManager.mCompletedFiles (instance p')
    = AudioDumpManager.mCompletedFiles (instance p) ++ names /\
  notifications tr = map ready_line names /\
  AudioDumpManager.mQueueFilePath (instance p')
    = AudioDumpManager.mQueueFilePath (instance p).

Section Tracking.

Variables (type : AudioStreamType) (dumpDir timestamp : string) (baseCounter : Z).

(** The dumper [d] was constructed with these arguments and its stream
    agrees with the phase [ph]. *)
Definition Tracked (d : StreamDumper.t) (ph : phase) : Prop :=
  StreamDumper.mType d = type /\
  StreamDumper.mDumpDirectory d = dumpDir /\
  StreamDumper.mTimestamp d = timestamp /\
  StreamDumper.mBaseCounter d = baseCounter /\
  (exists i, StreamDumper.mFileIndex d = wrap_u32 i) /\
  (if is_open (StreamDumper.mFile d)
   then exists i,
          of_path (StreamDumper.mFile d) = tmp_path type dumpDir timestamp baseCounter i /\
          StreamDumper.mCurrentFilePath d
            = dumpDir +:+ file_name type dumpDir timestamp baseCounter true i /\
          StreamDumper.mCurrentFilename d
            = file_name type dumpDir timestamp baseCounter false i /\
          ph = Opened (tmp_path type dumpDir timestamp baseCounter i)
   else settled ph = true).

(** A valid dumper has an open file and room in its buffer. *)
Definition Usable (d : StreamDumper.t) : Prop :=
  StreamDumper.mIsValid d = true ->
  is_open (StreamDumper.mFile d) = true /\
  0 <= StreamDumper.mBufferOffset d < StreamDumper.BUFFER_SIZE.

End Tracking.

(** ** Outcomes of whole runs *)

(** Construct a dumper in [p0], write [datas] to it one call after the
    other, close it: two files were finalized, of index 0 and 1, which
    together hold the bytes written. *)
Definition two_files_finalized (type : AudioStreamType) (dumpDir timestamp : string)
    (baseCounter : Z) (p0 : process) (datas : list (list byte)) : Prop :=
  exists d0 w0 d p d' p' c0 c1,
    StreamDumper.ctor type dumpDir timestamp baseCounter (os p0) = (d0, w0) /\
    WriteAll (map Some datas) d0 (with_os w0 p0) = Some (sizes datas, d, p) /\
    StreamDumper.ForceClose d p = (d', p') /\
    AudioDumpManager.mCompletedFiles (instance p')
      = AudioDumpManager.mCompletedFiles (instance p0)
          ++ [file_name type dumpDir timestamp baseCounter false 0;
              file_name type dumpDir timestamp baseCounter false 1] /\
    notifications (w_trace (os p'))
      = notifications (w_trace (os p0))
          ++ [ready_line (file_name type dumpDir timestamp baseCounter false 0);
              ready_line (file_name type dumpDir timestamp baseCounter false 1)] /\
    StreamDumper.GetFileCount d' = 2 /\
    w_fs (os p') !! final_path type dumpDir timestamp baseCounter 0 = Some (NFile c0) /\
    w_fs (os p') !! final_path type dumpDir timestamp baseCounter 1 = Some (NFile c1) /\
    w_fs (os p') !! tmp_path type dumpDir timestamp baseCounter 0 = None /\
    w_fs (os p') !! tmp_path type dumpDir timestamp baseCounter 1 = None /\
    final_path type dumpDir timestamp baseCounter 0
      <> final_path type dumpDir timestamp baseCounter 1 /\
    c0 ++ c1 = concat datas /\
    Z.of_nat (length c0) = StreamDumper.MAX_FILE_SIZE /\
    Z.of_nat (length c1) = 1.

Definition MiB : Z := 1048576.

(** The process once [CreateStreamDumper] has made sure of the dump
    directory and taken a counter, before it constructs the dumper. *)
Definition bootstrapped (p0 : process) : process :=
  let '(_, m, w) := AudioDumpManager.Initialize (instance p0) (os p0) in
  {| instance := (AudioDumpManager.GetNextCounter m).2; os := w |}.

(** The scenario of three chunks: create a dumper, write [c1], [c2], [c3],
    close. Nothing is finalized by the first two chunks; the third one
    finalizes file 0 with the first 100 MiB and leaves the rest in file 1,
    which [ForceClose] finalizes. *)
Definition three_chunks_outcome (type : AudioStreamType) (timestamp : string)
    (p0 : process) (c1 c2 c3 : list byte) : Prop :=
  let dir := AudioDumpManager.mDumpDirectory (instance p0) in
  let counter := AudioDumpManager.mFileCounter (instance p0) in
  let name := file_name type dir timestamp counter false in
  let fin := final_path type dir timestamp counter in
  let tmp := tmp_path type dir timestamp counter in
  let all := c1 ++ c2 ++ c3 in
  let first := take (Z.to_nat (100 * MiB)) all in
  let rest := drop (Z.to_nat (100 * MiB)) all in
  let completed0 := AudioDumpManager.mCompletedFiles (instance p0) in
  let notes0 := notifications (w_trace (os p0)) in
  exists d0 p1 d1 p2 d2 p3 d3 p4 d4 p5,
    CreateStreamDumper type timestamp p0 = (Some d0, p1) /\
    StreamDumper.WriteData (Some c1) d0 p1 = Some (40 * MiB, d1, p2) /\
    StreamDumper.WriteData (Some c2) d1 p2 = Some (40 * MiB, d2, p3) /\
    (* after the second chunk *)
    AudioDumpManager.mCompletedFiles (instance p3) = completed0 /\
    notifications (w_trace (os p3)) = notes0 /\
    StreamDumper.GetFileCount d2 = 1 /\
    StreamDumper.GetCurrentFileSize d2 = 80 * MiB /\
    w_fs (os p3) !! tmp 0 = Some (NFile (c1 ++ c2)) /\
    (* the third chunk *)
    StreamDumper.WriteData (Some c3) d2 p3 = Some (40 * MiB, d3, p4) /\
    AudioDumpManager.mCompletedFiles (instance p4) = completed0 ++ [name 0] /\
    notifications (w_trace (os p4)) = notes0 ++ [ready_line (name 0)] /\
    w_fs (os p4) !! fin 0 = Some (NFile first) /\
    w_fs (os p4) !! tmp 0 = None /\
    Z.of_nat (length first) = 100 * MiB /\
    StreamDumper.IsValid d3 = true /\
    is_open (StreamDumper.mFile d3) = true /\
    StreamDumper.GetFileCount d3 = 2 /\
    StreamDumper.GetCurrentFileSize d3 = 20 * MiB /\
    w_fs (os p4) !! tmp 1 = Some (NFile rest) /\
    Z.of_nat (length rest) = 20 * MiB /\
    (* closing *)
    StreamDumper.ForceClose d3 p4 = (d4, p5) /\
    StreamDumper.IsValid d4 = false /\
    AudioDumpManager.mCompletedFiles (instance p5) = completed0 ++ [name 0; name 1] /\
    notifications (w_trace (os p5)) = notes0 ++ [ready_line (name 0); ready_line (name 1)] /\
    w_fs (os p5) !! fin 0 = Some (NFile first) /\
    w_fs (os p5) !! fin 1 = Some (NFile rest) /\
    w_fs (os p5) !! tmp 0 = None /\
    w_fs (os p5) !! tmp 1 = None.

(** ** Concrete surroundings for the examples *)

(** A process with an empty file system, no property set but the one
    given, and no failure scripted. *)
Definition quiet_world (props : gmap string string) : world :=
  {| w_fs := ∅; w_props := props; w_faults := no_faults; w_trace := [] |}.

Definition quiet_process (props : gmap string string) : process :=
  {| instance := AudioDumpManager.ctor; os := quiet_world props |}.

Definition demo_dir : string := AudioDumpManager.DEFAULT_DUMP_DIR.
Definition demo_timestamp : string := "20240101_120000".

Definition streamout_on : gmap string string :=
  {[ AudioDumpManager.PROP_STREAMOUT_DUMP := "1" ]}.

(** The switch for playback is on and the next open fails. *)
Definition open_fails_process : process :=
  {| instance := AudioDumpManager.ctor;
     os := {| w_fs := ∅; w_props := streamout_on;
              w_faults := {| f_open := [false]; f_write := []; f_flush := [];
                             f_rename := []; f_mkdir := []; f_append := [] |};
              w_trace := [] |} |}.

(** No switch is looked at, the file system is empty and the next rename
    fails. *)
Definition rename_fails_process : process :=
  {| instance := AudioDumpManager.ctor;
     os := {| w_fs := ∅; w_props := ∅;
              w_faults := {| f_open := []; f_write := []; f_flush := [];
                             f_rename := [false]; f_mkdir := []; f_append := [] |};
              w_trace := [] |} |}.

(** What is left of a run: the dumper's validity, the operations in
    order, the names the manager recorded. *)
Definition run_summary (r : option (StreamDumper.t * process))
    : option (bool * list event * list string) :=
  match r with
  | Some (d, p) =>
      Some (StreamDumper.IsValid d, w_trace (os p),
            AudioDumpManager.mCompletedFiles (instance p))
  | None => None
  end.

(** Construct a dumper in [p0] and make the calls [cs] on it. *)
Definition run (type : AudioStreamType) (dumpDir timestamp : string) (baseCounter : Z)
    (p0 : process) (cs : list call) : option (StreamDumper.t * process) :=
  let '(d0, w0) := StreamDumper.ctor type dumpDir timestamp baseCounter (os p0) in
  Calls cs d0 (with_os w0 p0).

Definition chunk_40MiB : list byte := repeat "000"%byte (Z.to_nat (40 * MiB)).

(** * Vocabulary of the further properties *)

(** ** Decimal numerals *)

Definition digit_of_char (c : ascii) : Z := Z.of_nat (nat_of_ascii c) - 48.

Definition is_digit (c : ascii) : bool :=
  (0 <=? digit_of_char c) && (digit_of_char c <? 10).

(** The number the decimal digits [s] write, read after the number [acc]. *)
Fixpoint digits_value (acc : Z) (s : string) : Z :=
  match s with
  | EmptyString => acc
  | String c r => digits_value (acc * 10 + digit_of_char c) r
  end.

Fixpoint all_digits (s : string) : bool :=
  match s with
  | EmptyString => true
  | String c r => is_digit c && all_digits r
  end.

(** A timestamp of [n] characters. *)
Definition long_timestamp (n : nat) : string :=
  string_of_list_ascii (repeat "7"%char n).

(** ** Streams of any length *)

(** The bytes of the stream [L] that file [i] receives. *)
Definition file_slice (L : list byte) (i : Z) : list byte :=
  slice L (i * StreamDumper.MAX_FILE_SIZE) ((i + 1) * StreamDumper.MAX_FILE_SIZE).

(** The indices [0 .. k-1]. *)
Definition indices (k : Z) : list Z := map Z.of_nat (seq 0 (Z.to_nat k)).

(** Construct a dumper in [p0], write [datas] to it one call after the
    other, close it: every byte is in a finalized file. The files are
    those of index 0 to [k - 1], all of [MAX_FILE_SIZE] bytes but the last,
    under names that differ; one after the other they hold the bytes
    written, in order; each was recorded and notified once, in order; no
    temporary file is left. *)
Definition all_files_finalized (type : AudioStreamType) (dumpDir timestamp : string)
    (baseCounter : Z) (p0 : process) (datas : list (list byte)) : Prop :=
  let L := concat datas in
  let n := Z.of_nat (length L) in
  let k := files_done n + 1 in
  let names := finalized_names type dumpDir timestamp baseCounter (Z.to_nat k) in
  exists d0 w0 d p d' p',
    StreamDumper.ctor type dumpDir timestamp baseCounter (os p0) = (d0, w0) /\
    WriteAll (map Some datas) d0 (with_os w0 p0) = Some (sizes datas, d, p) /\
    StreamDumper.ForceClose d p = (d', p') /\
    StreamDumper.GetFileCount d' = k /\
    StreamDumper.GetTotalBytesWritten d' = n /\
    AudioDumpManager.mCompletedFiles (instance p')
      = AudioDumpManager.mCompletedFiles (instance p0) ++ names /\
    notifications (w_trace (os p'))
      = notifications (w_trace (os p0)) ++ map ready_line names /\
    (forall i, 0 <= i < k ->
       w_fs (os p') !! final_path type dumpDir timestamp baseCounter i
         = Some (NFile (file_slice L i)) /\
       w_fs (os p') !! tmp_path type dumpDir timestamp baseCounter i = None /\
       Z.of_nat (length (file_slice L i))
         = if i <? k - 1 then StreamDumper.MAX_FILE_SIZE
           else n - (k - 1) * StreamDumper.MAX_FILE_SIZE) /\
    (forall i j, 0 <= i < k -> 0 <= j < k -> i <> j ->
       final_path type dumpDir timestamp baseCounter i
       <> final_path type dumpDir timestamp baseCounter j) /\
    concat (map (file_slice L) (indices k)) = L.

(** Construct a dumper in [p0] and write [datas] to it: but for the bytes
    in the buffer, fewer than [BUFFER_SIZE], every byte is in a file, in
    order: in the finalized files 0 to [r - 1] and in the temporary file
    [r]. *)
Definition all_but_buffer_in_files (type : AudioStreamType) (dumpDir timestamp : string)
    (baseCounter : Z) (p0 : process) (datas : list (list byte)) : Prop :=
  let L := concat datas in
  let n := Z.of_nat (length L) in
  let r := files_done n in
  exists d0 w0 d p pending,
    StreamDumper.ctor type dumpDir timestamp baseCounter (os p0) = (d0, w0) /\
    WriteAll (map Some datas) d0 (with_os w0 p0) = Some (sizes datas, d, p) /\
    StreamDumper.IsValid d = true /\
    (forall i, 0 <= i < r ->
       w_fs (os p) !! final_path type dumpDir timestamp baseCounter i
         = Some (NFile (file_slice L i)) /\
       w_fs (os p) !! tmp_path type dumpDir timestamp baseCounter i = None) /\
    w_fs (os p) !! tmp_path type dumpDir timestamp baseCounter r
      = Some (NFile (slice L (r * StreamDumper.MAX_FILE_SIZE) (n - pending))) /\
    concat (map (file_slice L) (indices r))
      ++ slice L (r * StreamDumper.MAX_FILE_SIZE) (n - pending)
      ++ take (Z.to_nat pending) (StreamDumper.mBuffer d)
    = L /\
    pending = StreamDumper.mBufferOffset d /\
    0 <= pending < StreamDumper.BUFFER_SIZE /\
    StreamDumper.GetCurrentFileSize d = n - pending - r * StreamDumper.MAX_FILE_SIZE /\
    StreamDumper.GetCurrentFileSize d <= StreamDumper.MAX_FILE_SIZE.

(** The same run, seen from the queue file: it gained the names of the
    files finalized, one to a line, in order. *)
Definition queue_file_lists (type : AudioStreamType) (dumpDir timestamp : string)
    (baseCounter : Z) (p0 : process) (datas : list (list byte)) : Prop :=
  let L := concat datas in
  let k := files_done (Z.of_nat (length L)) + 1 in
  exists d0 w0 d p d' p',
    StreamDumper.ctor type dumpDir timestamp baseCounter (os p0) = (d0, w0) /\
    WriteAll (map Some datas) d0 (with_os w0 p0) = Some (sizes datas, d, p) /\
    StreamDumper.ForceClose d p = (d', p') /\
    file_content (w_fs (os p')) (queue_path p0)
    = file_content (w_fs (os p0)) (queue_path p0)
        ++ concat (map (queue_line type dumpDir timestamp baseCounter) (indices k)).

(** ** The manager *)

(** The property that switches the dump of a stream kind on. *)
Definition prop_name (type : AudioStreamType) : string :=
  match type with
  | STREAM_OUT => AudioDumpManager.PROP_STREAMOUT_DUMP
  | STREAM_IN => AudioDumpManager.PROP_STREAMIN_DUMP
  end.

(** The dump directory cannot be made ready: a regular file has its
    name, or it is missing and [mkdir] fails. *)
Definition directory_unavailable (m : AudioDumpManager.t) (w : world) : Prop :=
  (exists c, w_fs w !! c_str (AudioDumpManager.mDumpDirectory m) = Some (NFile c)) \/
  (w_fs w !! c_str (AudioDumpManager.mDumpDirectory m) = None /\
   hd true (get_faults SysMkdir (w_faults w)) = false).

(** What the calls on a dumper leave alone: the arguments it was
    constructed with, the range of its file index; of the manager
    everything but the list of completed files, which only grows; the
    system properties; and what was logged and done before. *)
Definition keeps_identity (d : StreamDumper.t) (p : process)
    (d' : StreamDumper.t) (p' : process) : Prop :=
  StreamDumper.mType d' = StreamDumper.mType d /\
  StreamDumper.mDumpDirectory d' = StreamDumper.mDumpDirectory d /\
  StreamDumper.mTimestamp d' = StreamDumper.mTimestamp d /\
  StreamDumper.mBaseCounter d' = StreamDumper.mBaseCounter d /\
  (0 <= StreamDumper.mFileIndex d < U32_MODULUS ->
   0 <= StreamDumper.mFileIndex d' < U32_MODULUS) /\
  AudioDumpManager.mFileCounter (instance p') = AudioDumpManager.mFileCounter (instance p) /\
  AudioDumpManager.mDumpDirectory (instance p')
    = AudioDumpManager.mDumpDirectory (instance p) /\
  AudioDumpManager.mQueueFilePath (instance p')
    = AudioDumpManager.mQueueFilePath (instance p) /\
  AudioDumpManager.mInitialized (instance p') = AudioDumpManager.mInitialized (instance p) /\
  w_props (os p') = w_props (os p) /\
  (exists names,
     AudioDumpManager.mCompletedFiles (instance p')
     = AudioDumpManager.mCompletedFiles (instance p) ++ names) /\
  (exists tr, w_trace (os p') = w_trace (os p) ++ tr).

(** The switch for playback is on, and a regular file has the name of the
    dump directory. *)
Definition blocked_process : process :=
  {| instance := AudioDumpManager.ctor;
     os := {| w_fs := {[ c_str AudioDumpManager.DEFAULT_DUMP_DIR := NFile [] ]};
              w_props := streamout_on; w_faults := no_faults; w_trace := [] |} |}.

(** ** Results of the calls *)

(** [WriteData] accepts the whole buffer or fails: it returns the size
    given and the dumper stays valid, or it returns -1 and the dumper is
    not valid when it returns. *)
Definition all_or_error (data : list byte) (r : Z) (d' : StreamDumper.t) : Prop :=
  (r = Z.of_nat (length data) /\ StreamDumper.IsValid d' = true) \/
  (r = -1 /\ StreamDumper.IsValid d' = false).

(** What [CreateStreamDumper] returned, as its caller finds it: a dumper
    made for the stream type asked for, in the manager's directory, with
    the timestamp of the call and the counter the manager had, which the
    manager has moved on by one; valid exactly when its first file is open;
    or no dumper, and then the manager, the files and the trace are as they
    were. *)
Definition created (type : AudioStreamType) (timestamp : string) (p : process)
    (r : option StreamDumper.t) (p' : process) : Prop :=
  match r with
  | Some d =>
      dump_enabled type (os p) = true /\
      StreamDumper.mType d = type /\
      StreamDumper.mDumpDirectory d = AudioDumpManager.mDumpDirectory (instance p) /\
      StreamDumper.mTimestamp d = timestamp /\
      StreamDumper.mBaseCounter d = AudioDumpManager.mFileCounter (instance p) /\
      AudioDumpManager.mFileCounter (instance p')
        = wrap_u32 (AudioDumpManager.mFileCounter (instance p) + 1) /\
      AudioDumpManager.mInitialized (instance p') = true /\
      StreamDumper.IsValid d = is_open (StreamDumper.mFile d) /\
      StreamDumper.GetFileCount d = (if StreamDumper.IsValid d then 1 else 0)
  | None =>
      instance p' = instance p /\
      w_fs (os p') = w_fs (os p) /\
      w_trace (os p') = w_trace (os p)
  end.

(** Two dumpers made one after the other at the same timestamp, each after
    the calls made on it; [None] when a creation returned no dumper. *)
Definition two_dumpers (type1 type2 : AudioStreamType) (timestamp : string)
    (p0 : process) (cs1 cs2 : list call) : option (StreamDumper.t * StreamDumper.t) :=
  match CreateStreamDumper type1 timestamp p0 with
  | (Some d1, p1) =>
      match Calls cs1 d1 p1 with
      | Some (d1', p1') =>
          match CreateStreamDumper type2 timestamp p1' with
          | (Some d2, p2) =>
              match Calls cs2 d2 p2 with
              | Some (d2', _) => Some (d1', d2')
              | None => None
              end
          | (None, _) => None
          end
      | None => None
      end
  | (None, _) => None
  end.

(** ** A stream and its dumper *)

(** The transfers of a stream, each of a whole buffer; the values they
    returned, oldest first. *)
Fixpoint transfer_all (datas : list (list byte)) (s : StreamWithDump.t) (p : process)
    : option (list Z * StreamWithDump.t * process) :=
  match datas with
  | [] => Some ([], s, p)
  | data :: rest =>
      match StreamWithDump.transfer (Some data) (Z.of_nat (length data)) s p with
      | None => None
      | Some (r, s, p) =>
          match transfer_all rest s p with
          | None => None
          | Some (rs, s, p) => Some (r :: rs, s, p)
          end
      end
  end.

(** The life of a stream: constructed at [timestamp], it transfers
    [datas] and is closed. *)
Definition stream_session (type : AudioStreamType) (timestamp : string) (p0 : process)
    (datas : list (list byte)) : option (list Z * StreamWithDump.t * process) :=
  let '(s, p) := StreamWithDump.ctor type timestamp p0 in
  match transfer_all datas s p with
  | Some (rs, s, p) => let '(s, p) := StreamWithDump.close s p in Some (rs, s, p)
  | None => None
  end.

Fixpoint onData_all (datas : list (list byte)) (s : StreamDumpWrapper.t) (p : process)
    : option (StreamDumpWrapper.t * process) :=
  match datas with
  | [] => Some (s, p)
  | data :: rest =>
      match StreamDumpWrapper.onData (Some data) s p with
      | None => None
      | Some (s, p) => onData_all rest s p
      end
  end.

(** The life of a wrapper: constructed at [timestamp], it is told of
    [datas] and destroyed. *)
Definition wrapper_session (type : AudioStreamType) (timestamp : string) (p0 : process)
    (datas : list (list byte)) : option process :=
  let '(s, p) := StreamDumpWrapper.ctor type timestamp p0 in
  match onData_all datas s p with
  | Some (s, p) => Some (StreamDumpWrapper.dtor s p)
  | None => None
  end.

(** The process [p'] a session that started in [p0] left behind holds the
    bytes [datas] whole, in finalized files of the dumper that the manager
    made with its counter: files 0 to [k - 1], which one after the other
    are the bytes transferred, each recorded and notified once, in order,
    no temporary file left; and the manager's counter has moved on by
    one. *)
Definition session_outcome (type : AudioStreamType) (timestamp : string) (p0 : process)
    (datas : list (list byte)) (p' : process) : Prop :=
  let dir := AudioDumpManager.mDumpDirectory (instance p0) in
  let counter := AudioDumpManager.mFileCounter (instance p0) in
  let L := concat datas in
  let k := files_done (Z.of_nat (length L)) + 1 in
  let names := finalized_names type dir timestamp counter (Z.to_nat k) in
  AudioDumpManager.mFileCounter (instance p') = wrap_u32 (counter + 1) /\
  AudioDumpManager.mCompletedFiles (instance p')
    = AudioDumpManager.mCompletedFiles (instance p0) ++ names /\
  notifications (w_trace (os p'))
    = notifications (w_trace (os p0)) ++ map ready_line names /\
  (forall i, 0 <= i < k ->
     w_fs (os p') !! final_path type dir timestamp counter i
       = Some (NFile (file_slice L i)) /\
     w_fs (os p') !! tmp_path type dir timestamp counter i = None) /\
  concat (map (file_slice L) (indices k)) = L.

(** The counters [n] successive calls of [GetNextCounter] return, and the
    manager they leave. *)
Fixpoint take_counters (n : nat) (m : AudioDumpManager.t) : list Z * AudioDumpManager.t :=
  match n with
  | O => ([], m)
  | S n' =>
      let '(c, m) := AudioDumpManager.GetNextCounter m in
      let '(cs, m) := take_counters n' m in
      (c :: cs, m)
  end.

(** ** When a call fails *)

(** What closing and committing the file of [d] does, in order: close,
    rename to the final name, append the name to the queue file, notify. *)
Definition commit_events (d : StreamDumper.t) (p : process) : list event :=
  [EvClose (of_path (StreamDumper.mFile d));
   EvRename (c_str (StreamDumper.mCurrentFilePath d))
            (c_str (StreamDumper.mDumpDirectory d +:+ StreamDumper.mCurrentFilename d));
   EvAppend (c_str (AudioDumpManager.mQueueFilePath (instance p)))
            (list_byte_of_string (StreamDumper.mCurrentFilename d +:+ newline));
   EvLog (AudioDumpManager.READY_TAG +:+ c_str (StreamDumper.mCurrentFilename d))].

(** The next rename and the next append succeed, the next open fails. *)
Definition next_open_fails (F : Faults) : Prop :=
  hd true (get_faults SysRename F) = true /\
  hd true (get_faults SysAppend F) = true /\
  hd true (get_faults SysOpen F) = false.

(** A dumper with a full file, whose next file cannot be opened. *)
Definition full_file_process : process :=
  {| instance := AudioDumpManager.ctor;
     os := with_faults
             {| f_open := [false]; f_write := []; f_flush := []; f_rename := [];
                f_mkdir := []; f_append := [] |}
             (StreamDumper.ctor STREAM_OUT demo_dir demo_timestamp 0 (quiet_world ∅)).2 |}.

Definition full_file_dumper : StreamDumper.t :=
  StreamDumper.with_mCurrentFileSize StreamDumper.MAX_FILE_SIZE
    (StreamDumper.ctor STREAM_OUT demo_dir demo_timestamp 0 (quiet_world ∅)).1.






(** * Properties *)

Import StreamDumper.

#[local] Arguments Z.to_nat : simpl never.
#[local] Arguments Z.of_nat : simpl never.
#[local] Arguments Z.modulo : simpl never.
#[local] Arguments Z.div : simpl never.
#[local] Arguments Z.mul : simpl never.
#[local] Arguments Z.add : simpl never.
#[local] Arguments Z.sub : simpl never.
#[local] Arguments Z.leb : simpl never.
#[local] Arguments Z.ltb : simpl never.
#[local] Arguments Z.eqb : simpl never.
#[local] Arguments Z.min : simpl never.
#[local] Arguments repeat : simpl never.
#[local] Arguments c_str : simpl never.
#[local] Arguments snprintf : simpl never.
#[local] Arguments fmt_u : simpl never.
#[local] Arguments String.append : simpl never.
#[local] Arguments apply_event : simpl never.
#[local] Arguments with_mFileIndex _ !_ /.
#[local] Arguments with_mFile _ !_ /.
#[local] Arguments with_mCurrentFilePath _ !_ /.
#[local] Arguments with_mCurrentFilename _ !_ /.
#[local] Arguments with_mBuffer _ !_ /.
#[local] Arguments with_mBufferOffset _ !_ /.
#[local] Arguments with_mCurrentFileSize _ !_ /.
#[local] Arguments with_mBytesSinceFlush _ !_ /.
#[local] Arguments with_mTotalBytesWritten _ !_ /.
#[local] Arguments with_mFileCount _ !_ /.
#[local] Arguments with_mIsValid _ !_ /.
#[local] Arguments with_os _ !_ /.
#[local] Arguments with_faults _ !_ /.
#[local] Arguments emit _ !_ /.
#[local] Arguments WriteData : simpl never.
#[local] Arguments finalized_names : simpl never.
#[local] Arguments finalized_fs : simpl never.
#[local] Arguments CloseCurrentFile : simpl never.
#[local] Arguments OpenNewFile : simpl never.
#[local] Arguments sys_rename : simpl never.
#[local] Arguments AudioDumpManager.OnDumpFileCompleted : simpl never.
#[local] Arguments ForceClose : simpl never.
#[local] Arguments get_faults : simpl never.
#[local] Arguments set_faults : simpl never.
#[local] Arguments next_faults : simpl never.

(** ** The outcome scripts *)

Lemma all_true_hd l : all_true l = true -> hd true l = true.
Proof. destruct l as [|[] ?]; simpl; auto; discriminate. Qed.

Lemma all_true_tail l : all_true l = true -> all_true (tail l) = true.
Proof. destruct l as [|[] ?]; simpl; auto; discriminate. Qed.

Lemma fault_free_hd k F : fault_free F = true -> hd true (get_faults k F) = true.
Proof.
  unfold fault_free. rewrite !andb_true_iff. intros [[[[[? ?] ?] ?] ?] ?].
  destruct k; simpl; auto using all_true_hd.
Qed.

Lemma fault_free_next k F : fault_free F = true -> fault_free (next_faults k F) = true.
Proof.
  unfold fault_free, next_faults. rewrite !andb_true_iff.
  intros [[[[[? ?] ?] ?] ?] ?].
  destruct k; simpl; repeat split; auto using all_true_tail.
Qed.

(** ** Closing *)

Lemma ofs_write_is_open data f w : is_open (ofs_write data f w).1 = is_open f.
Proof.
  unfold ofs_write. destruct (is_open f) eqn:Ho, (good f); simpl; auto.
  destruct (hd true _); simpl; auto.
Qed.

Lemma CloseCurrentFile_closed complete d p :
  is_open (mFile (CloseCurrentFile complete d p).1) = false.
Proof.
  unfold CloseCurrentFile. destruct (is_open (mFile d)) eqn:Ho; simpl; [|exact Ho].
  unfold ofs_close. rewrite Ho. simpl. reflexivity.
Qed.

Lemma CloseCurrentFile_valid complete d p :
  mIsValid (CloseCurrentFile complete d p).1 = mIsValid d.
Proof.
  unfold CloseCurrentFile. destruct (is_open (mFile d)) eqn:Ho; simpl; [|reflexivity].
  unfold ofs_close. rewrite Ho. simpl. reflexivity.
Qed.

Lemma ForceClose_closed d p :
  is_open (mFile (ForceClose d p).1) = false /\ mIsValid (ForceClose d p).1 = false.
Proof.
  unfold ForceClose. destruct (is_open (mFile d)) eqn:Ho.
  - destruct (0 <? mBufferOffset d).
    + destruct (ofs_write _ _ _) as [f w] eqn:Hw.
      match goal with |- context [CloseCurrentFile true ?a ?b] =>
        pose proof (CloseCurrentFile_closed true a b) as Hc;
        destruct (CloseCurrentFile true a b) as [d1 p1] end.
      simpl in *. auto.
    + match goal with |- context [CloseCurrentFile true ?a ?b] =>
        pose proof (CloseCurrentFile_closed true a b) as Hc;
        destruct (CloseCurrentFile true a b) as [d1 p1] end.
      simpl in *. auto.
  - simpl. auto.
Qed.

Lemma with_mIsValid_same d : with_mIsValid (mIsValid d) d = d.
Proof. destruct d; reflexivity. Qed.

Lemma ForceClose_noop d p :
  is_open (mFile d) = false -> mIsValid d = false -> ForceClose d p = (d, p).
Proof.
  intros Ho Hv. unfold ForceClose. rewrite Ho. rewrite <- Hv at 1.
  now rewrite with_mIsValid_same.
Qed.

(** C6. Calling [ForceClose] a second time changes nothing: the dumper, the
    manager, the file system, the notifications and the outcome scripts are
    those the first call left, in every state of the dumper and of the
    process. *)
Theorem ForceClose_idempotent (d : StreamDumper.t) (p : process) :
  ForceClose (ForceClose d p).1 (ForceClose d p).2 = ForceClose d p.
Proof.
  destruct (ForceClose_closed d p) as [Ho Hv].
  destruct (ForceClose d p) as [d1 p1]. simpl in *.
  now apply ForceClose_noop.
Qed.

(** C10. [WriteData] with a null buffer, or with a buffer of size 0,
    returns -1 and leaves the dumper and the process as they were. *)
Theorem WriteData_null_or_empty (d : StreamDumper.t) (p : process) :
  WriteData None d p = Some (-1, d, p) /\
  WriteData (Some []) d p = Some (-1, d, p).
Proof.
  split; [reflexivity|]. unfold WriteData. simpl.
  now rewrite orb_true_r.
Qed.

(** C8. While the switch of the requested stream kind reads false,
    [CreateStreamDumper] returns no dumper and the process (manager
    state, file system, trace of operations, outcome scripts) is
    unchanged. *)
Theorem CreateStreamDumper_disabled (type : AudioStreamType) (timestamp : string)
    (p : process) :
  dump_enabled type (os p) = false ->
  CreateStreamDumper type timestamp p = (None, p).
Proof.
  intros H. unfold CreateStreamDumper, dump_enabled in *.
  destruct type; rewrite H; reflexivity.
Qed.

(** ** Construction *)

Lemma GenerateFilename_index withTmp d i :
  mFileIndex d = wrap_u32 i ->
  GenerateFilename withTmp d =
  file_name (mType d) (mDumpDirectory d) (mTimestamp d) (mBaseCounter d) withTmp i.
Proof.
  intros H. unfold file_name, GenerateFilename, filename_text, GetStreamTypeString.
  simpl. now rewrite H.
Qed.

Lemma ctor_seed type dumpDir timestamp baseCounter w :
  ctor type dumpDir timestamp baseCounter w =
  (let '(ok, d, w) := OpenNewFile (seed type dumpDir timestamp baseCounter) w in
   if ok then (with_mIsValid true d, w) else (d, w)).
Proof. reflexivity. Qed.

Lemma Initialize_faults_open m w :
  f_open (w_faults (AudioDumpManager.Initialize m w).2) = f_open (w_faults w).
Proof.
  unfold AudioDumpManager.Initialize, AudioDumpManager.EnsureDumpDirectory, sys_mkdir,
    sys_stat.
  destruct (AudioDumpManager.mInitialized m); simpl; [reflexivity|].
  destruct (w_fs w !! c_str (AudioDumpManager.mDumpDirectory m)) as [[|]|] eqn:E;
    simpl; try reflexivity.
  destruct (hd true _); reflexivity.
Qed.

Lemma WriteData_invalid buffer d p :
  mIsValid d = false -> WriteData buffer d p = Some (-1, d, p).
Proof. intros H. unfold WriteData. rewrite H. now destruct buffer. Qed.

Lemma CreateStreamDumper_disabled_witness :
  dump_enabled STREAM_IN (os (quiet_process streamout_on)) = false /\
  CreateStreamDumper STREAM_IN demo_timestamp (quiet_process streamout_on)
    = (None, quiet_process streamout_on).
Proof.
  assert (H : dump_enabled STREAM_IN (os (quiet_process streamout_on)) = false)
    by (vm_compute; reflexivity).
  split; [exact H|].
  exact (CreateStreamDumper_disabled STREAM_IN demo_timestamp
           (quiet_process streamout_on) H).
Defined.

(** C9. With the switch on and the dump directory ready, a first open that
    fails still yields a dumper: one that is not valid, and whose every
    [WriteData] returns -1 and changes neither the dumper nor the
    process. *)
Theorem CreateStreamDumper_open_fails (type : AudioStreamType) (timestamp : string)
    (p : process) :
  dump_enabled type (os p) = true ->
  (AudioDumpManager.Initialize (instance p) (os p)).1.1 = true ->
  hd true (f_open (w_faults (os p))) = false ->
  exists d p',
    CreateStreamDumper type timestamp p = (Some d, p') /\
    IsValid d = false /\
    forall buffer q, WriteData buffer d q = Some (-1, d, q).
Proof.
  intros Hen Hinit Hopen.
  unfold CreateStreamDumper.
  replace (match type with
           | STREAM_OUT => AudioDumpManager.IsStreamOutDumpEnabled (os p)
           | STREAM_IN => AudioDumpManager.IsStreamInDumpEnabled (os p)
           end) with true by (symmetry; exact Hen).
  simpl negb. cbv iota.
  assert (Hsame :
    (if negb (AudioDumpManager.mInitialized (instance p))
     then AudioDumpManager.Initialize (instance p) (os p)
     else (true, instance p, os p))
    = AudioDumpManager.Initialize (instance p) (os p)).
  { unfold AudioDumpManager.Initialize.
    destruct (AudioDumpManager.mInitialized (instance p)); reflexivity. }
  rewrite Hsame. clear Hsame.
  pose proof (Initialize_faults_open (instance p) (os p)) as Hf.
  destruct (AudioDumpManager.Initialize (instance p) (os p)) as [[ok m] w].
  simpl in Hinit, Hf. subst ok. simpl negb. cbv iota.
  unfold AudioDumpManager.GetNextCounter.
  rewrite ctor_seed. unfold OpenNewFile, ofs_open, outcome, get_faults. simpl.
  rewrite Hf, Hopen. simpl.
  eexists _, _. split; [reflexivity|]. split; [reflexivity|].
  intros. now apply WriteData_invalid.
Qed.

Lemma CreateStreamDumper_open_fails_witness :
  dump_enabled STREAM_OUT (os open_fails_process) = true /\
  (AudioDumpManager.Initialize (instance open_fails_process) (os open_fails_process)).1.1
    = true /\
  hd true (f_open (w_faults (os open_fails_process))) = false /\
  exists d p',
    CreateStreamDumper STREAM_OUT demo_timestamp open_fails_process = (Some d, p') /\
    IsValid d = false /\
    forall buffer q, WriteData buffer d q = Some (-1, d, q).
Proof.
  assert (H1 : dump_enabled STREAM_OUT (os open_fails_process) = true)
    by (vm_compute; reflexivity).
  assert (H2 : (AudioDumpManager.Initialize (instance open_fails_process)
                  (os open_fails_process)).1.1 = true)
    by (vm_compute; reflexivity).
  assert (H3 : hd true (f_open (w_faults (os open_fails_process))) = false)
    by reflexivity.
  split; [exact H1|]. split; [exact H2|]. split; [exact H3|].
  exact (CreateStreamDumper_open_fails STREAM_OUT demo_timestamp open_fails_process
           H1 H2 H3).
Defined.

(** C5. [ForceClose] right after construction, with no [WriteData] in
    between: the manager is as it was and nothing was notified; when the
    first open succeeded, the only operations were to create the temporary
    file, close it and remove it, so the file system is the initial one
    without the temporary path and no file was promoted; when the open
    failed, nothing was touched at all. *)
Theorem ForceClose_fresh (type : AudioStreamType) (dumpDir timestamp : string)
    (baseCounter : Z) (p : process) :
  let opened := hd true (f_open (w_faults (os p))) in
  let tmp := tmp_path type dumpDir timestamp baseCounter 0 in
  let '(d, w) := ctor type dumpDir timestamp baseCounter (os p) in
  let '(d', p') := ForceClose d (with_os w p) in
  IsValid d = opened /\
  IsValid d' = false /\
  instance p' = instance p /\
  notifications (w_trace (os p')) = notifications (w_trace (os p)) /\
  w_trace (os p') =
    w_trace (os p) ++ (if opened then [EvOpen tmp; EvClose tmp; EvUnlink tmp] else []) /\
  w_fs (os p') = (if opened then delete tmp (w_fs (os p)) else w_fs (os p)) /\
  (if opened then w_fs (os p') !! tmp = None else True).
Proof.
  intros opened tmp. rewrite ctor_seed.
  unfold OpenNewFile, ofs_open, outcome, get_faults. simpl.
  fold opened. destruct opened eqn:Hop; simpl.
  - unfold ForceClose, CloseCurrentFile, ofs_close, sys_unlink. simpl.
    rewrite (GenerateFilename_index true _ 0) by reflexivity. simpl.
    fold (tmp_path type dumpDir timestamp baseCounter 0). fold tmp.
    unfold apply_event. rewrite delete_insert_eq.
    repeat split; auto.
    + rewrite <- !app_assoc. simpl. clear. induction (w_trace (os p)) as [|[] ?]; simpl; congruence.
    + now rewrite <- !app_assoc.
    + apply lookup_delete_eq.
  - unfold ForceClose. simpl. repeat split; auto.
    + now rewrite app_nil_r.
Qed.

(** ** Writing without failures *)

Ltac clia := unfold BUFFER_SIZE, MAX_FILE_SIZE, FLUSH_THRESHOLD in *; lia.

Ltac layout_arith :=
  unfold files_done, flushed, wrap_size, wrap_u32, SIZE_MODULUS, U32_MODULUS, SSIZE_LIMIT,
    BUFFER_SIZE, MAX_FILE_SIZE, FLUSH_THRESHOLD in *;
  repeat match goal with
  | |- context [?a =? ?b] => destruct (Z.eqb_spec a b)
  | H : context [?a =? ?b] |- _ => destruct (Z.eqb_spec a b)
  end;
  Z.div_mod_to_equations; lia.

Lemma slice_app_l (L c : list byte) a b :
  0 <= a -> a <= b -> b <= Z.of_nat (length L) -> slice (L ++ c) a b = slice L a b.
Proof.
  intros Ha Hab Hb. unfold slice.
  rewrite drop_app_le by lia. rewrite take_app_le; [reflexivity|].
  rewrite length_drop. lia.
Qed.

Lemma slice_empty (L : list byte) a : slice L a a = [].
Proof. unfold slice. now rewrite Z.sub_diag. Qed.

Lemma slice_extend (L c : list byte) a b :
  0 <= a -> a <= b -> b <= Z.of_nat (length L) ->
  slice (L ++ c) a (Z.of_nat (length L) + Z.of_nat (length c))
  = slice L a b ++ drop (Z.to_nat b) L ++ c.
Proof.
  intros Ha Hab Hb. unfold slice.
  rewrite take_ge by (rewrite length_drop, length_app; lia).
  rewrite drop_app_le by lia.
  rewrite app_assoc. f_equal.
  replace (Z.to_nat b) with (Z.to_nat a + Z.to_nat (b - a))%nat by lia.
  rewrite <- drop_drop. now rewrite take_drop.
Qed.


Lemma memcpy_at_length (buf chunk : list byte) off :
  0 <= off -> off + Z.of_nat (length chunk) <= Z.of_nat (length buf) ->
  length (memcpy_at buf off chunk) = length buf.
Proof.
  intros. unfold memcpy_at. rewrite !length_app, length_take, length_drop. lia.
Qed.

Lemma memcpy_at_take (buf chunk : list byte) off m :
  0 <= off -> off + Z.of_nat (length chunk) <= Z.of_nat (length buf) ->
  m = Z.to_nat (off + Z.of_nat (length chunk)) ->
  take m (memcpy_at buf off chunk) = take (Z.to_nat off) buf ++ chunk.
Proof.
  intros Ho Hl ->. unfold memcpy_at. rewrite app_assoc.
  rewrite take_app_length'; [reflexivity|].
  rewrite length_app, length_take. lia.
Qed.

Lemma apply_event_write_insert p c data fs :
  apply_event (EvWrite p data) (<[p := NFile c]> fs) = <[p := NFile (c ++ data)]> fs.
Proof. unfold apply_event. now rewrite lookup_insert_eq, insert_insert_eq. Qed.

Lemma apply_event_close p fs : apply_event (EvClose p) fs = fs.
Proof. reflexivity. Qed.

Lemma apply_event_log line fs : apply_event (EvLog line) fs = fs.
Proof. reflexivity. Qed.

Lemma notifications_app tr1 tr2 :
  notifications (tr1 ++ tr2) = notifications tr1 ++ notifications tr2.
Proof.
  induction tr1 as [|e tr1 IH]; simpl; [reflexivity|].
  destruct e; simpl; congruence.
Qed.

Lemma Z_to_nat_succ r : 0 <= r -> Z.to_nat (r + 1) = S (Z.to_nat r).
Proof. lia. Qed.


(** ** The operations when no call fails *)

Lemma CloseCurrentFile_finalize d p :
  is_open (mFile d) = true ->
  0 < mCurrentFileSize d ->
  fault_free (w_faults (os p)) = true ->
  is_Some (w_fs (os p) !! c_str (mCurrentFilePath d)) ->
  CloseCurrentFile true d p =
  (with_mCurrentFilePath ""
     (with_mFile {| is_open := false; good := good (mFile d);
                    of_path := of_path (mFile d) |} d),
   {| instance :=
        AudioDumpManager.with_mCompletedFiles
          (AudioDumpManager.mCompletedFiles (instance p) ++ [mCurrentFilename d])
          (instance p);
      os :=
        emit (EvLog (AudioDumpManager.READY_TAG +:+ c_str (mCurrentFilename d)))
          (emit (EvAppend (c_str (AudioDumpManager.mQueueFilePath (instance p)))
                          (list_byte_of_string (mCurrentFilename d +:+ newline)))
             (with_faults (next_faults SysAppend (next_faults SysRename (w_faults (os p))))
                (emit (EvRename (c_str (mCurrentFilePath d))
                                (c_str (mDumpDirectory d +:+ mCurrentFilename d)))
                   (emit (EvClose (of_path (mFile d))) (os p))))) |}).
Proof.
  intros Ho Hsz HF [nd Hnd].
  unfold CloseCurrentFile, ofs_close. rewrite Ho. simpl.
  replace (0 <? mCurrentFileSize d) with true by (symmetry; now apply Z.ltb_lt).
  unfold sys_rename. simpl. rewrite apply_event_close, Hnd.
  unfold outcome. simpl. rewrite (fault_free_hd SysRename _ HF).
  unfold AudioDumpManager.OnDumpFileCompleted, AudioDumpManager.AppendToQueueFile, outcome.
  simpl. rewrite (fault_free_hd SysAppend _ (fault_free_next SysRename _ HF)).
  reflexivity.
Qed.

Lemma OpenNewFile_ok d w :
  is_open (mFile d) = false ->
  fault_free (w_faults w) = true ->
  OpenNewFile d w =
  (true,
   {| mType := mType d; mDumpDirectory := mDumpDirectory d; mTimestamp := mTimestamp d;
      mBaseCounter := mBaseCounter d;
      mFileIndex := wrap_u32 (mFileIndex d + 1);
      mFile := {| is_open := true; good := true;
                  of_path := c_str (mDumpDirectory d +:+ GenerateFilename true d) |};
      mCurrentFilePath := mDumpDirectory d +:+ GenerateFilename true d;
      mCurrentFilename := GenerateFilename false d;
      mBuffer := mBuffer d; mBufferOffset := 0; mCurrentFileSize := 0;
      mBytesSinceFlush := 0; mTotalBytesWritten := mTotalBytesWritten d;
      mFileCount := wrap_u32 (mFileCount d + 1); mIsValid := mIsValid d |},
   emit (EvOpen (c_str (mDumpDirectory d +:+ GenerateFilename true d)))
     (with_faults (next_faults SysOpen (w_faults w)) w)).
Proof.
  intros Ho HF. unfold OpenNewFile, ofs_open, outcome. simpl. rewrite Ho.
  rewrite (fault_free_hd SysOpen _ HF). reflexivity.
Qed.

Section WrittenProofs.

Variables (type : AudioStreamType) (dumpDir timestamp : string) (baseCounter : Z).
Variable p0 : process.

#[local] Abbreviation Wr := (Written type dumpDir timestamp baseCounter p0).
#[local] Abbreviation fname := (file_name type dumpDir timestamp baseCounter).
#[local] Abbreviation tmpp := (tmp_path type dumpDir timestamp baseCounter).
#[local] Abbreviation finp := (final_path type dumpDir timestamp baseCounter).

Lemma finalized_fs_succ (L : list byte) j :
  finalized_fs type dumpDir timestamp baseCounter p0 L (S j) =
  apply_event
    (EvAppend (queue_path p0) (queue_line type dumpDir timestamp baseCounter (Z.of_nat j)))
    (apply_event (EvRename (tmpp (Z.of_nat j)) (finp (Z.of_nat j)))
       (<[tmpp (Z.of_nat j) :=
            NFile (slice L (Z.of_nat j * MAX_FILE_SIZE) ((Z.of_nat j + 1) * MAX_FILE_SIZE))]>
          (finalized_fs type dumpDir timestamp baseCounter p0 L j))).
Proof. reflexivity. Qed.

Lemma finalized_fs_app (L c : list byte) k :
  Z.of_nat k * MAX_FILE_SIZE <= Z.of_nat (length L) ->
  finalized_fs type dumpDir timestamp baseCounter p0 (L ++ c) k
  = finalized_fs type dumpDir timestamp baseCounter p0 L k.
Proof.
  induction k as [|k IH]; intros Hk; [reflexivity|].
  rewrite !finalized_fs_succ.
  rewrite IH by (unfold MAX_FILE_SIZE in *; lia).
  rewrite slice_app_l; [reflexivity| | |]; unfold MAX_FILE_SIZE in *; lia.
Qed.

Lemma finalized_names_succ k :
  finalized_names type dumpDir timestamp baseCounter (S k)
  = finalized_names type dumpDir timestamp baseCounter k ++ [fname false (Z.of_nat k)].
Proof. unfold finalized_names. now rewrite seq_S, map_app. Qed.

Lemma copy_Layout r (L data : list byte) d p :
  Layout type dumpDir timestamp baseCounter p0 r L d p -> data <> [] ->
  0 <= r -> r * MAX_FILE_SIZE <= Z.of_nat (length L) ->
  flushed (Z.of_nat (length L)) - r * MAX_FILE_SIZE < MAX_FILE_SIZE ->
  exists c d' p',
    1 <= c <= Z.of_nat (length data) /\
    r = files_done (Z.of_nat (length L) + c) /\
    WriteTurn data d p = inr (c, drop (Z.to_nat c) data, d', p') /\
    Layout type dumpDir timestamp baseCounter p0 r (L ++ take (Z.to_nat c) data) d' p'.
Proof.
  intros (buf & F & tr & -> & -> & Hlen & Hbuf & HF & Hnot) Hdata Hr0 HrT0 Hrot.
  set (n := Z.of_nat (length L)) in *.
  assert (Hn : 0 <= n) by lia.
  assert (Hd : 1 <= Z.of_nat (length data)) by (destruct data; simpl in *; [congruence|lia]).
  assert (HlenZ : Z.of_nat (length buf) = BUFFER_SIZE) by (unfold BUFFER_SIZE in *; lia).
  unfold WriteTurn.
  destruct (Z.leb_spec MAX_FILE_SIZE (mCurrentFileSize (dumper_at type dumpDir timestamp baseCounter r n buf))) as [Hrot'|_];
    [simpl in Hrot'; lia|].
  cbv zeta.
    simpl mBufferOffset. simpl mBuffer.
    set (c := Z.min (Z.of_nat (length data)) (wrap_size (BUFFER_SIZE - n mod BUFFER_SIZE))).
    assert (Hc : 1 <= c <= Z.of_nat (length data) /\ c <= BUFFER_SIZE - n mod BUFFER_SIZE
                 /\ (c < BUFFER_SIZE - n mod BUFFER_SIZE -> c = Z.of_nat (length data)))
      by (subst c; layout_arith).
    clearbody c. destruct Hc as (Hc1 & Hc2 & Hc3).
    assert (Hchunk : Z.of_nat (length (take (Z.to_nat c) data)) = c)
      by (rewrite length_take; lia).
    assert (Hn' : Z.of_nat (length (L ++ take (Z.to_nat c) data)) = n + c)
      by (rewrite length_app; lia).
    assert (Hr' : files_done (n + c) = r) by layout_arith.
    assert (Hmod : 0 <= n mod BUFFER_SIZE) by layout_arith.
    assert (HrT : Z.of_nat (Z.to_nat (r)) * MAX_FILE_SIZE <= n) by layout_arith.
    exists c. simpl.
    destruct (Z.leb_spec BUFFER_SIZE (wrap_size (n mod BUFFER_SIZE + c))) as [Hfull|Hfull].
    + assert (Hw : wrap_size (n mod BUFFER_SIZE + c) = BUFFER_SIZE) by layout_arith.
      assert (Hsum : n mod BUFFER_SIZE + c = BUFFER_SIZE) by layout_arith.
      rewrite Hw in *.
      unfold FlushBuffer, ofs_write, outcome. simpl.
      change (BUFFER_SIZE =? 0) with false. cbv iota.
      rewrite (fault_free_hd SysWrite F HF). simpl.
      rewrite apply_event_write_insert.
      rewrite !(memcpy_at_take buf _ (n mod BUFFER_SIZE)) by layout_arith.
      rewrite Hbuf.
      assert (Hfl : flushed (n + c) = n + c) by layout_arith.
      assert (Hwrap1 : wrap_size (flushed n - r * MAX_FILE_SIZE + BUFFER_SIZE)
                       = flushed (n + c) - r * MAX_FILE_SIZE) by layout_arith.
      rewrite Hwrap1.
      assert (Hfs :
        <[tmpp (r) :=
            NFile (slice L (r * MAX_FILE_SIZE) (flushed n)
                     ++ drop (Z.to_nat (flushed n)) L ++ take (Z.to_nat c) data)]>
          (finalized_fs type dumpDir timestamp baseCounter p0 L (Z.to_nat (r)))
        = <[tmpp (r) :=
              NFile (slice (L ++ take (Z.to_nat c) data)
                       (r * MAX_FILE_SIZE) (flushed (n + c)))]>
            (finalized_fs type dumpDir timestamp baseCounter p0
               (L ++ take (Z.to_nat c) data) (Z.to_nat (r)))).
      { rewrite finalized_fs_app by exact HrT.
        rewrite Hfl. replace (n + c) with (n + Z.of_nat (length (take (Z.to_nat c) data))) by lia.
        unfold n. rewrite (slice_extend L _ _ (flushed (Z.of_nat (length L))));
          [reflexivity|fold n; layout_arith..]. }
      destruct (Z.leb_spec FLUSH_THRESHOLD
                  (wrap_size ((flushed n - r * MAX_FILE_SIZE) mod FLUSH_THRESHOLD
                              + BUFFER_SIZE))) as [Hper|Hper].
      * unfold ofs_flush, outcome. simpl.
        rewrite (fault_free_hd SysFlush _ (fault_free_next SysWrite F HF)). simpl.
        eexists _, _. split; [lia|]. split; [symmetry; exact Hr'|]. split; [reflexivity|].
        unfold Layout. rewrite Hn'.
        exists (memcpy_at buf (n mod BUFFER_SIZE) (take (Z.to_nat c) data)),
          (next_faults SysFlush (next_faults SysWrite F)),
          (tr ++ [EvWrite (tmpp (r))
                    (drop (Z.to_nat (flushed n)) L ++ take (Z.to_nat c) data)]).
        split_and!.
        -- unfold dumper_at. f_equal; layout_arith.
        -- unfold process_at. rewrite Hn'. fold n. now rewrite Hfs.
        -- rewrite memcpy_at_length; lia.
        -- replace ((n + c) mod BUFFER_SIZE) with 0 by layout_arith.
           rewrite Hfl. rewrite drop_ge; [reflexivity|]. rewrite length_app. lia.
        -- auto using fault_free_next.
        -- rewrite notifications_app, Hnot. simpl. now rewrite app_nil_r.
      * eexists _, _. split; [lia|]. split; [symmetry; exact Hr'|]. split; [reflexivity|].
        unfold Layout. rewrite Hn'.
        exists (memcpy_at buf (n mod BUFFER_SIZE) (take (Z.to_nat c) data)),
          (next_faults SysWrite F),
          (tr ++ [EvWrite (tmpp (r))
                    (drop (Z.to_nat (flushed n)) L ++ take (Z.to_nat c) data)]).
        split_and!.
        -- unfold dumper_at. f_equal; layout_arith.
        -- unfold process_at. rewrite Hn'. fold n. now rewrite Hfs.
        -- rewrite memcpy_at_length; lia.
        -- replace ((n + c) mod BUFFER_SIZE) with 0 by layout_arith.
           rewrite Hfl. rewrite drop_ge; [reflexivity|]. rewrite length_app. lia.
        -- auto using fault_free_next.
        -- rewrite notifications_app, Hnot. simpl. now rewrite app_nil_r.
    + simpl.
      destruct (Z.leb_spec FLUSH_THRESHOLD
                  ((flushed n - r * MAX_FILE_SIZE) mod FLUSH_THRESHOLD))
        as [Hper|Hper]; [exfalso; layout_arith|].
      assert (Hfl : flushed (n + c) = flushed n) by layout_arith.
      eexists _, _. split; [lia|]. split; [symmetry; exact Hr'|]. split; [reflexivity|].
      unfold Layout. rewrite Hn'.
      exists (memcpy_at buf (n mod BUFFER_SIZE) (take (Z.to_nat c) data)), F, tr.
      split_and!.
      * unfold dumper_at. simpl.
        f_equal; layout_arith.
      * unfold process_at, with_os. simpl. rewrite Hn'. fold n.
        rewrite Hfl, finalized_fs_app by exact HrT.
        rewrite slice_app_l; [reflexivity|fold n; layout_arith..].
      * rewrite memcpy_at_length; lia.
      * rewrite Hfl.
        rewrite (memcpy_at_take buf _ (n mod BUFFER_SIZE)) by layout_arith.
        rewrite Hbuf. rewrite drop_app_le; [reflexivity|]. fold n. layout_arith.
      * assumption.
      * assumption.
Qed.

Lemma rotate_Layout (L : list byte) d p :
  let n := Z.of_nat (length L) in
  let r := files_done n in
  Layout type dumpDir timestamp baseCounter p0 r L d p ->
  MAX_FILE_SIZE <= mCurrentFileSize d ->
  exists d1 p1 d2 w2,
    CloseCurrentFile true d p = (d1, p1) /\
    OpenNewFile d1 (os p1) = (true, d2, w2) /\
    mCurrentFileSize d2 = 0 /\
    n = (r + 1) * MAX_FILE_SIZE /\
    Layout type dumpDir timestamp baseCounter p0 (r + 1) L d2 (with_os w2 p1).
Proof.
  intros n r (buf & F & tr & -> & -> & Hlen & Hbuf & HF & Hnot) Hrot.
  fold n in Hbuf. fold n r.
  simpl in Hrot.
  assert (Hn : 0 <= n) by lia.
  assert (Hr0 : 0 <= r) by (subst r; layout_arith).
  assert (HnT : n = (r + 1) * MAX_FILE_SIZE /\ n mod BUFFER_SIZE = 0 /\ 0 < n
                /\ flushed n = n) by (subst r; layout_arith).
  destruct HnT as (HnT & Hmod0 & Hpos & Hfl).
  eexists _, _, _, _. split.
  { rewrite CloseCurrentFile_finalize; simpl; fold n;
      [reflexivity | reflexivity | lia | exact HF | rewrite lookup_insert_eq; eauto]. }
  split.
  { rewrite OpenNewFile_ok; simpl; [| reflexivity | auto using fault_free_next].
    rewrite !(GenerateFilename_index _ _ (r + 1)) by reflexivity. simpl.
    fold (tmpp (r + 1)). reflexivity. }
  split; [reflexivity|]. split; [exact HnT|].
  unfold Layout. fold n.
  exists buf, (next_faults SysOpen (next_faults SysAppend (next_faults SysRename F))),
    (((((tr ++ [EvClose (tmpp r)]) ++ [EvRename (tmpp r) (finp r)])
        ++ [EvAppend (queue_path p0) (queue_line type dumpDir timestamp baseCounter r)])
       ++ [EvLog (ready_line (fname false r))]) ++ [EvOpen (tmpp (r + 1))]).
  split_and!.
  - unfold dumper_at. f_equal; try reflexivity; layout_arith.
  - unfold process_at. fold n.
    rewrite Z_to_nat_succ by lia. rewrite finalized_names_succ.
    rewrite finalized_fs_succ.
    rewrite Z2Nat.id by lia. rewrite apply_event_log.
    unfold apply_event at 1. rewrite Hfl.
    replace (flushed n) with ((r + 1) * MAX_FILE_SIZE) by lia.
    rewrite <- HnT at 1. rewrite slice_empty.
    unfold AudioDumpManager.with_mCompletedFiles. simpl. rewrite app_assoc.
    rewrite apply_event_close. rewrite <- HnT.
    reflexivity.
  - exact Hlen.
  - rewrite Hfl, Hmod0. rewrite drop_ge by lia. reflexivity.
  - auto using fault_free_next.
  - rewrite !notifications_app, Hnot. simpl.
    rewrite Z_to_nat_succ by lia. rewrite finalized_names_succ, Z2Nat.id by lia.
    rewrite map_app, !app_nil_r, <- app_assoc. reflexivity.
Qed.

Lemma WriteTurn_after_rotation data d p d1 p1 d2 w2 :
  MAX_FILE_SIZE <= mCurrentFileSize d ->
  CloseCurrentFile true d p = (d1, p1) ->
  OpenNewFile d1 (os p1) = (true, d2, w2) ->
  mCurrentFileSize d2 = 0 ->
  WriteTurn data d p = WriteTurn data d2 (with_os w2 p1).
Proof.
  intros Hrot Hc Ho Hz. unfold WriteTurn.
  destruct (Z.leb_spec MAX_FILE_SIZE (mCurrentFileSize d)) as [_|?]; [|lia].
  rewrite Hc, Ho, Hz.
  destruct (Z.leb_spec MAX_FILE_SIZE 0) as [H0|_]; [unfold MAX_FILE_SIZE in H0; lia|].
  reflexivity.
Qed.

Lemma WriteTurn_Written (L data : list byte) d p :
  Wr L d p -> data <> [] ->
  exists c d' p',
    1 <= c <= Z.of_nat (length data) /\
    WriteTurn data d p = inr (c, drop (Z.to_nat c) data, d', p') /\
    Wr (L ++ take (Z.to_nat c) data) d' p'.
Proof.
  intros HW Hdata. unfold Written in *.
  set (n := Z.of_nat (length L)) in *. set (r := files_done n) in *.
  assert (Hn : 0 <= n) by lia.
  assert (Hsize : mCurrentFileSize d = flushed n - r * MAX_FILE_SIZE)
    by (destruct HW as (? & ? & ? & -> & _); reflexivity).
  destruct (Z.le_gt_cases MAX_FILE_SIZE (mCurrentFileSize d)) as [Hrot|Hrot].
  - destruct (rotate_Layout L d p HW Hrot)
      as (d1 & p1 & d2 & w2 & Hc & Ho & Hz & HnT & HL).
    fold n r in HnT, HL.
    rewrite (WriteTurn_after_rotation data d p d1 p1 d2 w2 Hrot Hc Ho Hz).
    destruct (copy_Layout (r + 1) L data d2 (with_os w2 p1) HL Hdata)
      as (c & d' & p' & Hc1 & Hr' & Hturn & HL'); fold n.
    + subst r. layout_arith.
    + lia.
    + replace (flushed n) with n by (subst r; layout_arith).
      unfold MAX_FILE_SIZE in *. lia.
    + exists c, d', p'. split; [exact Hc1|]. split; [exact Hturn|].
      rewrite length_app, length_take.
      replace (Z.of_nat (length L + Z.to_nat c `min` length data)) with (n + c) by lia.
      fold n in Hr'. now rewrite <- Hr'.
  - destruct (copy_Layout r L data d p HW Hdata)
      as (c & d' & p' & Hc1 & Hr' & Hturn & HL'); fold n.
    + subst r. layout_arith.
    + subst r. layout_arith.
    + lia.
    + exists c, d', p'. split; [exact Hc1|]. split; [exact Hturn|].
      rewrite length_app, length_take.
      replace (Z.of_nat (length L + Z.to_nat c `min` length data)) with (n + c) by lia.
      fold n in Hr'. now rewrite <- Hr'.
Qed.

Lemma WriteLoop_Written fuel : forall (data L : list byte) tw d p,
  Wr L d p -> (length data < fuel)%nat -> 0 <= tw < SIZE_MODULUS ->
  exists d' p',
    WriteLoop fuel data tw d p
      = Some (to_ssize (wrap_size (tw + Z.of_nat (length data))), d', p') /\
    Wr (L ++ data) d' p'.
Proof.
  induction fuel as [|fuel IH]; intros data L tw d p HW Hfuel Htw; [lia|].
  destruct data as [|b data'] eqn:Edata.
  - exists d, p. simpl. rewrite app_nil_r. split; [|exact HW].
    do 3 f_equal. unfold wrap_size, SIZE_MODULUS in *.
    change (Z.of_nat 0) with 0. rewrite Z.add_0_r, Z.mod_small; lia.
  - rewrite <- Edata in *.
    assert (Hne : data <> []) by (rewrite Edata; discriminate).
    destruct (WriteTurn_Written L data d p HW Hne) as (c & d1 & p1 & Hc & Hturn & HW1).
    assert (Hstep : WriteLoop (S fuel) data tw d p
                    = WriteLoop fuel (drop (Z.to_nat c) data) (wrap_size (tw + c)) d1 p1).
    { rewrite Edata at 1. simpl. rewrite <- Edata. now rewrite Hturn. }
    rewrite Hstep.
    destruct (IH (drop (Z.to_nat c) data) _ (wrap_size (tw + c)) d1 p1 HW1)
      as (d' & p' & Hloop & HW').
    + rewrite length_drop. lia.
    + unfold wrap_size, SIZE_MODULUS. apply Z.mod_pos_bound. lia.
    + exists d', p'. rewrite Hloop. split.
      * do 3 f_equal. rewrite length_drop. unfold wrap_size, SIZE_MODULUS.
        rewrite Zplus_mod_idemp_l. do 2 f_equal. lia.
      * now rewrite <- app_assoc, take_drop in HW'.
Qed.

Lemma Written_valid L d p : Wr L d p -> mIsValid d = true.
Proof. now intros (? & ? & ? & -> & _). Qed.

Lemma WriteData_Written (L data : list byte) d p :
  Wr L d p -> data <> [] -> Z.of_nat (length data) < SSIZE_LIMIT ->
  exists d' p',
    WriteData (Some data) d p = Some (Z.of_nat (length data), d', p') /\
    Wr (L ++ data) d' p'.
Proof.
  intros HW Hne Hlim. unfold WriteData. rewrite (Written_valid L d p HW).
  replace (Z.of_nat (length data) =? 0) with false
    by (symmetry; apply Z.eqb_neq; destruct data; simpl in *; [congruence|lia]).
  simpl negb. cbv iota. simpl orb. cbv iota.
  destruct (WriteLoop_Written (S (length data)) data L 0 d p HW)
    as (d' & p' & Hloop & HW'); [lia|unfold SIZE_MODULUS; lia|].
  exists d', p'. rewrite Hloop. split; [|exact HW'].
  do 3 f_equal. unfold to_ssize, wrap_size, SIZE_MODULUS, SSIZE_LIMIT in *.
  rewrite Z.add_0_l, Z.mod_small by lia.
  destruct (Z.ltb_spec (Z.of_nat (length data)) 9223372036854775808); lia.
Qed.

Lemma WriteAll_Written (datas : list (list byte)) : forall L d p,
  Wr L d p -> Forall sendable datas ->
  exists d' p',
    WriteAll (map Some datas) d p
      = Some (sizes datas, d', p') /\
    Wr (L ++ concat datas) d' p'.
Proof.
  induction datas as [|data datas IH]; intros L d p HW Hall.
  - exists d, p. simpl. now rewrite app_nil_r.
  - inversion Hall as [|? ? [Hne Hlim] Hrest]; subst.
    destruct (WriteData_Written L data d p HW Hne Hlim) as (d1 & p1 & Hw & HW1).
    destruct (IH _ d1 p1 HW1 Hrest) as (d' & p' & Hall' & HW').
    exists d', p'. simpl. rewrite Hw, Hall'. split; [reflexivity|].
    now rewrite app_assoc.
Qed.

Lemma ctor_Written :
  fault_free (w_faults (os p0)) = true ->
  exists d w,
    ctor type dumpDir timestamp baseCounter (os p0) = (d, w) /\
    Wr [] d (with_os w p0).
Proof.
  intros HF. rewrite ctor_seed.
  rewrite OpenNewFile_ok by (try reflexivity; exact HF).
  eexists _, _. split; [reflexivity|].
  unfold Written, Layout.
  exists (repeat x00 (Z.to_nat BUFFER_SIZE)), (next_faults SysOpen (w_faults (os p0))),
    (w_trace (os p0) ++ [EvOpen (tmpp 0)]).
  change (Z.of_nat (length (@nil byte))) with 0.
  change (files_done 0) with 0.
  split_and!.
  - unfold dumper_at. simpl.
    rewrite !(GenerateFilename_index _ _ 0) by reflexivity. simpl.
    reflexivity.
  - unfold process_at. simpl.
    rewrite !(GenerateFilename_index _ _ 0) by reflexivity. simpl.
    fold (tmpp 0). unfold apply_event.
    destruct p0 as [m w0]. simpl. f_equal.
    destruct m; unfold AudioDumpManager.with_mCompletedFiles; simpl.
    now rewrite app_nil_r.
  - apply repeat_length.
  - reflexivity.
  - now apply fault_free_next.
  - rewrite notifications_app. simpl. reflexivity.
Qed.

Lemma ForceClose_Written (L : list byte) d p :
  Wr L d p -> 0 < Z.of_nat (length L) ->
  exists buf F tr,
    ForceClose d p =
      (dumper_closed type dumpDir timestamp baseCounter (Z.of_nat (length L)) buf,
       process_closed type dumpDir timestamp baseCounter p0 L F tr) /\
    notifications tr =
      notifications (w_trace (os p0))
        ++ map ready_line
             (finalized_names type dumpDir timestamp baseCounter
                (S (Z.to_nat (files_done (Z.of_nat (length L)))))).
Proof.
  unfold Written.
  set (n := Z.of_nat (length L)). set (r := files_done n).
  intros (buf & F & tr & -> & -> & Hlen & Hbuf & HF & Hnot) Hpos.
  fold n in Hbuf.
  assert (Hr0 : 0 <= r) by (subst r; layout_arith).
  assert (HrT : r * MAX_FILE_SIZE < n <= (r + 1) * MAX_FILE_SIZE) by (subst r; layout_arith).
  assert (Hfl : r * MAX_FILE_SIZE <= flushed n <= n) by (subst r; layout_arith).
  assert (Hslice : slice L (r * MAX_FILE_SIZE) (flushed n) ++ drop (Z.to_nat (flushed n)) L
                   = slice L (r * MAX_FILE_SIZE) ((r + 1) * MAX_FILE_SIZE)).
  { unfold slice.
    rewrite (take_ge (drop _ L) (Z.to_nat ((r + 1) * MAX_FILE_SIZE - r * MAX_FILE_SIZE)))
      by (rewrite length_drop; clia).
    replace (Z.to_nat (flushed n))
      with (Z.to_nat (r * MAX_FILE_SIZE) + Z.to_nat (flushed n - r * MAX_FILE_SIZE))%nat
      by clia.
    rewrite <- drop_drop. now rewrite take_drop. }
  exists buf, (next_faults SysAppend (next_faults SysRename
                 (if 0 <? n mod BUFFER_SIZE then next_faults SysWrite F else F))).
  unfold ForceClose. simpl mFile. simpl is_open. cbv iota. simpl mBufferOffset.
  fold n.
  destruct (Z.ltb_spec 0 (n mod BUFFER_SIZE)) as [Hoff|Hoff].
  - eexists. split.
    + unfold ofs_write, outcome. cbn. rewrite (fault_free_hd SysWrite F HF). cbn.
      rewrite CloseCurrentFile_finalize; simpl;
        [| reflexivity | layout_arith | now apply fault_free_next
         | rewrite apply_event_write_insert, lookup_insert_eq; eauto].
      f_equal.
      * unfold dumper_closed. fold n r. f_equal; layout_arith.
      * unfold process_closed. fold n r. rewrite finalized_fs_succ.
        rewrite Z2Nat.id by lia.
        rewrite finalized_names_succ, Z2Nat.id by lia.
        rewrite apply_event_log, apply_event_close, apply_event_write_insert.
        rewrite Hbuf, Hslice.
        unfold AudioDumpManager.with_mCompletedFiles. simpl. rewrite app_assoc.
        reflexivity.
    + rewrite finalized_names_succ, Z2Nat.id by lia.
      rewrite !notifications_app, Hnot. simpl notifications.
      rewrite map_app, !app_nil_r, <- app_assoc. reflexivity.
  - assert (Hoff0 : n mod BUFFER_SIZE = 0) by layout_arith.
    eexists. split.
    + rewrite CloseCurrentFile_finalize; simpl;
        [| reflexivity | layout_arith | exact HF | rewrite lookup_insert_eq; eauto].
      f_equal.
      * unfold dumper_closed. fold n r. f_equal; layout_arith.
      * unfold process_closed. fold n r. rewrite finalized_fs_succ.
        rewrite Z2Nat.id by lia.
        rewrite finalized_names_succ, Z2Nat.id by lia.
        rewrite apply_event_log, apply_event_close.
        rewrite <- Hslice. rewrite <- Hbuf, Hoff0. simpl take. rewrite app_nil_r.
        unfold AudioDumpManager.with_mCompletedFiles. simpl. rewrite app_assoc.
        reflexivity.
    + rewrite finalized_names_succ, Z2Nat.id by lia.
      rewrite !notifications_app, Hnot. simpl notifications.
      rewrite map_app, !app_nil_r, <- app_assoc. reflexivity.
Qed.

Lemma Written_inv (L : list byte) d p :
  Wr L d p ->
  let n := Z.of_nat (length L) in
  let r := files_done n in
  mIsValid d = true /\
  is_open (mFile d) = true /\
  mBufferOffset d = n mod BUFFER_SIZE /\
  mCurrentFileSize d = flushed n - r * MAX_FILE_SIZE /\
  mTotalBytesWritten d = wrap_size (flushed n) /\
  mFileCount d = wrap_u32 (r + 1) /\
  mFileIndex d = wrap_u32 (r + 1) /\
  mCurrentFilename d = fname false r /\
  AudioDumpManager.mCompletedFiles (instance p)
    = AudioDumpManager.mCompletedFiles (instance p0)
        ++ finalized_names type dumpDir timestamp baseCounter (Z.to_nat r) /\
  notifications (w_trace (os p))
    = notifications (w_trace (os p0))
        ++ map ready_line (finalized_names type dumpDir timestamp baseCounter (Z.to_nat r)) /\
  w_fs (os p)
    = <[tmpp r := NFile (slice L (r * MAX_FILE_SIZE) (flushed n))]>
        (finalized_fs type dumpDir timestamp baseCounter p0 L (Z.to_nat r)).
Proof.
  intros (buf & F & tr & -> & -> & Hlen & Hbuf & HF & Hnot). simpl.
  repeat split; try reflexivity. exact Hnot.
Qed.

End WrittenProofs.

(** ** File names *)

Lemma str_length_app a b : String.length (a +:+ b) = (String.length a + String.length b)%nat.
Proof. induction a as [|c a IH]; simpl; [reflexivity|]. unfold String.append in *; fold String.append in *. now rewrite IH. Qed.

Lemma str_app_assoc a b c : (a +:+ b) +:+ c = a +:+ b +:+ c.
Proof.
  induction a as [|x a IH]; [reflexivity|].
  unfold String.append; fold String.append. now rewrite IH.
Qed.

Lemma str_app_inv_head a x y : a +:+ x = a +:+ y -> x = y.
Proof.
  induction a as [|c a IH]; intros H; [exact H|].
  apply IH. unfold String.append in H; fold String.append in H. now inversion H.
Qed.

Lemma str_take_all n s : (String.length s <= n)%nat -> str_take n s = s.
Proof.
  revert s. induction n as [|n IH]; intros [|c s] H; simpl in *; try reflexivity; try lia.
  rewrite IH; [reflexivity|lia].
Qed.

Lemma str_app_nonempty a b : b <> "" -> a +:+ b <> "".
Proof.
  destruct a; intros Hb H; [exact (Hb H)|].
  unfold String.append in H; discriminate H.
Qed.

Lemma last_char_app a b : b <> "" -> last_char (a +:+ b) = last_char b.
Proof.
  intros Hb. induction a as [|c a IH]; [reflexivity|].
  unfold String.append; fold String.append. simpl.
  pose proof (str_app_nonempty a b Hb) as Hne.
  destruct (a +:+ b) eqn:E; [congruence|exact IH].
Qed.

Lemma nul_free_c_str s : nul_free (c_str s).
Proof.
  unfold nul_free. induction s as [|c s IH]; [reflexivity|].
  unfold c_str; fold c_str. destruct (Ascii.eqb c zero) eqn:E; [reflexivity|].
  unfold c_str; fold c_str. now rewrite E, IH.
Qed.

Lemma nul_free_app a b : nul_free a -> nul_free b -> nul_free (a +:+ b).
Proof.
  unfold nul_free. induction a as [|c a IH]; intros Ha Hb; [exact Hb|].
  unfold String.append; fold String.append.
  unfold c_str in *; fold c_str in *.
  destruct (Ascii.eqb c zero); [discriminate|].
  inversion Ha as [Ha']. rewrite Ha'. now rewrite IH.
Qed.

Lemma c_str_length s : (String.length (c_str s) <= String.length s)%nat.
Proof.
  induction s as [|c s IH]; [reflexivity|].
  unfold c_str; fold c_str. destruct (Ascii.eqb c zero); simpl; lia.
Qed.

Lemma digit_char_not_nul d : 0 <= d < 10 -> Ascii.eqb (digit_char d) zero = false.
Proof.
  intros H.
  assert (Hd : d = 0 \/ d = 1 \/ d = 2 \/ d = 3 \/ d = 4 \/ d = 5 \/ d = 6 \/ d = 7
               \/ d = 8 \/ d = 9) by lia.
  repeat (destruct Hd as [-> | Hd]; [reflexivity|]). now subst.
Qed.

Lemma fmt_digits_spec fuel : forall n acc,
  nul_free acc ->
  nul_free (fmt_digits fuel n acc) /\
  (String.length (fmt_digits fuel n acc) <= String.length acc + fuel)%nat.
Proof.
  induction fuel as [|fuel IH]; intros n acc Hacc; simpl; [split; [exact Hacc|lia]|].
  assert (Hacc' : nul_free (String (digit_char (n mod 10)) acc)).
  { unfold nul_free, c_str; fold c_str.
    rewrite digit_char_not_nul by (apply Z.mod_pos_bound; lia).
    now rewrite Hacc. }
  destruct (n / 10 =? 0).
  - split; [exact Hacc'|simpl; lia].
  - destruct (IH (n / 10) _ Hacc') as [H1 H2]. split; [exact H1|simpl in H2; lia].
Qed.

Lemma fmt_u_nul_free n : nul_free (fmt_u n).
Proof. apply fmt_digits_spec. reflexivity. Qed.

Lemma fmt_u_length n : (String.length (fmt_u n) <= 10)%nat.
Proof. apply (fmt_digits_spec 10 n ""). reflexivity. Qed.

Section NamingProofs.

Variables (type : AudioStreamType) (dumpDir timestamp : string) (baseCounter : Z).

Hypothesis dumpDir_nul_free : c_str dumpDir = dumpDir.
Hypothesis timestamp_short : (String.length (c_str timestamp) <= 200)%nat.

#[local] Abbreviation fname := (file_name type dumpDir timestamp baseCounter).
#[local] Abbreviation tmpp := (tmp_path type dumpDir timestamp baseCounter).
#[local] Abbreviation finp := (final_path type dumpDir timestamp baseCounter).

#[local] Abbreviation stem := (file_stem type timestamp baseCounter).

Lemma stem_nul_free i : nul_free (stem i).
Proof.
  unfold file_stem.
  repeat (apply nul_free_app;
          [first [reflexivity | apply nul_free_c_str | apply fmt_u_nul_free
                 | destruct type; reflexivity]|]).
  apply fmt_u_nul_free.
Qed.

Lemma stem_length i : (String.length (stem i) <= 247)%nat.
Proof.
  unfold file_stem. rewrite !str_length_app.
  pose proof (fmt_u_length baseCounter). pose proof (fmt_u_length (wrap_u32 i)).
  destruct type; simpl String.length; lia.
Qed.

Lemma filename_text_stem withTmp i :
  filename_text withTmp (with_mFileIndex (wrap_u32 i) (seed type dumpDir timestamp baseCounter))
  = stem i +:+ (if withTmp then ".pcm.tmp" else ".pcm").
Proof.
  unfold filename_text, file_stem, GetStreamTypeString. simpl.
  destruct type, withTmp; rewrite !str_app_assoc; reflexivity.
Qed.

Lemma file_name_stem withTmp i :
  fname withTmp i = stem i +:+ (if withTmp then ".pcm.tmp" else ".pcm").
Proof.
  unfold file_name, GenerateFilename, snprintf. rewrite filename_text_stem.
  apply str_take_all. rewrite str_length_app. pose proof (stem_length i).
  destruct withTmp; cbn [String.length Nat.pred]; lia.
Qed.

Lemma file_name_nul_free withTmp i : nul_free (fname withTmp i).
Proof.
  rewrite file_name_stem. apply nul_free_app; [apply stem_nul_free|].
  destruct withTmp; reflexivity.
Qed.

Lemma tmp_path_eq i : tmpp i = dumpDir +:+ stem i +:+ ".pcm.tmp".
Proof.
  unfold tmp_path. rewrite <- (file_name_stem true).
  apply nul_free_app; [exact dumpDir_nul_free|apply file_name_nul_free].
Qed.

Lemma final_path_eq i : finp i = dumpDir +:+ stem i +:+ ".pcm".
Proof.
  unfold final_path. rewrite <- (file_name_stem false).
  apply nul_free_app; [exact dumpDir_nul_free|apply file_name_nul_free].
Qed.

(** The temporary path is the final path with [.tmp] appended. *)
Lemma tmp_path_final i : tmpp i = finp i +:+ ".tmp".
Proof. rewrite tmp_path_eq, final_path_eq, !str_app_assoc. reflexivity. Qed.

Lemma last_char_tmp i : last_char (tmpp i) = Some "p"%char.
Proof.
  rewrite tmp_path_eq, !last_char_app; try reflexivity; try discriminate.
Qed.

Lemma last_char_final i : last_char (finp i) = Some "m"%char.
Proof.
  rewrite final_path_eq, !last_char_app; try reflexivity; try discriminate.
Qed.

Lemma tmp_final_distinct i j : tmpp i <> finp j.
Proof.
  intros H. pose proof (last_char_tmp i) as Ht. rewrite H, last_char_final in Ht.
  discriminate.
Qed.

Lemma stem_0_1 suffix : stem 0 +:+ suffix <> stem 1 +:+ suffix.
Proof.
  unfold file_stem. rewrite !str_app_assoc. intros H.
  do 7 apply str_app_inv_head in H. vm_compute in H. discriminate.
Qed.

Lemma final_path_0_1 : finp 0 <> finp 1.
Proof.
  rewrite !final_path_eq. intros H. apply str_app_inv_head in H.
  exact (stem_0_1 _ H).
Qed.

Lemma tmp_path_0_1 : tmpp 0 <> tmpp 1.
Proof.
  rewrite !tmp_path_eq. intros H. apply str_app_inv_head in H.
  exact (stem_0_1 _ H).
Qed.

End NamingProofs.

(** ** Total bytes written *)

Lemma total_size_concat datas : total_size datas = Z.of_nat (length (concat datas)).
Proof.
  induction datas as [|data datas IH]; [reflexivity|].
  simpl. rewrite length_app, IH. lia.
Qed.

Lemma CloseCurrentFile_total complete d p :
  mTotalBytesWritten (CloseCurrentFile complete d p).1 = mTotalBytesWritten d.
Proof.
  unfold CloseCurrentFile. destruct (is_open (mFile d)); simpl; [|reflexivity].
  unfold ofs_close. destruct (is_open (mFile d)); reflexivity.
Qed.

Lemma ForceClose_total d p :
  mTotalBytesWritten (ForceClose d p).1 =
  if is_open (mFile d) && (0 <? mBufferOffset d)
  then wrap_size (mTotalBytesWritten d + mBufferOffset d)
  else mTotalBytesWritten d.
Proof.
  unfold ForceClose. destruct (is_open (mFile d)); [|reflexivity].
  destruct (0 <? mBufferOffset d); simpl.
  - destruct (ofs_write _ _ _) as [f w].
    match goal with |- context [CloseCurrentFile true ?a ?b] =>
      pose proof (CloseCurrentFile_total true a b) as Hc;
      destruct (CloseCurrentFile true a b) as [d1 p1] end.
    simpl in *. exact Hc.
  - match goal with |- context [CloseCurrentFile true ?a ?b] =>
      pose proof (CloseCurrentFile_total true a b) as Hc;
      destruct (CloseCurrentFile true a b) as [d1 p1] end.
    simpl in *. exact Hc.
Qed.

Lemma writes_total_bytes (type : AudioStreamType) (dumpDir timestamp : string)
    (baseCounter : Z) (p0 : process) (datas : list (list byte)) :
  fault_free (w_faults (os p0)) = true ->
  Forall sendable datas ->
  total_size datas < SIZE_MODULUS ->
  exists d0 w0 d p,
    ctor type dumpDir timestamp baseCounter (os p0) = (d0, w0) /\
    WriteAll (map Some datas) d0 (with_os w0 p0) = Some (sizes datas, d, p) /\
    GetTotalBytesWritten d + mBufferOffset d = total_size datas /\
    0 <= mBufferOffset d < BUFFER_SIZE /\
    GetTotalBytesWritten d = total_size datas - total_size datas mod BUFFER_SIZE /\
    GetTotalBytesWritten (ForceClose d p).1 = total_size datas.
Proof.
  intros HF Hall Hlim.
  destruct (ctor_Written type dumpDir timestamp baseCounter p0 HF) as (d0 & w0 & Hctor & HW0).
  destruct (WriteAll_Written type dumpDir timestamp baseCounter p0 datas [] d0 _ HW0 Hall)
    as (d & p & Hall' & HW).
  simpl app in HW.
  exists d0, w0, d, p. split; [exact Hctor|]. split; [exact Hall'|].
  destruct (Written_inv _ _ _ _ _ _ _ _ HW) as (_ & Hopen & Hoff & _ & Htot & _).
  rewrite <- total_size_concat in *.
  set (n := total_size datas) in *.
  assert (Hn : 0 <= n) by (subst n; rewrite total_size_concat; lia).
  unfold GetTotalBytesWritten. rewrite ForceClose_total, Hopen, Htot, Hoff. simpl andb.
  split_and!; try layout_arith.
  destruct (Z.ltb_spec 0 (n mod BUFFER_SIZE)); layout_arith.
Qed.

(** C3, as the code has it. After any sequence of writes none of which
    failed, [total_bytes_written] counts the bytes that left the buffer:
    with the bytes still in the buffer it adds up to the sum of the sizes
    written; it reaches that sum once [ForceClose] has flushed the
    buffer. *)
Theorem total_bytes_written_flushed (type : AudioStreamType) (dumpDir timestamp : string)
    (baseCounter : Z) (p0 : process) (datas : list (list byte)) :
  fault_free (w_faults (os p0)) = true ->
  Forall sendable datas ->
  total_size datas < SIZE_MODULUS ->
  exists d0 w0 d p,
    ctor type dumpDir timestamp baseCounter (os p0) = (d0, w0) /\
    WriteAll (map Some datas) d0 (with_os w0 p0) = Some (sizes datas, d, p) /\
    GetTotalBytesWritten d + mBufferOffset d = total_size datas /\
    0 <= mBufferOffset d < BUFFER_SIZE /\
    GetTotalBytesWritten d = total_size datas - total_size datas mod BUFFER_SIZE /\
    GetTotalBytesWritten (ForceClose d p).1 = total_size datas.
Proof. apply writes_total_bytes. Qed.

(** C3, as stated, fails: after one successful write of one byte the
    counter reads 0, not 1. *)
Lemma total_bytes_written_lags :
  exists d0 w0 d p,
    ctor STREAM_OUT demo_dir demo_timestamp 0 (os (quiet_process ∅)) = (d0, w0) /\
    WriteAll [Some ["001"%byte]] d0 (with_os w0 (quiet_process ∅)) = Some ([1], d, p) /\
    total_size [["001"%byte]] = 1 /\
    GetTotalBytesWritten d = 0.
Proof.
  destruct (writes_total_bytes STREAM_OUT demo_dir demo_timestamp 0 (quiet_process ∅)
              [["001"%byte]]) as (d0 & w0 & d & p & Hc & Hw & _ & _ & Ht & _).
  - reflexivity.
  - constructor; [split; [discriminate|reflexivity]|constructor].
  - reflexivity.
  - exists d0, w0, d, p. split; [exact Hc|]. split; [exact Hw|].
    split; [reflexivity|]. rewrite Ht. reflexivity.
Qed.

Lemma total_bytes_written_flushed_witness :
  fault_free (w_faults (os (quiet_process ∅))) = true /\
  Forall sendable [["001"%byte; "002"%byte]] /\
  total_size [["001"%byte; "002"%byte]] < SIZE_MODULUS /\
  exists d0 w0 d p,
    ctor STREAM_IN demo_dir demo_timestamp 7 (os (quiet_process ∅)) = (d0, w0) /\
    WriteAll (map Some [["001"%byte; "002"%byte]]) d0 (with_os w0 (quiet_process ∅))
      = Some (sizes [["001"%byte; "002"%byte]], d, p) /\
    GetTotalBytesWritten d + mBufferOffset d = total_size [["001"%byte; "002"%byte]] /\
    0 <= mBufferOffset d < BUFFER_SIZE /\
    GetTotalBytesWritten d
      = total_size [["001"%byte; "002"%byte]]
        - total_size [["001"%byte; "002"%byte]] mod BUFFER_SIZE /\
    GetTotalBytesWritten (ForceClose d p).1 = total_size [["001"%byte; "002"%byte]].
Proof.
  assert (H1 : fault_free (w_faults (os (quiet_process ∅))) = true) by reflexivity.
  assert (H2 : Forall sendable [["001"%byte; "002"%byte]])
    by (constructor; [split; [discriminate|reflexivity]|constructor]).
  assert (H3 : total_size [["001"%byte; "002"%byte]] < SIZE_MODULUS) by reflexivity.
  split; [exact H1|]. split; [exact H2|]. split; [exact H3|].
  exact (total_bytes_written_flushed STREAM_IN demo_dir demo_timestamp 7
           (quiet_process ∅) [["001"%byte; "002"%byte]] H1 H2 H3).
Defined.

(** ** Two files *)

Lemma slice_length (L : list byte) a b :
  0 <= a <= b ->
  Z.of_nat (length (slice L a b)) = Z.min (b - a) (Z.max 0 (Z.of_nat (length L) - a)).
Proof.
  intros H. unfold slice. rewrite length_take, length_drop. lia.
Qed.

Lemma slice_cat (L : list byte) a b c :
  0 <= a <= b -> b <= c -> slice L a b ++ slice L b c = slice L a c.
Proof.
  intros Hab Hbc. unfold slice.
  replace (Z.to_nat b) with (Z.to_nat a + Z.to_nat (b - a))%nat by lia.
  rewrite <- drop_drop.
  replace (Z.to_nat (c - a)) with (Z.to_nat (b - a) + Z.to_nat (c - b))%nat by lia.
  now rewrite take_take_drop.
Qed.

Lemma slice_all (L : list byte) b : Z.of_nat (length L) <= b -> slice L 0 b = L.
Proof.
  intros H. unfold slice. change (Z.to_nat 0) with 0%nat. rewrite drop_0.
  apply take_ge. lia.
Qed.

Section FinalizeStep.

Variables (fs : gmap string node) (q t f : string) (line c : list byte).

Let fs' : gmap string node :=
  apply_event (EvAppend q line) (apply_event (EvRename t f) (<[t := NFile c]> fs)).

Lemma finalize_step_final : q <> f -> fs' !! f = Some (NFile c).
Proof.
  intros Hq. unfold fs', apply_event. rewrite lookup_insert_eq.
  rewrite lookup_insert_ne by exact Hq. apply lookup_insert_eq.
Qed.

Lemma finalize_step_tmp : q <> t -> f <> t -> fs' !! t = None.
Proof.
  intros Hq Hf. unfold fs', apply_event. rewrite lookup_insert_eq.
  rewrite lookup_insert_ne by exact Hq. rewrite lookup_insert_ne by exact Hf.
  apply lookup_delete_eq.
Qed.

Lemma finalize_step_other x : q <> x -> f <> x -> t <> x -> fs' !! x = fs !! x.
Proof.
  intros Hq Hf Ht. unfold fs', apply_event. rewrite lookup_insert_eq.
  rewrite lookup_insert_ne by exact Hq. rewrite lookup_insert_ne by exact Hf.
  rewrite lookup_delete_ne by exact Ht. now apply lookup_insert_ne.
Qed.

End FinalizeStep.

Section TwoFiles.

Variables (type : AudioStreamType) (dumpDir timestamp : string) (baseCounter : Z).
Variable p0 : process.

Hypothesis dumpDir_nul_free : nul_free dumpDir.
Hypothesis timestamp_short : (String.length (c_str timestamp) <= 200)%nat.
Hypothesis queue_file :
  AudioDumpManager.mQueueFilePath (instance p0)
  = AudioDumpManager.mQueueFilePath AudioDumpManager.ctor.

#[local] Abbreviation Wr := (Written type dumpDir timestamp baseCounter p0).
#[local] Abbreviation fname := (file_name type dumpDir timestamp baseCounter).
#[local] Abbreviation tmpp := (tmp_path type dumpDir timestamp baseCounter).
#[local] Abbreviation finp := (final_path type dumpDir timestamp baseCounter).
#[local] Abbreviation fin_fs := (finalized_fs type dumpDir timestamp baseCounter p0).
#[local] Abbreviation fin_names := (finalized_names type dumpDir timestamp baseCounter).

Lemma queue_path_last : last_char (queue_path p0) = Some "e"%char.
Proof. unfold queue_path. rewrite queue_file. reflexivity. Qed.

Lemma queue_not_final i : queue_path p0 <> finp i.
Proof.
  intros H. pose proof queue_path_last as Hl.
  rewrite H, (last_char_final type dumpDir timestamp baseCounter dumpDir_nul_free timestamp_short) in Hl.
  discriminate.
Qed.

Lemma queue_not_tmp i : queue_path p0 <> tmpp i.
Proof.
  intros H. pose proof queue_path_last as Hl.
  rewrite H, (last_char_tmp type dumpDir timestamp baseCounter dumpDir_nul_free timestamp_short) in Hl.
  discriminate.
Qed.

Lemma fin_names_1 : fin_names 1 = [fname false 0].
Proof. reflexivity. Qed.

Lemma fin_names_2 : fin_names 2 = [fname false 0; fname false 1].
Proof. reflexivity. Qed.

Lemma fin_fs_1 (L : list byte) :
  fin_fs L 1 !! finp 0 = Some (NFile (slice L 0 MAX_FILE_SIZE)) /\
  fin_fs L 1 !! tmpp 0 = None /\
  fin_fs L 1 !! finp 1 = w_fs (os p0) !! finp 1 /\
  fin_fs L 1 !! tmpp 1 = w_fs (os p0) !! tmpp 1.
Proof.
  pose proof (queue_not_final 0). pose proof (queue_not_tmp 0).
  pose proof (queue_not_final 1). pose proof (queue_not_tmp 1).
  pose proof (tmp_final_distinct type dumpDir timestamp baseCounter dumpDir_nul_free timestamp_short 0 0).
  pose proof (tmp_final_distinct type dumpDir timestamp baseCounter dumpDir_nul_free timestamp_short 0 1).
  pose proof (tmp_final_distinct type dumpDir timestamp baseCounter dumpDir_nul_free timestamp_short 1 0).
  pose proof (final_path_0_1 type dumpDir timestamp baseCounter dumpDir_nul_free timestamp_short).
  pose proof (tmp_path_0_1 type dumpDir timestamp baseCounter dumpDir_nul_free timestamp_short).
  rewrite finalized_fs_succ. change (Z.of_nat 0) with 0.
  change (0 * MAX_FILE_SIZE) with 0. change ((0 + 1) * MAX_FILE_SIZE) with MAX_FILE_SIZE.
  split_and!.
  - now apply finalize_step_final.
  - apply finalize_step_tmp; congruence.
  - apply finalize_step_other; congruence.
  - apply finalize_step_other; congruence.
Qed.

Lemma fin_fs_2 (L : list byte) :
  fin_fs L 2 !! finp 0 = Some (NFile (slice L 0 MAX_FILE_SIZE)) /\
  fin_fs L 2 !! finp 1 = Some (NFile (slice L MAX_FILE_SIZE (2 * MAX_FILE_SIZE))) /\
  fin_fs L 2 !! tmpp 0 = None /\
  fin_fs L 2 !! tmpp 1 = None.
Proof.
  pose proof (queue_not_final 0). pose proof (queue_not_tmp 0).
  pose proof (queue_not_final 1). pose proof (queue_not_tmp 1).
  pose proof (tmp_final_distinct type dumpDir timestamp baseCounter dumpDir_nul_free timestamp_short 0 0).
  pose proof (tmp_final_distinct type dumpDir timestamp baseCounter dumpDir_nul_free timestamp_short 0 1).
  pose proof (tmp_final_distinct type dumpDir timestamp baseCounter dumpDir_nul_free timestamp_short 1 0).
  pose proof (tmp_final_distinct type dumpDir timestamp baseCounter dumpDir_nul_free timestamp_short 1 1).
  pose proof (final_path_0_1 type dumpDir timestamp baseCounter dumpDir_nul_free timestamp_short).
  pose proof (tmp_path_0_1 type dumpDir timestamp baseCounter dumpDir_nul_free timestamp_short).
  destruct (fin_fs_1 L) as (Hf0 & Ht0 & _ & _).
  rewrite finalized_fs_succ. change (Z.of_nat 1) with 1.
  change (1 * MAX_FILE_SIZE) with MAX_FILE_SIZE.
  change ((1 + 1) * MAX_FILE_SIZE) with (2 * MAX_FILE_SIZE).
  split_and!.
  - rewrite finalize_step_other by congruence. exact Hf0.
  - now apply finalize_step_final.
  - rewrite finalize_step_other by congruence. exact Ht0.
  - apply finalize_step_tmp; congruence.
Qed.

(** A dumper still on its first file. *)
Lemma Written_first_file (L : list byte) d p :
  Wr L d p -> files_done (Z.of_nat (length L)) = 0 ->
  AudioDumpManager.mCompletedFiles (instance p)
    = AudioDumpManager.mCompletedFiles (instance p0) /\
  notifications (w_trace (os p)) = notifications (w_trace (os p0)) /\
  GetCurrentFileSize d = flushed (Z.of_nat (length L)) /\
  GetFileCount d = 1 /\
  w_fs (os p) !! finp 0 = w_fs (os p0) !! finp 0 /\
  w_fs (os p) !! tmpp 0 = Some (NFile (slice L 0 (flushed (Z.of_nat (length L))))).
Proof.
  intros HW Hr.
  destruct (Written_inv _ _ _ _ _ _ _ _ HW)
    as (_ & _ & _ & Hsz & _ & Hcnt & _ & _ & Hdone & Hnot & Hfs).
  rewrite Hr in *. change (Z.to_nat 0) with 0%nat in *.
  change (fin_names 0) with (@nil string) in *. simpl map in Hnot.
  rewrite app_nil_r in *.
  split; [exact Hdone|]. split; [exact Hnot|].
  split; [unfold GetCurrentFileSize; rewrite Hsz; lia|].
  split; [unfold GetFileCount; rewrite Hcnt; reflexivity|].
  split.
  - rewrite Hfs. apply lookup_insert_ne.
    apply (tmp_final_distinct type dumpDir timestamp baseCounter dumpDir_nul_free timestamp_short).
  - rewrite Hfs. change (0 * MAX_FILE_SIZE) with 0. apply lookup_insert_eq.
Qed.

(** A dumper on its second file. *)
Lemma Written_second_file (L : list byte) d p :
  Wr L d p -> files_done (Z.of_nat (length L)) = 1 ->
  AudioDumpManager.mCompletedFiles (instance p)
    = AudioDumpManager.mCompletedFiles (instance p0) ++ [fname false 0] /\
  notifications (w_trace (os p))
    = notifications (w_trace (os p0)) ++ [ready_line (fname false 0)] /\
  GetCurrentFileSize d = flushed (Z.of_nat (length L)) - MAX_FILE_SIZE /\
  GetFileCount d = 2 /\
  IsValid d = true /\
  is_open (mFile d) = true /\
  w_fs (os p) !! finp 0 = Some (NFile (slice L 0 MAX_FILE_SIZE)) /\
  w_fs (os p) !! tmpp 0 = None /\
  w_fs (os p) !! finp 1 = w_fs (os p0) !! finp 1 /\
  w_fs (os p) !! tmpp 1
    = Some (NFile (slice L MAX_FILE_SIZE (flushed (Z.of_nat (length L))))).
Proof.
  intros HW Hr.
  destruct (Written_inv _ _ _ _ _ _ _ _ HW)
    as (Hv & Ho & _ & Hsz & _ & Hcnt & _ & _ & Hdone & Hnot & Hfs).
  rewrite Hr in *. change (Z.to_nat 1) with 1%nat in *.
  rewrite fin_names_1 in *.
  destruct (fin_fs_1 L) as (Hf0 & Ht0 & Hf1 & Ht1).
  pose proof (tmp_final_distinct type dumpDir timestamp baseCounter dumpDir_nul_free timestamp_short 1 0).
  pose proof (tmp_final_distinct type dumpDir timestamp baseCounter dumpDir_nul_free timestamp_short 1 1).
  pose proof (tmp_path_0_1 type dumpDir timestamp baseCounter dumpDir_nul_free timestamp_short).
  split; [exact Hdone|]. split; [exact Hnot|].
  split; [unfold GetCurrentFileSize; rewrite Hsz; lia|].
  split; [unfold GetFileCount; rewrite Hcnt; reflexivity|].
  split; [exact Hv|]. split; [exact Ho|].
  split; [rewrite Hfs, lookup_insert_ne by congruence; exact Hf0|].
  split; [rewrite Hfs, lookup_insert_ne by congruence; exact Ht0|].
  split; [rewrite Hfs, lookup_insert_ne by congruence; exact Hf1|].
  rewrite Hfs. change (1 * MAX_FILE_SIZE) with MAX_FILE_SIZE. apply lookup_insert_eq.
Qed.

(** [ForceClose] on a dumper on its second file. *)
Lemma ForceClose_second_file (L : list byte) d p :
  Wr L d p -> files_done (Z.of_nat (length L)) = 1 ->
  exists d' p',
    ForceClose d p = (d', p') /\
    IsValid d' = false /\
    GetFileCount d' = 2 /\
    AudioDumpManager.mCompletedFiles (instance p')
      = AudioDumpManager.mCompletedFiles (instance p0) ++ [fname false 0; fname false 1] /\
    notifications (w_trace (os p'))
      = notifications (w_trace (os p0))
          ++ [ready_line (fname false 0); ready_line (fname false 1)] /\
    w_fs (os p') !! finp 0 = Some (NFile (slice L 0 MAX_FILE_SIZE)) /\
    w_fs (os p') !! finp 1 = Some (NFile (slice L MAX_FILE_SIZE (2 * MAX_FILE_SIZE))) /\
    w_fs (os p') !! tmpp 0 = None /\
    w_fs (os p') !! tmpp 1 = None.
Proof.
  intros HW Hr.
  destruct (ForceClose_Written _ _ _ _ _ L d p HW) as (buf & F & tr & Hfc & Hnot).
  { unfold files_done in Hr. destruct (Z.eqb_spec (Z.of_nat (length L)) 0); [discriminate|lia]. }
  rewrite Hr in Hnot. change (S (Z.to_nat 1)) with 2%nat in Hnot.
  rewrite fin_names_2 in Hnot.
  eexists _, _. split; [exact Hfc|].
  unfold process_closed, dumper_closed. rewrite Hr. change (S (Z.to_nat 1)) with 2%nat.
  rewrite fin_names_2. simpl instance. simpl os. simpl w_fs.
  destruct (fin_fs_2 L) as (H0 & H1 & H2 & H3).
  split; [reflexivity|]. split; [reflexivity|]. split; [reflexivity|].
  split; [exact Hnot|].
  split; [exact H0|]. split; [exact H1|]. split; [exact H2|exact H3].
Qed.

End TwoFiles.

(** C2. A dumper that is written [MAX_FILE_SIZE + 1] bytes, in one call or in
    many, none failing, and is then closed with [ForceClose], finalizes
    exactly two files: the manager records two names and two notifications
    are logged, for the files of index 0 and of index 1; the first holds
    [MAX_FILE_SIZE] bytes, the second one byte, and one after the other
    they are the bytes written, in order; no temporary file is left. *)
Theorem rotation_two_files (type : AudioStreamType) (dumpDir timestamp : string)
    (baseCounter : Z) (p0 : process) (datas : list (list byte)) :
  fault_free (w_faults (os p0)) = true ->
  nul_free dumpDir ->
  (String.length (c_str timestamp) <= 200)%nat ->
  AudioDumpManager.mQueueFilePath (instance p0)
    = AudioDumpManager.mQueueFilePath AudioDumpManager.ctor ->
  Forall sendable datas ->
  total_size datas = MAX_FILE_SIZE + 1 ->
  two_files_finalized type dumpDir timestamp baseCounter p0 datas.
Proof.
  intros HF Hdir Hts Hq Hall Htotal.
  destruct (ctor_Written type dumpDir timestamp baseCounter p0 HF) as (d0 & w0 & Hctor & HW0).
  destruct (WriteAll_Written type dumpDir timestamp baseCounter p0 datas [] d0 _ HW0 Hall)
    as (d & p & Hall' & HW).
  simpl app in HW. unfold two_files_finalized. set (L := concat datas) in *.
  assert (Hn : Z.of_nat (length L) = MAX_FILE_SIZE + 1)
    by (subst L; now rewrite <- total_size_concat).
  assert (Hr : files_done (Z.of_nat (length L)) = 1) by (rewrite Hn; reflexivity).
  destruct (ForceClose_second_file type dumpDir timestamp baseCounter p0 Hdir Hts Hq
              L d p HW Hr)
    as (d' & p' & Hfc & _ & Hcnt & Hdone & Hnot & Hf0 & Hf1 & Ht0 & Ht1).
  exists d0, w0, d, p, d', p', (slice L 0 MAX_FILE_SIZE),
    (slice L MAX_FILE_SIZE (2 * MAX_FILE_SIZE)).
  split; [exact Hctor|]. split; [exact Hall'|]. split; [exact Hfc|].
  split; [exact Hdone|]. split; [exact Hnot|]. split; [exact Hcnt|].
  split; [exact Hf0|]. split; [exact Hf1|]. split; [exact Ht0|]. split; [exact Ht1|].
  split; [exact (final_path_0_1 type dumpDir timestamp baseCounter Hdir Hts)|].
  split; [|split].
  - rewrite slice_cat by (unfold MAX_FILE_SIZE; lia).
    apply slice_all. rewrite Hn. unfold MAX_FILE_SIZE. lia.
  - rewrite slice_length, Hn by (unfold MAX_FILE_SIZE; lia). unfold MAX_FILE_SIZE. lia.
  - rewrite slice_length, Hn by (unfold MAX_FILE_SIZE; lia). unfold MAX_FILE_SIZE. lia.
Qed.

Lemma rotation_two_files_witness :
  fault_free (w_faults (os (quiet_process ∅))) = true /\
  nul_free demo_dir /\
  (String.length (c_str demo_timestamp) <= 200)%nat /\
  AudioDumpManager.mQueueFilePath (instance (quiet_process ∅))
    = AudioDumpManager.mQueueFilePath AudioDumpManager.ctor /\
  Forall sendable [repeat "000"%byte (Z.to_nat MAX_FILE_SIZE); ["001"%byte]] /\
  total_size [repeat "000"%byte (Z.to_nat MAX_FILE_SIZE); ["001"%byte]]
    = MAX_FILE_SIZE + 1 /\
  two_files_finalized STREAM_OUT demo_dir demo_timestamp 0 (quiet_process ∅)
    [repeat "000"%byte (Z.to_nat MAX_FILE_SIZE); ["001"%byte]].
Proof.
  assert (H1 : fault_free (w_faults (os (quiet_process ∅))) = true) by reflexivity.
  assert (H2 : nul_free demo_dir) by reflexivity.
  assert (H3 : (String.length (c_str demo_timestamp) <= 200)%nat)
    by (vm_compute; lia).
  assert (H4 : AudioDumpManager.mQueueFilePath (instance (quiet_process ∅))
               = AudioDumpManager.mQueueFilePath AudioDumpManager.ctor) by reflexivity.
  assert (H5 : Forall sendable [repeat "000"%byte (Z.to_nat MAX_FILE_SIZE); ["001"%byte]]).
  { constructor; [split|constructor; [split; [discriminate|reflexivity]|constructor]].
    - intros H. apply (f_equal (@length byte)) in H. rewrite repeat_length in H.
      unfold MAX_FILE_SIZE in H. change (length (@nil byte)) with 0%nat in H. lia.
    - rewrite repeat_length. unfold MAX_FILE_SIZE, SSIZE_LIMIT. lia. }
  assert (H6 : total_size [repeat "000"%byte (Z.to_nat MAX_FILE_SIZE); ["001"%byte]]
               = MAX_FILE_SIZE + 1).
  { unfold total_size. cbn [fold_right]. rewrite repeat_length.
    change (Z.of_nat (length ["001"%byte])) with 1. unfold MAX_FILE_SIZE. lia. }
  split; [exact H1|]. split; [exact H2|]. split; [exact H3|]. split; [exact H4|].
  split; [exact H5|]. split; [exact H6|].
  exact (rotation_two_files STREAM_OUT demo_dir demo_timestamp 0 (quiet_process ∅)
           _ H1 H2 H3 H4 H5 H6).
Defined.

(** ** Creation through the manager *)

Lemma Initialize_inv m w :
  let r := AudioDumpManager.Initialize m w in
  AudioDumpManager.mDumpDirectory r.1.2 = AudioDumpManager.mDumpDirectory m /\
  AudioDumpManager.mQueueFilePath r.1.2 = AudioDumpManager.mQueueFilePath m /\
  AudioDumpManager.mCompletedFiles r.1.2 = AudioDumpManager.mCompletedFiles m /\
  AudioDumpManager.mFileCounter r.1.2 = AudioDumpManager.mFileCounter m /\
  notifications (w_trace r.2) = notifications (w_trace w) /\
  (fault_free (w_faults w) = true -> fault_free (w_faults r.2) = true).
Proof.
  unfold AudioDumpManager.Initialize, AudioDumpManager.EnsureDumpDirectory, sys_mkdir,
    sys_stat, outcome.
  destruct (AudioDumpManager.mInitialized m); simpl; [tauto|].
  destruct (w_fs w !! c_str (AudioDumpManager.mDumpDirectory m)) as [[|]|] eqn:E;
    simpl; try tauto.
  destruct (hd true _); simpl; repeat split; auto using fault_free_next.
  rewrite notifications_app. simpl. now rewrite app_nil_r.
Qed.

Lemma CreateStreamDumper_enabled type timestamp p0 :
  dump_enabled type (os p0) = true ->
  (AudioDumpManager.Initialize (instance p0) (os p0)).1.1 = true ->
  CreateStreamDumper type timestamp p0 =
  (let '(d0, w0) :=
     ctor type (AudioDumpManager.mDumpDirectory (instance p0)) timestamp
       (AudioDumpManager.mFileCounter (instance p0)) (os (bootstrapped p0)) in
   (Some d0, with_os w0 (bootstrapped p0))).
Proof.
  intros Hen Hinit. unfold CreateStreamDumper, bootstrapped.
  replace (match type with
           | STREAM_OUT => AudioDumpManager.IsStreamOutDumpEnabled (os p0)
           | STREAM_IN => AudioDumpManager.IsStreamInDumpEnabled (os p0)
           end) with true by (symmetry; exact Hen).
  simpl negb. cbv iota.
  assert (Hsame :
    (if negb (AudioDumpManager.mInitialized (instance p0))
     then AudioDumpManager.Initialize (instance p0) (os p0)
     else (true, instance p0, os p0))
    = AudioDumpManager.Initialize (instance p0) (os p0)).
  { unfold AudioDumpManager.Initialize.
    destruct (AudioDumpManager.mInitialized (instance p0)); reflexivity. }
  rewrite Hsame. clear Hsame.
  destruct (Initialize_inv (instance p0) (os p0)) as (Hd & _ & _ & Hc & _).
  destruct (AudioDumpManager.Initialize (instance p0) (os p0)) as [[ok m] w].
  simpl in Hinit, Hd, Hc. subst ok. simpl negb. cbv iota.
  unfold AudioDumpManager.GetNextCounter. simpl. rewrite Hd, Hc.
  destruct (ctor _ _ _ _ _) as [d0 w0]. reflexivity.
Qed.

Lemma bootstrapped_inv p0 :
  AudioDumpManager.mCompletedFiles (instance (bootstrapped p0))
    = AudioDumpManager.mCompletedFiles (instance p0) /\
  AudioDumpManager.mQueueFilePath (instance (bootstrapped p0))
    = AudioDumpManager.mQueueFilePath (instance p0) /\
  notifications (w_trace (os (bootstrapped p0))) = notifications (w_trace (os p0)) /\
  (fault_free (w_faults (os p0)) = true ->
   fault_free (w_faults (os (bootstrapped p0))) = true).
Proof.
  unfold bootstrapped.
  destruct (Initialize_inv (instance p0) (os p0)) as (_ & Hq & Hc & _ & Hn & HF).
  destruct (AudioDumpManager.Initialize (instance p0) (os p0)) as [[ok m] w].
  simpl in *. auto.
Qed.

Lemma slice_from_start (L : list byte) b : slice L 0 b = take (Z.to_nat b) L.
Proof. unfold slice. change (Z.to_nat 0) with 0%nat. now rewrite drop_0, Z.sub_0_r. Qed.

Lemma slice_to_end (L : list byte) a b :
  0 <= a -> Z.of_nat (length L) <= b -> slice L a b = drop (Z.to_nat a) L.
Proof. intros Ha Hb. unfold slice. apply take_ge. rewrite length_drop. lia. Qed.

(** ** Three chunks of 40 MiB *)

Lemma chunks_run (type : AudioStreamType) (timestamp : string) (p0 : process)
    (c1 c2 c3 : list byte) :
  dump_enabled type (os p0) = true ->
  (AudioDumpManager.Initialize (instance p0) (os p0)).1.1 = true ->
  fault_free (w_faults (os p0)) = true ->
  nul_free (AudioDumpManager.mDumpDirectory (instance p0)) ->
  (String.length (c_str timestamp) <= 200)%nat ->
  AudioDumpManager.mQueueFilePath (instance p0)
    = AudioDumpManager.mQueueFilePath AudioDumpManager.ctor ->
  Z.of_nat (length c1) = 40 * MiB ->
  Z.of_nat (length c2) = 40 * MiB ->
  Z.of_nat (length c3) = 40 * MiB ->
  three_chunks_outcome type timestamp p0 c1 c2 c3.
Proof.
  intros Hen Hinit HF Hdir Hts Hq H1 H2 H3.
  unfold three_chunks_outcome.
  set (dir := AudioDumpManager.mDumpDirectory (instance p0)) in *.
  set (counter := AudioDumpManager.mFileCounter (instance p0)).
  destruct (bootstrapped_inv p0) as (Hc0 & Hq0 & Hn0 & HF0).
  rewrite <- Hq0 in Hq. rewrite <- Hc0, <- Hn0.
  set (pI := bootstrapped p0) in *.
  rewrite CreateStreamDumper_enabled by assumption. fold dir counter pI.
  destruct (ctor_Written type dir timestamp counter pI (HF0 HF)) as (d0 & w0 & Hctor & HW0).
  rewrite Hctor.
  assert (Hs : forall c : list byte,
            Z.of_nat (length c) = 40 * MiB -> c <> [] /\ Z.of_nat (length c) < SSIZE_LIMIT).
  { intros c Hc. split; [intros ->; discriminate Hc|rewrite Hc; reflexivity]. }
  destruct (WriteData_Written type dir timestamp counter pI [] c1 d0 _ HW0)
    as (d1 & p2 & Hw1 & HW1); try apply (Hs c1 H1).
  simpl app in HW1.
  destruct (WriteData_Written type dir timestamp counter pI c1 c2 d1 p2 HW1)
    as (d2 & p3 & Hw2 & HW2); try apply (Hs c2 H2).
  destruct (WriteData_Written type dir timestamp counter pI (c1 ++ c2) c3 d2 p3 HW2)
    as (d3 & p4 & Hw3 & HW3); try apply (Hs c3 H3).
  rewrite <- app_assoc in HW3.
  rewrite H1 in Hw1. rewrite H2 in Hw2. rewrite H3 in Hw3.
  assert (HL2 : Z.of_nat (length (c1 ++ c2)) = 80 * MiB)
    by (rewrite length_app; unfold MiB in *; lia).
  assert (HL3 : Z.of_nat (length (c1 ++ c2 ++ c3)) = 120 * MiB)
    by (rewrite !length_app; unfold MiB in *; lia).
  destruct (Written_first_file type dir timestamp counter pI Hdir Hts (c1 ++ c2) d2 p3 HW2)
    as (Ha1 & Ha2 & Ha3 & Ha4 & _ & Ha6); [rewrite HL2; reflexivity|].
  rewrite HL2 in Ha3, Ha6. change (flushed (80 * MiB)) with (80 * MiB) in Ha3, Ha6.
  rewrite slice_all in Ha6 by lia.
  destruct (Written_second_file type dir timestamp counter pI Hdir Hts Hq
              (c1 ++ c2 ++ c3) d3 p4 HW3)
    as (Hb1 & Hb2 & Hb3 & Hb4 & Hb5 & Hb6 & Hb7 & Hb8 & _ & Hb10);
    [rewrite HL3; reflexivity|].
  rewrite HL3 in Hb3, Hb10.
  change (flushed (120 * MiB) - MAX_FILE_SIZE) with (20 * MiB) in Hb3.
  change (flushed (120 * MiB)) with (120 * MiB) in Hb10.
  rewrite slice_from_start in Hb7. change MAX_FILE_SIZE with (100 * MiB) in Hb7.
  rewrite slice_to_end in Hb10 by (unfold MAX_FILE_SIZE, MiB in *; lia).
  change MAX_FILE_SIZE with (100 * MiB) in Hb10.
  destruct (ForceClose_second_file type dir timestamp counter pI Hdir Hts Hq
              (c1 ++ c2 ++ c3) d3 p4 HW3)
    as (d4 & p5 & Hfc & Hc1 & _ & Hc3 & Hc4 & Hc5 & Hc6 & Hc7 & Hc8);
    [rewrite HL3; reflexivity|].
  rewrite slice_from_start in Hc5. change MAX_FILE_SIZE with (100 * MiB) in Hc5.
  rewrite slice_to_end in Hc6 by (unfold MAX_FILE_SIZE, MiB in *; lia).
  change MAX_FILE_SIZE with (100 * MiB) in Hc6.
  exists d0, (with_os w0 pI), d1, p2, d2, p3, d3, p4, d4, p5.
  split; [reflexivity|]. split; [exact Hw1|]. split; [exact Hw2|].
  split; [exact Ha1|]. split; [exact Ha2|]. split; [exact Ha4|]. split; [exact Ha3|].
  split; [exact Ha6|]. split; [exact Hw3|].
  split; [exact Hb1|]. split; [exact Hb2|]. split; [exact Hb7|]. split; [exact Hb8|].
  split; [rewrite length_take; unfold MiB in *; lia|].
  split; [exact Hb5|]. split; [exact Hb6|]. split; [exact Hb4|]. split; [exact Hb3|].
  split; [exact Hb10|].
  split; [rewrite length_drop; unfold MiB in *; lia|].
  split; [exact Hfc|]. split; [exact Hc1|]. split; [exact Hc3|]. split; [exact Hc4|].
  split; [exact Hc5|]. split; [exact Hc6|]. split; [exact Hc7|exact Hc8].
Qed.

Lemma chunk_40MiB_length : Z.of_nat (length chunk_40MiB) = 40 * MiB.
Proof. unfold chunk_40MiB. rewrite repeat_length. unfold MiB. lia. Qed.

(** C4, as the code has it. With the switch on and no call failing, of
    three chunks of 40 MiB the first two finalize nothing: file 0 holds
    80 MiB and stays open. The third [WriteData] call finalizes file 0 with
    exactly the first 100 MiB and leaves file 1 open with the remaining
    20 MiB; [ForceClose] then finalizes file 1 with these 20 MiB. *)
Theorem three_chunks_rotate_in_third (type : AudioStreamType) (timestamp : string)
    (p0 : process) (c1 c2 c3 : list byte) :
  dump_enabled type (os p0) = true ->
  (AudioDumpManager.Initialize (instance p0) (os p0)).1.1 = true ->
  fault_free (w_faults (os p0)) = true ->
  nul_free (AudioDumpManager.mDumpDirectory (instance p0)) ->
  (String.length (c_str timestamp) <= 200)%nat ->
  AudioDumpManager.mQueueFilePath (instance p0)
    = AudioDumpManager.mQueueFilePath AudioDumpManager.ctor ->
  Z.of_nat (length c1) = 40 * MiB ->
  Z.of_nat (length c2) = 40 * MiB ->
  Z.of_nat (length c3) = 40 * MiB ->
  three_chunks_outcome type timestamp p0 c1 c2 c3.
Proof. apply chunks_run. Qed.

Lemma three_chunks_rotate_in_third_witness :
  dump_enabled STREAM_OUT (os (quiet_process streamout_on)) = true /\
  (AudioDumpManager.Initialize (instance (quiet_process streamout_on))
     (os (quiet_process streamout_on))).1.1 = true /\
  fault_free (w_faults (os (quiet_process streamout_on))) = true /\
  nul_free (AudioDumpManager.mDumpDirectory (instance (quiet_process streamout_on))) /\
  (String.length (c_str demo_timestamp) <= 200)%nat /\
  AudioDumpManager.mQueueFilePath (instance (quiet_process streamout_on))
    = AudioDumpManager.mQueueFilePath AudioDumpManager.ctor /\
  Z.of_nat (length chunk_40MiB) = 40 * MiB /\
  three_chunks_outcome STREAM_OUT demo_timestamp (quiet_process streamout_on)
    chunk_40MiB chunk_40MiB chunk_40MiB.
Proof.
  assert (H1 : dump_enabled STREAM_OUT (os (quiet_process streamout_on)) = true)
    by (vm_compute; reflexivity).
  assert (H2 : (AudioDumpManager.Initialize (instance (quiet_process streamout_on))
                  (os (quiet_process streamout_on))).1.1 = true)
    by (vm_compute; reflexivity).
  assert (H3 : fault_free (w_faults (os (quiet_process streamout_on))) = true)
    by reflexivity.
  assert (H4 : nul_free (AudioDumpManager.mDumpDirectory
                           (instance (quiet_process streamout_on))))
    by reflexivity.
  assert (H5 : (String.length (c_str demo_timestamp) <= 200)%nat) by (vm_compute; lia).
  assert (H6 : AudioDumpManager.mQueueFilePath (instance (quiet_process streamout_on))
               = AudioDumpManager.mQueueFilePath AudioDumpManager.ctor) by reflexivity.
  pose proof chunk_40MiB_length as H7.
  split; [exact H1|]. split; [exact H2|]. split; [exact H3|]. split; [exact H4|].
  split; [exact H5|]. split; [exact H6|]. split; [exact H7|].
  exact (three_chunks_rotate_in_third STREAM_OUT demo_timestamp
           (quiet_process streamout_on) chunk_40MiB chunk_40MiB chunk_40MiB
           H1 H2 H3 H4 H5 H6 H7 H7 H7).
Defined.

(** C4, as stated, fails: once the second chunk of 40 MiB is written, no
    file has been finalized; file 0 is still the open file, with 80 MiB,
    below the threshold. *)
Lemma second_chunk_finalizes_nothing :
  exists d0 p1 d1 p2 d2 p3,
    CreateStreamDumper STREAM_OUT demo_timestamp (quiet_process streamout_on)
      = (Some d0, p1) /\
    WriteData (Some chunk_40MiB) d0 p1 = Some (40 * MiB, d1, p2) /\
    WriteData (Some chunk_40MiB) d1 p2 = Some (40 * MiB, d2, p3) /\
    AudioDumpManager.mCompletedFiles (instance p3) = [] /\
    notifications (w_trace (os p3)) = [] /\
    GetFileCount d2 = 1 /\
    GetCurrentFileSize d2 = 80 * MiB /\
    GetCurrentFileSize d2 < MAX_FILE_SIZE.
Proof.
  destruct (chunks_run STREAM_OUT demo_timestamp (quiet_process streamout_on)
              chunk_40MiB chunk_40MiB chunk_40MiB)
    as (d0 & p1 & d1 & p2 & d2 & p3 & _ & _ & _ & _ & Hc & Hw1 & Hw2 & Hd & Hn & Hk & Hs & _);
    try apply chunk_40MiB_length; try reflexivity.
  - vm_compute. lia.
  - exists d0, p1, d1, p2, d2, p3.
    split; [exact Hc|]. split; [exact Hw1|]. split; [exact Hw2|].
    split; [exact Hd|]. split; [exact Hn|]. split; [exact Hk|]. split; [exact Hs|].
    rewrite Hs. reflexivity.
Qed.

(** ** The commit protocol *)

Lemma has_suffix_app suffix a : has_suffix suffix (a +:+ suffix) = true.
Proof.
  induction a as [|c a IH].
  - change ("" +:+ suffix) with suffix.
    destruct suffix; cbn [has_suffix]; now rewrite String.eqb_refl.
  - unfold String.append; fold String.append. cbn [has_suffix]. rewrite IH.
    apply orb_true_r.
Qed.

Lemma has_suffix_inv suffix s : has_suffix suffix s = true -> exists a, s = a +:+ suffix.
Proof.
  induction s as [|c s IH]; cbn [has_suffix]; intros H.
  - rewrite orb_false_r in H. apply String.eqb_eq in H. exists "". now rewrite <- H.
  - apply orb_true_iff in H. destruct H as [H|H].
    + apply String.eqb_eq in H. exists "". now rewrite H.
    + destruct (IH H) as [a ->]. exists (String c a). reflexivity.
Qed.

Lemma temp_named_last q : temp_named q = true -> last_char q = Some "p"%char.
Proof.
  intros H. destruct (has_suffix_inv _ _ H) as [a ->].
  rewrite last_char_app by discriminate. reflexivity.
Qed.

Lemma final_named_last q : final_named q = true -> last_char q = Some "m"%char.
Proof.
  intros H. destruct (has_suffix_inv _ _ H) as [a ->].
  rewrite last_char_app by discriminate. reflexivity.
Qed.

Lemma temp_not_final q : temp_named q = true -> final_named q = true -> False.
Proof.
  intros Ht Hf. apply temp_named_last in Ht. apply final_named_last in Hf. congruence.
Qed.

Lemma tmp_suffix_not_final q : final_named (q +:+ ".tmp") = true -> False.
Proof.
  intros Hf. apply final_named_last in Hf.
  rewrite last_char_app in Hf by discriminate. discriminate.
Qed.

Lemma strip_prefix_app prefix s : strip_prefix prefix (prefix +:+ s) = Some s.
Proof.
  induction prefix as [|c prefix IH]; [now destruct s|].
  unfold String.append; fold String.append. simpl. now rewrite Ascii.eqb_refl.
Qed.

Lemma commit_run_app dir tr1 : forall ph tr2,
  commit_run dir ph (tr1 ++ tr2)
  = match commit_run dir ph tr1 with
    | Some ph' => commit_run dir ph' tr2
    | None => None
    end.
Proof.
  induction tr1 as [|e tr1 IH]; intros ph tr2; simpl; [reflexivity|].
  destruct (commit_step dir ph e); [apply IH|reflexivity].
Qed.

Lemma commit_step_inv dir ph e ph' :
  commit_step dir ph e = Some ph' ->
  match e with
  | EvOpen q => temp_named q = true /\ ph' = Opened q /\ settled ph = true
  | EvWrite q _ => ph = Opened q /\ ph' = ph
  | EvClose q => ph = Opened q /\ ph' = Closed q
  | EvRename src dst =>
      ph = Closed src /\ src = dst +:+ ".tmp" /\ final_named dst = true /\ ph' = Renamed dst
  | EvUnlink q => ph = Closed q /\ ph' = Idle
  | EvAppend q _ =>
      temp_named q = false /\ final_named q = false /\ ph' = ph /\ exists dst, ph = Renamed dst
  | EvLog line =>
      exists name, strip_prefix AudioDumpManager.READY_TAG line = Some name /\
                   ph = Renamed (dir +:+ name) /\ ph' = Idle
  | EvMkdir _ => False
  end.
Proof.
  destruct e, ph; cbn [commit_step]; try discriminate.
  - destruct (temp_named path); [|discriminate]. intros [= <-]. auto.
  - destruct (temp_named path); [|discriminate]. intros [= <-]. auto.
  - destruct (String.eqb_spec path path0); [|discriminate]. intros [= <-]. subst. auto.
  - destruct (String.eqb_spec path path0); [|discriminate]. intros [= <-]. subst. auto.
  - destruct (String.eqb_spec src path); [|discriminate].
    destruct (String.eqb_spec src (dst +:+ ".tmp")); [|discriminate].
    destruct (final_named dst) eqn:E; [|discriminate]. simpl. intros [= <-]. subst. auto.
  - destruct (String.eqb_spec path path0); [|discriminate]. intros [= <-]. subst. auto.
  - destruct (temp_named path), (final_named path); try discriminate.
    simpl. intros [= <-]. eauto.
  - destruct (strip_prefix AudioDumpManager.READY_TAG line) as [name|]; [|discriminate].
    destruct (String.eqb_spec dst (dir +:+ name)); [|discriminate].
    intros [= <-]. subst. eauto.
Qed.

Lemma commit_step_phase_ok dir ph e ph' :
  phase_ok ph -> commit_step dir ph e = Some ph' -> phase_ok ph'.
Proof.
  intros Hok H. apply commit_step_inv in H. destruct e.
  - destruct H as (Ht & -> & _). exact Ht.
  - destruct H as (-> & ->). exact Hok.
  - destruct H as (-> & ->). exact Hok.
  - destruct H as (_ & _ & _ & ->). exact I.
  - destruct H as (_ & ->). exact I.
  - destruct H.
  - destruct H as (_ & _ & -> & _). exact Hok.
  - destruct H as (? & _ & _ & ->). exact I.
Qed.

Lemma commit_run_phase_ok dir tr : forall ph ph',
  phase_ok ph -> commit_run dir ph tr = Some ph' -> phase_ok ph'.
Proof.
  induction tr as [|e tr IH]; intros ph ph' Hok H; simpl in H.
  - now inversion H; subst.
  - destruct (commit_step dir ph e) as [ph1|] eqn:E; [|discriminate].
    eapply IH; [|exact H]. eapply commit_step_phase_ok; eauto.
Qed.

Lemma commit_step_atomic dir ph e ph' fs :
  phase_ok ph -> commit_step dir ph e = Some ph' ->
  (forall q data, e = EvWrite q data -> temp_named q = true) /\
  (forall q, e = EvOpen q -> temp_named q = true) /\
  (forall q, final_named q = true ->
     apply_event e fs !! q <> fs !! q -> e = EvRename (q +:+ ".tmp") q).
Proof.
  intros Hok H. apply commit_step_inv in H.
  split; [|split].
  - intros q data ->. destruct H as (-> & _). exact Hok.
  - intros q ->. now destruct H.
  - intros q Hq Hne. destruct e; unfold apply_event in Hne.
    + destruct H as (Ht & _). exfalso.
      destruct (decide (path = q)) as [->|Hp]; [exact (temp_not_final _ Ht Hq)|].
      now rewrite lookup_insert_ne in Hne.
    + destruct H as (-> & _). simpl in Hok. exfalso.
      destruct (decide (path = q)) as [->|Hp]; [exact (temp_not_final _ Hok Hq)|].
      destruct (fs !! path) as [[c|]|]; try congruence.
      now rewrite lookup_insert_ne in Hne.
    + congruence.
    + destruct H as (_ & -> & Hf & _).
      destruct (decide (dst = q)) as [->|Hd]; [reflexivity|]. exfalso.
      destruct (fs !! (dst +:+ ".tmp")) as [nd|] eqn:E; [|congruence].
      rewrite lookup_insert_ne in Hne by exact Hd.
      destruct (decide (dst +:+ ".tmp" = q)) as [<-|Hs];
        [exact (tmp_suffix_not_final _ Hq)|].
      now rewrite lookup_delete_ne in Hne.
    + destruct H as (-> & _). simpl in Hok. exfalso.
      destruct (decide (path = q)) as [->|Hp]; [exact (temp_not_final _ Hok Hq)|].
      now rewrite lookup_delete_ne in Hne.
    + destruct H.
    + destruct H as (_ & Hf & _). exfalso.
      destruct (decide (path = q)) as [->|Hp]; [congruence|].
      now rewrite lookup_insert_ne in Hne.
    + congruence.
Qed.

Lemma commit_run_atomic dir tr ph ph' fs0 :
  phase_ok ph -> commit_run dir ph tr = Some ph' -> atomic_commit tr fs0.
Proof.
  intros Hok Hrun pre e post ->.
  rewrite commit_run_app in Hrun.
  destruct (commit_run dir ph pre) as [ph1|] eqn:E1; [|discriminate].
  simpl in Hrun.
  destruct (commit_step dir ph1 e) as [ph2|] eqn:E2; [|discriminate].
  eapply commit_step_atomic; [|exact E2].
  eapply commit_run_phase_ok; eauto.
Qed.

Lemma renamed_app tr1 tr2 : renamed (tr1 ++ tr2) = renamed tr1 ++ renamed tr2.
Proof.
  induction tr1 as [|e tr1 IH]; simpl; [reflexivity|].
  destruct e; simpl; congruence.
Qed.

(** Renames and notifications pair up, in order. *)
Lemma commit_run_notified dir tr : forall ph ph',
  commit_run dir ph tr = Some ph' ->
  (match ph with Renamed dst => [dst] | _ => [] end) ++ renamed tr
  = map (notified_path dir) (notifications tr)
      ++ (match ph' with Renamed dst => [dst] | _ => [] end).
Proof.
  induction tr as [|e tr IH]; intros ph ph' H; simpl in H.
  - inversion H; subst. simpl. now rewrite app_nil_r.
  - destruct (commit_step dir ph e) as [ph1|] eqn:E; [|discriminate].
    specialize (IH _ _ H). apply commit_step_inv in E.
    destruct e; simpl.
    + destruct E as (_ & -> & Hs). destruct ph; try discriminate; exact IH.
    + destruct E as (-> & ->). exact IH.
    + destruct E as (-> & ->). exact IH.
    + destruct E as (-> & _ & _ & ->). exact IH.
    + destruct E as (-> & ->). exact IH.
    + destruct E.
    + destruct E as (_ & _ & -> & _). exact IH.
    + destruct E as (name & Hn & -> & ->). simpl in IH. rewrite <- IH.
      unfold notified_path. now rewrite Hn.
Qed.

Lemma strip_prefix_inv prefix : forall s name,
  strip_prefix prefix s = Some name -> s = prefix +:+ name.
Proof.
  induction prefix as [|a prefix IH]; intros s name; cbn [strip_prefix].
  - now intros [= ->].
  - destruct s as [|b s]; [discriminate|].
    destruct (Ascii.eqb_spec a b) as [->|]; [|discriminate].
    intros H. apply IH in H. now rewrite H.
Qed.

(** A run that ends renamed went through the rename, and only appends
    came after it. *)
Lemma commit_run_to_renamed dir tr : forall ph dst,
  commit_run dir ph tr = Some (Renamed dst) ->
  (ph = Renamed dst /\ forallb is_append tr = true) \/
  (exists pre queue,
     tr = pre ++ EvRename (dst +:+ ".tmp") dst :: queue /\
     forallb is_append queue = true).
Proof.
  induction tr as [|e tr IH]; intros ph dst H; cbn [commit_run] in H.
  - left. now inversion H.
  - destruct (commit_step dir ph e) as [ph1|] eqn:E; [|discriminate].
    destruct (IH _ _ H) as [[-> Hq]|(pre & queue & -> & Hq)].
    + apply commit_step_inv in E. destruct e.
      * now destruct E as (_ & [=] & _).
      * destruct E as (-> & [=]).
      * now destruct E as (_ & [=]).
      * destruct E as (_ & -> & _ & [= <-]). right. exists [], tr. auto.
      * now destruct E as (_ & [=]).
      * destruct E.
      * destruct E as (_ & _ & <- & _). left. auto.
      * now destruct E as (? & _ & _ & [=]).
    + right. exists (e :: pre), queue. auto.
Qed.

Lemma commit_run_notified_after dir tr ph0 ph :
  (forall dst, ph0 <> Renamed dst) ->
  commit_run dir ph0 tr = Some ph -> notified_after_rename dir tr.
Proof.
  intros Hph Hrun pre line post ->. rewrite commit_run_app in Hrun.
  destruct (commit_run dir ph0 pre) as [ph1|] eqn:E1; [|discriminate].
  cbn [commit_run] in Hrun.
  destruct (commit_step dir ph1 (EvLog line)) as [ph2|] eqn:E2; [|discriminate].
  apply commit_step_inv in E2. destruct E2 as (name & Hs & -> & ->).
  apply commit_run_to_renamed in E1.
  destruct E1 as [[E1 _]|(pre' & queue & -> & Hq)]; [now destruct (Hph _ E1)|].
  exists pre', name, queue. split_and!; auto. now apply strip_prefix_inv.
Qed.

(** ** Every run follows the commit protocol *)

Lemma replay_app tr1 tr2 fs : replay (tr1 ++ tr2) fs = replay tr2 (replay tr1 fs).
Proof. unfold replay. apply fold_left_app. Qed.

Lemma replay_snoc tr e fs : replay (tr ++ [e]) fs = apply_event e (replay tr fs).
Proof. now rewrite replay_app. Qed.

Lemma node_lookup_dec (a b : option node) : {a = b} + {a <> b}.
Proof.
  decide equality. decide equality. apply (List.list_eq_dec Byte.byte_eq_dec).
Qed.

Lemma atomic_commit_stable tr fs0 :
  atomic_commit tr fs0 -> stable_between_renames tr fs0.
Proof.
  intros Hat pre mid.
  induction mid as [|e mid IH] using rev_ind; intros post q Heq Hq Hno.
  - now rewrite app_nil_r.
  - rewrite app_assoc, replay_snoc.
    rewrite <- app_assoc in Heq. cbn [app] in Heq.
    rewrite <- (IH (e :: post) q Heq Hq)
      by (intros src Hin; apply (Hno src), in_or_app; now left).
    destruct (node_lookup_dec (apply_event e (replay (pre ++ mid) fs0) !! q)
                              (replay (pre ++ mid) fs0 !! q)) as [E|E]; [exact E|].
    rewrite app_assoc in Heq.
    destruct (Hat _ _ _ Heq) as (_ & _ & Hren).
    specialize (Hren q Hq E). subst e. exfalso.
    apply (Hno (q +:+ ".tmp")), in_or_app. right. now left.
Qed.

Lemma WSteps_refl dir ph w : WSteps dir ph w ph w.
Proof. exists []. now rewrite app_nil_r. Qed.

Lemma WSteps_trans dir ph1 w1 ph2 w2 ph3 w3 :
  WSteps dir ph1 w1 ph2 w2 -> WSteps dir ph2 w2 ph3 w3 -> WSteps dir ph1 w1 ph3 w3.
Proof.
  intros (tr1 & Ht1 & Hf1 & Hr1 & Hn1) (tr2 & Ht2 & Hf2 & Hr2 & Hn2).
  exists (tr1 ++ tr2). split_and!.
  - now rewrite Ht2, Ht1, app_assoc.
  - now rewrite Hf2, Hf1, replay_app.
  - now rewrite commit_run_app, Hr1.
  - now rewrite notifications_app, Hn1, Hn2.
Qed.

Lemma WSteps_faults dir ph w F : WSteps dir ph w ph (with_faults F w).
Proof. exists []. simpl. now rewrite app_nil_r. Qed.

Lemma WSteps_outcome dir ph k w : WSteps dir ph w ph (outcome k w).2.
Proof. apply WSteps_faults. Qed.

Lemma WSteps_emit dir ph e ph' w :
  commit_step dir ph e = Some ph' -> notifications [e] = [] ->
  WSteps dir ph w ph' (emit e w).
Proof.
  intros Hs Hn. exists [e]. simpl. split_and!; auto.
  cbn [commit_run]. now rewrite Hs.
Qed.

Lemma PSteps_refl dir ph p : PSteps dir ph p ph p [] [].
Proof. unfold PSteps. now rewrite !app_nil_r. Qed.

Lemma PSteps_trans dir ph1 p1 ph2 p2 ph3 p3 tr1 tr2 names1 names2 :
  PSteps dir ph1 p1 ph2 p2 tr1 names1 -> PSteps dir ph2 p2 ph3 p3 tr2 names2 ->
  PSteps dir ph1 p1 ph3 p3 (tr1 ++ tr2) (names1 ++ names2).
Proof.
  intros (Ht1 & Hf1 & Hr1 & Hc1 & Hn1 & Hq1) (Ht2 & Hf2 & Hr2 & Hc2 & Hn2 & Hq2).
  unfold PSteps. split_and!.
  - now rewrite Ht2, Ht1, app_assoc.
  - now rewrite Hf2, Hf1, replay_app.
  - now rewrite commit_run_app, Hr1.
  - now rewrite Hc2, Hc1, app_assoc.
  - now rewrite notifications_app, Hn1, Hn2, map_app.
  - now rewrite Hq2, Hq1.
Qed.

Lemma PSteps_world dir ph p ph' w' :
  WSteps dir ph (os p) ph' w' ->
  exists tr, PSteps dir ph p ph' (with_os w' p) tr [].
Proof.
  intros (tr & Ht & Hf & Hr & Hn). exists tr. unfold PSteps. simpl.
  rewrite app_nil_r. split_and!; auto.
Qed.

Lemma ofs_write_steps dir ph data f w f' w' :
  (is_open f = true -> ph = Opened (of_path f)) ->
  ofs_write data f w = (f', w') ->
  WSteps dir ph w ph w' /\ is_open f' = is_open f /\ of_path f' = of_path f.
Proof.
  intros Hph. unfold ofs_write, outcome.
  destruct (is_open f) eqn:Ho; simpl.
  - destruct (good f); simpl.
    + destruct (hd true _); intros [= <- <-]; (split; [|now rewrite ?Ho]).
      * exists [EvWrite (of_path f) data]. split_and!; try reflexivity.
        rewrite (Hph eq_refl). cbn [commit_run commit_step].
        now rewrite String.eqb_refl.
      * apply WSteps_faults.
    + intros [= <- <-]. split; [apply WSteps_refl|auto].
  - intros [= <- <-]. split; [apply WSteps_refl|auto].
Qed.

Lemma ofs_flush_steps dir ph f w f' w' :
  ofs_flush f w = (f', w') ->
  WSteps dir ph w ph w' /\ is_open f' = is_open f /\ of_path f' = of_path f.
Proof.
  unfold ofs_flush, outcome.
  destruct (is_open f) eqn:Ho; simpl.
  - destruct (good f); simpl.
    + destruct (hd true _); intros [= <- <-]; (split; [apply WSteps_faults|now rewrite ?Ho]).
    + intros [= <- <-]. split; [apply WSteps_refl|auto].
  - intros [= <- <-]. split; [apply WSteps_refl|auto].
Qed.

Section CommitProofs.

Variables (type : AudioStreamType) (dumpDir timestamp : string) (baseCounter : Z).

Hypothesis dumpDir_nul_free : nul_free dumpDir.
Hypothesis timestamp_short : (String.length (c_str timestamp) <= 200)%nat.

#[local] Abbreviation Trk := (Tracked type dumpDir timestamp baseCounter).
#[local] Abbreviation fname := (file_name type dumpDir timestamp baseCounter).
#[local] Abbreviation tmpp := (tmp_path type dumpDir timestamp baseCounter).
#[local] Abbreviation finp := (final_path type dumpDir timestamp baseCounter).

Lemma tmp_path_temp_named i : temp_named (tmpp i) = true.
Proof.
  rewrite (tmp_path_eq type dumpDir timestamp baseCounter dumpDir_nul_free timestamp_short).
  unfold temp_named. rewrite <- str_app_assoc. apply has_suffix_app.
Qed.

Lemma final_path_final_named i : final_named (finp i) = true.
Proof.
  rewrite (final_path_eq type dumpDir timestamp baseCounter dumpDir_nul_free timestamp_short).
  unfold final_named. rewrite <- str_app_assoc. apply has_suffix_app.
Qed.

Lemma final_path_plain i : finp i = dumpDir +:+ fname false i.
Proof.
  unfold final_path. apply nul_free_app; [exact dumpDir_nul_free|].
  apply (file_name_nul_free type dumpDir timestamp baseCounter timestamp_short).
Qed.

Lemma Tracked_names d ph withTmp :
  Trk d ph ->
  exists i, mFileIndex d = wrap_u32 i /\ GenerateFilename withTmp d = fname withTmp i.
Proof.
  intros (Hty & Hdir & Hts & Hbc & (i & Hi) & _). exists i. split; [exact Hi|].
  rewrite (GenerateFilename_index withTmp d i Hi). now rewrite Hty, Hdir, Hts, Hbc.
Qed.

Lemma OpenNewFile_steps d w ph ok d' w' :
  Trk d ph -> is_open (mFile d) = false ->
  OpenNewFile d w = (ok, d', w') ->
  exists ph',
    WSteps dumpDir ph w ph' w' /\ Trk d' ph' /\
    is_open (mFile d') = ok /\
    (ok = true -> mBufferOffset d' = 0) /\
    mIsValid d' = mIsValid d.
Proof.
  intros (Hty & Hdir & Hts & Hbc & (i & Hi) & Hst) Ho. rewrite Ho in Hst.
  unfold OpenNewFile, ofs_open, outcome. simpl. rewrite Ho.
  rewrite !(GenerateFilename_index _ _ i) by exact Hi. simpl.
  rewrite Hty, Hdir, Hts, Hbc. fold (tmpp i).
  destruct (hd true _) eqn:Hout; simpl; intros [= <- <- <-].
  - exists (Opened (tmpp i)). split_and!; simpl; auto.
    + exists [EvOpen (tmpp i)]. split_and!; try reflexivity.
      cbn [commit_run commit_step]. rewrite tmp_path_temp_named.
      destruct ph; try discriminate; reflexivity.
    + unfold Tracked. simpl. split_and!; auto; [eexists; reflexivity|].
      exists i. auto.
  - exists ph. split_and!; simpl; auto; try discriminate.
    + apply WSteps_faults.
    + unfold Tracked. simpl. split_and!; auto. eexists; eassumption.
Qed.

Lemma commit_run_cons dir ph e ph' tr :
  commit_step dir ph e = Some ph' -> commit_run dir ph (e :: tr) = commit_run dir ph' tr.
Proof. intros H. cbn [commit_run]. now rewrite H. Qed.

Lemma close_step_accepted q : commit_step dumpDir (Opened q) (EvClose q) = Some (Closed q).
Proof. cbn [commit_step]. now rewrite String.eqb_refl. Qed.

Lemma unlink_step_accepted q : commit_step dumpDir (Closed q) (EvUnlink q) = Some Idle.
Proof. cbn [commit_step]. now rewrite String.eqb_refl. Qed.

Lemma rename_step_accepted i :
  commit_step dumpDir (Closed (tmpp i)) (EvRename (tmpp i) (finp i))
  = Some (Renamed (finp i)).
Proof.
  cbn [commit_step]. rewrite String.eqb_refl.
  rewrite <- (tmp_path_final type dumpDir timestamp baseCounter dumpDir_nul_free
                timestamp_short i).
  rewrite String.eqb_refl, final_path_final_named. reflexivity.
Qed.

Lemma log_step_accepted i :
  commit_step dumpDir (Renamed (finp i))
    (EvLog (AudioDumpManager.READY_TAG +:+ c_str (fname false i)))
  = Some Idle.
Proof.
  cbn [commit_step]. rewrite strip_prefix_app.
  rewrite (file_name_nul_free type dumpDir timestamp baseCounter timestamp_short false i).
  rewrite <- final_path_plain. now rewrite String.eqb_refl.
Qed.

Lemma append_step_accepted q data dst :
  temp_named q = false -> final_named q = false ->
  commit_step dumpDir (Renamed dst) (EvAppend q data) = Some (Renamed dst).
Proof. intros Ht Hf. cbn [commit_step]. now rewrite Ht, Hf. Qed.

#[local] Arguments commit_run : simpl never.
#[local] Arguments commit_step : simpl never.

Lemma CloseCurrentFile_steps complete d p ph d' p' :
  Trk d ph -> queue_apart p ->
  CloseCurrentFile complete d p = (d', p') ->
  exists ph' tr names,
    PSteps dumpDir ph p ph' p' tr names /\ Trk d' ph' /\
    is_open (mFile d') = false /\
    mIsValid d' = mIsValid d /\
    settled ph' = true.
Proof.
  intros (Hty & Hdir & Hts & Hbc & Hidx & Hst) [Hq1 Hq2].
  unfold CloseCurrentFile. destruct (is_open (mFile d)) eqn:Ho; simpl.
  2:{ intros [= <- <-]. exists ph, [], []. split; [apply PSteps_refl|].
      split; [unfold Tracked; rewrite Ho; split_and!; auto|]. split_and!; auto. }
  destruct Hst as (i & Hof & Hpath & Hname & ->).
  unfold ofs_close. rewrite Ho. simpl. rewrite Hof.
  destruct (complete && (0 <? mCurrentFileSize d)).
  - unfold sys_rename, outcome. simpl.
    rewrite Hpath, Hdir, Hname. fold (tmpp i). fold (finp i).
    destruct (w_fs (os p) !! tmpp i) as [nd|] eqn:Elook.
    2:{ unfold apply_event at 1. rewrite Elook. intros [= <- <-].
        exists (Closed (tmpp i)), [EvClose (tmpp i)], [].
        split; [|split; [unfold Tracked; simpl; split_and!; auto|split_and!; auto]].
        unfold PSteps. simpl. rewrite app_nil_r. split_and!; try reflexivity.
        now rewrite (commit_run_cons _ _ _ _ _ (close_step_accepted _)). }
    unfold apply_event at 1. rewrite Elook.
    destruct (hd true (get_faults SysRename _)) eqn:Eren.
    + unfold AudioDumpManager.OnDumpFileCompleted, AudioDumpManager.AppendToQueueFile,
        outcome. simpl.
      destruct (hd true (get_faults SysAppend _)) eqn:Eapp; simpl; intros [= <- <-].
      * exists Idle,
          [EvClose (tmpp i); EvRename (tmpp i) (finp i);
           EvAppend (c_str (AudioDumpManager.mQueueFilePath (instance p)))
             (list_byte_of_string (fname false i +:+ newline));
           EvLog (AudioDumpManager.READY_TAG +:+ c_str (fname false i))],
          [fname false i].
        split; [|split; [unfold Tracked; simpl; split_and!; auto|split_and!; auto]].
        unfold PSteps. simpl. rewrite <- !app_assoc. split_and!; try reflexivity.
        rewrite (commit_run_cons _ _ _ _ _ (close_step_accepted _)).
        rewrite (commit_run_cons _ _ _ _ _ (rename_step_accepted _)).
        rewrite (commit_run_cons _ _ _ _ _ (append_step_accepted _ _ _ Hq1 Hq2)).
        rewrite (commit_run_cons _ _ _ _ _ (log_step_accepted _)). reflexivity.
      * exists Idle,
          [EvClose (tmpp i); EvRename (tmpp i) (finp i);
           EvLog (AudioDumpManager.READY_TAG +:+ c_str (fname false i))],
          [fname false i].
        split; [|split; [unfold Tracked; simpl; split_and!; auto|split_and!; auto]].
        unfold PSteps. simpl. rewrite <- !app_assoc. split_and!; try reflexivity.
        rewrite (commit_run_cons _ _ _ _ _ (close_step_accepted _)).
        rewrite (commit_run_cons _ _ _ _ _ (rename_step_accepted _)).
        rewrite (commit_run_cons _ _ _ _ _ (log_step_accepted _)). reflexivity.
    + intros [= <- <-].
      exists (Closed (tmpp i)), [EvClose (tmpp i)], [].
      split; [|split; [unfold Tracked; simpl; split_and!; auto|split_and!; auto]].
      unfold PSteps. simpl. rewrite app_nil_r. split_and!; try reflexivity.
      now rewrite (commit_run_cons _ _ _ _ _ (close_step_accepted _)).
  - unfold sys_unlink. simpl. rewrite Hpath. fold (tmpp i). intros [= <- <-].
    exists Idle, [EvClose (tmpp i); EvUnlink (tmpp i)], [].
    split; [|split; [unfold Tracked; simpl; split_and!; auto|split_and!; auto]].
    unfold PSteps. simpl. rewrite <- !app_assoc, app_nil_r. split_and!; try reflexivity.
    rewrite (commit_run_cons _ _ _ _ _ (close_step_accepted _)).
    now rewrite (commit_run_cons _ _ _ _ _ (unlink_step_accepted _)).
Qed.

Lemma Tracked_ext d d' ph :
  Trk d ph ->
  mType d' = mType d -> mDumpDirectory d' = mDumpDirectory d ->
  mTimestamp d' = mTimestamp d -> mBaseCounter d' = mBaseCounter d ->
  mFileIndex d' = mFileIndex d ->
  is_open (mFile d') = is_open (mFile d) -> of_path (mFile d') = of_path (mFile d) ->
  mCurrentFilePath d' = mCurrentFilePath d ->
  mCurrentFilename d' = mCurrentFilename d ->
  Trk d' ph.
Proof.
  intros (Hty & Hdir & Hts & Hbc & Hidx & Hst) E1 E2 E3 E4 E5 E6 E7 E8 E9.
  unfold Tracked. rewrite E1, E2, E3, E4, E5, E6, E7, E8, E9. split_and!; auto.
Qed.

Lemma Tracked_opened d ph :
  Trk d ph -> is_open (mFile d) = true -> ph = Opened (of_path (mFile d)).
Proof.
  intros (_ & _ & _ & _ & _ & Hst) Ho. rewrite Ho in Hst.
  destruct Hst as (i & -> & _ & _ & ->). reflexivity.
Qed.

Lemma PSteps_queue_apart ph p ph' p' tr names :
  PSteps dumpDir ph p ph' p' tr names -> queue_apart p -> queue_apart p'.
Proof. intros (_ & _ & _ & _ & _ & Hq) [H1 H2]. unfold queue_apart. now rewrite Hq. Qed.

#[local] Arguments FlushBuffer : simpl never.

Lemma FlushBuffer_steps d w ph ok d' w' :
  Trk d ph ->
  FlushBuffer d w = (ok, d', w') ->
  WSteps dumpDir ph w ph w' /\ Trk d' ph /\
  is_open (mFile d') = is_open (mFile d) /\ mIsValid d' = mIsValid d /\
  (ok = true -> mBufferOffset d' = 0).
Proof.
  intros HT. unfold FlushBuffer.
  destruct (Z.eqb_spec (mBufferOffset d) 0) as [E0|E0].
  { intros [= <- <- <-]. split_and!; auto. apply WSteps_refl. }
  destruct (is_open (mFile d)) eqn:Ho; simpl.
  2:{ intros [= <- <- <-]. split_and!; auto; try discriminate. apply WSteps_refl. }
  destruct (ofs_write _ (mFile d) w) as [f w1] eqn:Ew.
  apply (ofs_write_steps dumpDir ph) in Ew; [|intros _; now apply Tracked_opened].
  destruct Ew as (HS & Hof & Hpf). rewrite Ho in Hof.
  destruct (good f); simpl; intros [= <- <- <-]; simpl;
    (split_and!; auto; try discriminate;
     apply (Tracked_ext d); simpl; auto; congruence).
Qed.

Lemma rotate_steps d p ph opened d' p' :
  Trk d ph -> queue_apart p -> Usable d -> mIsValid d = true ->
  (if MAX_FILE_SIZE <=? mCurrentFileSize d then
     let '(d, p) := CloseCurrentFile true d p in
     let '(ok, d, w) := OpenNewFile d (os p) in
     (ok, d, with_os w p)
   else (true, d, p)) = (opened, d', p') ->
  exists ph' tr names,
    PSteps dumpDir ph p ph' p' tr names /\ Trk d' ph' /\
    mIsValid d' = true /\
    (opened = true ->
     is_open (mFile d') = true /\ 0 <= mBufferOffset d' < BUFFER_SIZE).
Proof.
  intros HT Hq HU Hv.
  destruct (MAX_FILE_SIZE <=? mCurrentFileSize d).
  2:{ intros [= <- <- <-]. exists ph, [], []. split; [apply PSteps_refl|].
      split_and!; auto. }
  destruct (CloseCurrentFile true d p) as [d1 p1] eqn:Hc.
  destruct (CloseCurrentFile_steps _ _ _ _ _ _ HT Hq Hc)
    as (ph1 & tr1 & names1 & HP1 & HT1 & Ho1 & Hv1 & _).
  destruct (OpenNewFile d1 (os p1)) as [[ok d2] w2] eqn:Hopen.
  destruct (OpenNewFile_steps _ _ _ _ _ _ HT1 Ho1 Hopen)
    as (ph2 & HS2 & HT2 & Ho2 & Hoff & Hv2).
  destruct (PSteps_world _ _ _ _ _ HS2) as (tr2 & HP2).
  intros [= <- <- <-].
  exists ph2, (tr1 ++ tr2), (names1 ++ []).
  split; [exact (PSteps_trans _ _ _ _ _ _ _ _ _ _ _ HP1 HP2)|].
  split_and!; auto; [congruence|].
  intros ->. split; [exact Ho2|]. rewrite (Hoff eq_refl). unfold BUFFER_SIZE. lia.
Qed.

Lemma WriteTurn_steps data d p ph :
  Trk d ph -> queue_apart p -> Usable d -> mIsValid d = true -> data <> [] ->
  match WriteTurn data d p with
  | inl (d', p') =>
      exists ph' tr names,
        PSteps dumpDir ph p ph' p' tr names /\ Trk d' ph' /\ mIsValid d' = false
  | inr (c, data', d', p') =>
      exists ph' tr names,
        PSteps dumpDir ph p ph' p' tr names /\ Trk d' ph' /\ Usable d' /\
        mIsValid d' = true /\ (length data' < length data)%nat
  end.
Proof.
  intros HT Hq HU Hv Hdata. unfold WriteTurn.
  destruct (if MAX_FILE_SIZE <=? mCurrentFileSize d then _ else _)
    as [[opened d1] p1] eqn:Hrot.
  destruct (rotate_steps _ _ _ _ _ _ HT Hq HU Hv Hrot)
    as (ph1 & tr1 & names1 & HP1 & HT1 & Hv1 & Hop).
  destruct opened; cbn [negb].
  2:{ exists ph1, tr1, names1. split; [exact HP1|]. split; [|reflexivity].
      apply (Tracked_ext d1); auto. }
  destruct (Hop eq_refl) as [Ho1 Hoff1].
  set (c := Z.min (Z.of_nat (length data)) (wrap_size (BUFFER_SIZE - mBufferOffset d1))).
  assert (Hc : 1 <= c <= BUFFER_SIZE - mBufferOffset d1 /\ c <= Z.of_nat (length data)).
  { subst c. unfold wrap_size, SIZE_MODULUS, BUFFER_SIZE in *.
    rewrite Z.mod_small by lia. destruct data; [congruence|]. simpl length. lia. }
  cbv zeta. fold c.
  set (d2 := with_mBufferOffset _ _).
  assert (HT2 : Trk d2 ph1) by (apply (Tracked_ext d1); auto).
  assert (Hoff2 : mBufferOffset d2 = mBufferOffset d1 + c).
  { subst d2. simpl. unfold wrap_size, SIZE_MODULUS, BUFFER_SIZE in *.
    rewrite Z.mod_small; lia. }
  assert (Ho2 : is_open (mFile d2) = true) by exact Ho1.
  assert (Hv2 : mIsValid d2 = true) by exact Hv1.
  clearbody d2.
  destruct (if BUFFER_SIZE <=? mBufferOffset d2 then _ else _)
    as [[fl d3] w3] eqn:Hfl.
  assert (H3 : WSteps dumpDir ph1 (os p1) ph1 w3 /\ Trk d3 ph1 /\
               is_open (mFile d3) = true /\ mIsValid d3 = true /\
               (fl = true -> 0 <= mBufferOffset d3 < BUFFER_SIZE)).
  { destruct (Z.leb_spec BUFFER_SIZE (mBufferOffset d2)) as [Hfull|Hroom].
    - destruct (FlushBuffer_steps _ _ _ _ _ _ HT2 Hfl) as (HS & HT3 & Ho3 & Hv3 & Hz).
      split_and!; auto; try congruence.
      intros E. rewrite (Hz E). unfold BUFFER_SIZE. lia.
    - injection Hfl as <- <- <-. split_and!; auto; [apply WSteps_refl|]. intros _. lia. }
  destruct H3 as (HS3 & HT3 & Ho3 & Hv3 & Hoff3).
  destruct (PSteps_world _ _ _ _ _ HS3) as (tr3 & HP3).
  pose proof (PSteps_trans _ _ _ _ _ _ _ _ _ _ _ HP1 HP3) as HP13.
  destruct fl; cbn [negb].
  2:{ exists ph1, (tr1 ++ tr3), (names1 ++ []). split; [exact HP13|].
      split; [|reflexivity]. apply (Tracked_ext d3); auto. }
  destruct (if FLUSH_THRESHOLD <=? mBytesSinceFlush d3 then _ else _)
    as [d4 w4] eqn:Hth.
  assert (H4 : WSteps dumpDir ph1 w3 ph1 w4 /\ Trk d4 ph1 /\
               is_open (mFile d4) = true /\ mIsValid d4 = true /\
               mBufferOffset d4 = mBufferOffset d3).
  { destruct (FLUSH_THRESHOLD <=? mBytesSinceFlush d3).
    - destruct (ofs_flush (mFile d3) w3) as [f w] eqn:Ef.
      destruct (ofs_flush_steps dumpDir ph1 _ _ _ _ Ef) as (HS & Hof & Hpf).
      injection Hth as <- <-. simpl. split_and!; auto; [|congruence].
      apply (Tracked_ext d3); auto.
    - injection Hth as <- <-. split_and!; auto. apply WSteps_refl. }
  destruct H4 as (HS4 & HT4 & Ho4 & Hv4 & Hoff4).
  destruct (PSteps_world dumpDir ph1 (with_os w3 p1) ph1 w4 HS4) as (tr4 & HP4).
  pose proof (PSteps_trans _ _ _ _ _ _ _ _ _ _ _ HP13 HP4) as HP14.
  exists ph1, ((tr1 ++ tr3) ++ tr4), ((names1 ++ []) ++ []).
  split; [exact HP14|]. split; [exact HT4|]. split_and!; auto.
  - intros _. split; [exact Ho4|]. rewrite Hoff4. auto.
  - rewrite length_drop. destruct data; [congruence|]. simpl length in *. lia.
Qed.

Lemma Usable_invalid d : mIsValid d = false -> Usable d.
Proof. intros H Hv. congruence. Qed.

Lemma WriteLoop_steps fuel : forall data tw d p ph,
  Trk d ph -> queue_apart p -> Usable d -> mIsValid d = true ->
  (length data < fuel)%nat ->
  exists r d' p' ph' tr names,
    WriteLoop fuel data tw d p = Some (r, d', p') /\
    PSteps dumpDir ph p ph' p' tr names /\ Trk d' ph' /\ Usable d'.
Proof.
  induction fuel as [|fuel IH]; intros data tw d p ph HT Hq HU Hv Hfuel; [lia|].
  destruct data as [|b data'] eqn:Edata.
  { exists (to_ssize tw), d, p, ph, [], []. split; [reflexivity|].
    split; [apply PSteps_refl|]. auto. }
  rewrite <- Edata in *.
  assert (Hne : data <> []) by (rewrite Edata; discriminate).
  pose proof (WriteTurn_steps data d p ph HT Hq HU Hv Hne) as Hturn.
  assert (Hstep : WriteLoop (S fuel) data tw d p
                  = match WriteTurn data d p with
                    | inl (d, p) => Some (-1, d, p)
                    | inr (bytesToCopy, data, d, p) =>
                        WriteLoop fuel data (wrap_size (tw + bytesToCopy)) d p
                    end).
  { rewrite Edata at 1. cbn [WriteLoop]. now rewrite <- Edata. }
  rewrite Hstep. clear Hstep.
  destruct (WriteTurn data d p) as [[d1 p1]|[[[c data1] d1] p1]].
  - destruct Hturn as (ph1 & tr1 & names1 & HP1 & HT1 & Hv1).
    exists (-1), d1, p1, ph1, tr1, names1. split_and!; auto.
    now apply Usable_invalid.
  - destruct Hturn as (ph1 & tr1 & names1 & HP1 & HT1 & HU1 & Hv1 & Hlen).
    destruct (IH data1 (wrap_size (tw + c)) d1 p1 ph1 HT1
                (PSteps_queue_apart _ _ _ _ _ _ HP1 Hq) HU1 Hv1)
      as (r & d' & p' & ph' & tr2 & names2 & Hloop & HP2 & HT' & HU'); [lia|].
    exists r, d', p', ph', (tr1 ++ tr2), (names1 ++ names2).
    split; [exact Hloop|]. split; [|auto].
    exact (PSteps_trans _ _ _ _ _ _ _ _ _ _ _ HP1 HP2).
Qed.

Lemma WriteData_steps buffer d p ph :
  Trk d ph -> queue_apart p -> Usable d ->
  exists r d' p' ph' tr names,
    WriteData buffer d p = Some (r, d', p') /\
    PSteps dumpDir ph p ph' p' tr names /\ Trk d' ph' /\ Usable d'.
Proof.
  intros HT Hq HU. unfold WriteData.
  destruct buffer as [data|].
  2:{ exists (-1), d, p, ph, [], []. split; [reflexivity|].
      split; [apply PSteps_refl|]. auto. }
  destruct (mIsValid d) eqn:Hv; cbn [negb orb].
  2:{ exists (-1), d, p, ph, [], []. split; [reflexivity|].
      split; [apply PSteps_refl|]. auto. }
  destruct (Z.of_nat (length data) =? 0).
  { exists (-1), d, p, ph, [], []. split; [reflexivity|].
    split; [apply PSteps_refl|]. auto. }
  apply WriteLoop_steps; auto.
Qed.

Lemma ForceClose_steps d p ph d' p' :
  Trk d ph -> queue_apart p ->
  ForceClose d p = (d', p') ->
  exists ph' tr names,
    PSteps dumpDir ph p ph' p' tr names /\ Trk d' ph' /\ Usable d' /\
    is_open (mFile d') = false /\ settled ph' = true.
Proof.
  intros HT Hq. unfold ForceClose.
  destruct (is_open (mFile d)) eqn:Ho.
  2:{ intros [= <- <-]. exists ph, [], []. split; [apply PSteps_refl|].
      split; [apply (Tracked_ext d); auto|]. split; [now apply Usable_invalid|].
      split; [exact Ho|]. destruct HT as (_ & _ & _ & _ & _ & Hst).
      now rewrite Ho in Hst. }
  destruct (if 0 <? mBufferOffset d then _ else _) as [d1 w1] eqn:Hfl.
  assert (H1 : WSteps dumpDir ph (os p) ph w1 /\ Trk d1 ph).
  { destruct (0 <? mBufferOffset d).
    - destruct (ofs_write _ (mFile d) (os p)) as [f w] eqn:Ew.
      apply (ofs_write_steps dumpDir ph) in Ew; [|intros _; now apply Tracked_opened].
      destruct Ew as (HS & Hof & Hpf). injection Hfl as <- <-.
      split; [exact HS|]. apply (Tracked_ext d); auto.
    - injection Hfl as <- <-. split; [apply WSteps_refl|exact HT]. }
  destruct H1 as (HS1 & HT1).
  destruct (PSteps_world _ _ _ _ _ HS1) as (tr1 & HP1).
  destruct (CloseCurrentFile true d1 (with_os w1 p)) as [d2 p2] eqn:Hc.
  destruct (CloseCurrentFile_steps _ _ _ _ _ _ HT1
              (PSteps_queue_apart _ _ _ _ _ _ HP1 Hq) Hc)
    as (ph2 & tr2 & names2 & HP2 & HT2 & Ho2 & _ & Hs2).
  intros [= <- <-].
  exists ph2, (tr1 ++ tr2), ([] ++ names2).
  split; [exact (PSteps_trans _ _ _ _ _ _ _ _ _ _ _ HP1 HP2)|].
  split; [apply (Tracked_ext d2); auto|]. split; [now apply Usable_invalid|].
  split; [exact Ho2|exact Hs2].
Qed.

Lemma ctor_steps w d0 w0 :
  ctor type dumpDir timestamp baseCounter w = (d0, w0) ->
  exists ph,
    WSteps dumpDir Idle w ph w0 /\ Trk d0 ph /\ Usable d0 /\
    (mIsValid d0 = true -> exists q, ph = Opened q).
Proof.
  unfold ctor.
  set (d := {| mType := type; mDumpDirectory := dumpDir; mTimestamp := timestamp;
               mBaseCounter := baseCounter; mFileIndex := 0; mFile := ofstream_init;
               mCurrentFilePath := ""; mCurrentFilename := "";
               mBuffer := repeat x00 (Z.to_nat BUFFER_SIZE);
               mBufferOffset := 0; mCurrentFileSize := 0; mBytesSinceFlush := 0;
               mTotalBytesWritten := 0; mFileCount := 0; mIsValid := false |}).
  assert (HT : Trk d Idle).
  { unfold Tracked. simpl. split_and!; auto. exists 0. reflexivity. }
  destruct (OpenNewFile d w) as [[ok d1] w1] eqn:Hopen.
  destruct (OpenNewFile_steps _ _ _ _ _ _ HT eq_refl Hopen)
    as (ph1 & HS1 & HT1 & Ho1 & Hoff & Hv1).
  destruct ok; intros [= <- <-]; exists ph1.
  - split; [exact HS1|]. split; [apply (Tracked_ext d1); auto|].
    split.
    + intros _. simpl. split; [exact Ho1|]. rewrite (Hoff eq_refl).
      unfold BUFFER_SIZE. lia.
    + intros _. exists (of_path (mFile d1)). now apply (Tracked_opened d1).
  - split; [exact HS1|]. split; [exact HT1|].
    split; [apply Usable_invalid; now rewrite Hv1|].
    rewrite Hv1. discriminate.
Qed.

Lemma Calls_steps cs : forall d p ph,
  Trk d ph -> queue_apart p -> Usable d ->
  exists d' p' ph' tr names,
    Calls cs d p = Some (d', p') /\
    PSteps dumpDir ph p ph' p' tr names /\ Trk d' ph' /\ Usable d'.
Proof.
  induction cs as [|c cs IH]; intros d p ph HT Hq HU.
  { exists d, p, ph, [], []. split; [reflexivity|]. split; [apply PSteps_refl|auto]. }
  destruct c as [buffer|]; cbn [Calls].
  - destruct (WriteData_steps buffer d p ph HT Hq HU)
      as (r & d1 & p1 & ph1 & tr1 & names1 & Hw & HP1 & HT1 & HU1).
    rewrite Hw.
    destruct (IH d1 p1 ph1 HT1 (PSteps_queue_apart _ _ _ _ _ _ HP1 Hq) HU1)
      as (d' & p' & ph' & tr2 & names2 & Hcs & HP2 & HT' & HU').
    exists d', p', ph', (tr1 ++ tr2), (names1 ++ names2).
    split; [exact Hcs|]. split; [|auto].
    exact (PSteps_trans _ _ _ _ _ _ _ _ _ _ _ HP1 HP2).
  - destruct (ForceClose d p) as [d1 p1] eqn:Hf.
    destruct (ForceClose_steps _ _ _ _ _ HT Hq Hf)
      as (ph1 & tr1 & names1 & HP1 & HT1 & HU1 & _).
    destruct (IH d1 p1 ph1 HT1 (PSteps_queue_apart _ _ _ _ _ _ HP1 Hq) HU1)
      as (d' & p' & ph' & tr2 & names2 & Hcs & HP2 & HT' & HU').
    exists d', p', ph', (tr1 ++ tr2), (names1 ++ names2).
    split; [exact Hcs|]. split; [|auto].
    exact (PSteps_trans _ _ _ _ _ _ _ _ _ _ _ HP1 HP2).
Qed.

Lemma Tracked_not_renamed d ph dst : Trk d ph -> ph <> Renamed dst.
Proof.
  intros (_ & _ & _ & _ & _ & Hst) ->.
  destruct (is_open (mFile d)); [|discriminate].
  now destruct Hst as (i & _ & _ & _ & [=]).
Qed.

(** A dumper from its construction on, through any calls. *)
Lemma run_steps p0 cs :
  queue_apart p0 ->
  exists d0 w0 d p ph tr names,
    ctor type dumpDir timestamp baseCounter (os p0) = (d0, w0) /\
    Calls cs d0 (with_os w0 p0) = Some (d, p) /\
    PSteps dumpDir Idle p0 ph p tr names /\ Trk d ph.
Proof.
  intros Hq.
  destruct (ctor type dumpDir timestamp baseCounter (os p0)) as [d0 w0] eqn:Hctor.
  destruct (ctor_steps _ _ _ Hctor) as (ph0 & HS0 & HT0 & HU0 & _).
  destruct (PSteps_world _ _ _ _ _ HS0) as (tr0 & HP0).
  destruct (Calls_steps cs d0 (with_os w0 p0) ph0 HT0
              (PSteps_queue_apart _ _ _ _ _ _ HP0 Hq) HU0)
    as (d & p & ph & tr & names & Hcs & HP & HT & _).
  exists d0, w0, d, p, ph, (tr0 ++ tr), ([] ++ names).
  split; [reflexivity|]. split; [exact Hcs|]. split; [|exact HT].
  exact (PSteps_trans _ _ _ _ _ _ _ _ _ _ _ HP0 HP).
Qed.

End CommitProofs.

Lemma notified_path_ready dir name :
  notified_path dir (ready_line name) = dir +:+ c_str name.
Proof. unfold notified_path, ready_line. now rewrite strip_prefix_app. Qed.

Lemma get_faults_open_next_rename F :
  get_faults SysOpen (next_faults SysRename F) = get_faults SysOpen F.
Proof. reflexivity. Qed.

Lemma OpenNewFile_result d w :
  is_open (mFile d) = false ->
  (OpenNewFile d w).1.1 = hd true (get_faults SysOpen (w_faults w)).
Proof.
  intros Ho. unfold OpenNewFile, ofs_open, outcome. simpl. rewrite Ho.
  destruct (hd true _); reflexivity.
Qed.

Lemma CloseCurrentFile_rename_fails d p :
  is_open (mFile d) = true -> 0 < mCurrentFileSize d -> rename_fails d p ->
  close_leaves_temp_file d p.
Proof.
  intros Ho Hsize Hfail. unfold rename_fails in Hfail.
  unfold close_leaves_temp_file, CloseCurrentFile.
  rewrite Ho. cbn [negb]. unfold ofs_close. rewrite Ho.
  destruct (Z.ltb_spec 0 (mCurrentFileSize (with_mFile
              {| is_open := false; good := good (mFile d); of_path := of_path (mFile d) |} d)))
    as [_|Hn]; [|simpl in Hn; lia].
  cbn [andb]. unfold sys_rename, outcome. simpl.
  change (apply_event (EvClose (of_path (mFile d))) (w_fs (os p))) with (w_fs (os p)).
  destruct (w_fs (os p) !! c_str (mCurrentFilePath d)) as [nd|] eqn:Elook.
  - destruct Hfail as [Hgone|Hsys]; [discriminate|]. rewrite Hsys. simpl.
    split_and!; auto.
    + rewrite notifications_app. simpl. apply app_nil_r.
    + rewrite OpenNewFile_result by reflexivity. reflexivity.
  - simpl. split_and!; auto.
    + rewrite notifications_app. simpl. apply app_nil_r.
    + rewrite OpenNewFile_result by reflexivity. reflexivity.
Qed.

(** C1. Whatever calls are made on a dumper after its construction
    ([WriteData] with any buffers, [ForceClose] at any point), whichever
    system calls fail, the calls return and the operations [tr] they
    perform on the file system follow the commit protocol: bytes are
    written, and files created or truncated, under temporary names only
    ([.pcm.tmp]); a file with a final name ([.pcm]) appears or changes by
    nothing but the rename of the closed temporary file onto it; so a
    reader of the directory finds every file with a final name unchanged
    from one rename onto it to the next, never growing. *)
Theorem writes_only_to_temp_files (type : AudioStreamType) (dumpDir timestamp : string)
    (baseCounter : Z) (p0 : process) (cs : list call) :
  nul_free dumpDir -> (String.length (c_str timestamp) <= 200)%nat -> queue_apart p0 ->
  exists d0 w0 d p tr ph,
    ctor type dumpDir timestamp baseCounter (os p0) = (d0, w0) /\
    Calls cs d0 (with_os w0 p0) = Some (d, p) /\
    w_trace (os p) = w_trace (os p0) ++ tr /\
    w_fs (os p) = replay tr (w_fs (os p0)) /\
    commit_run dumpDir Idle tr = Some ph /\
    atomic_commit tr (w_fs (os p0)) /\
    stable_between_renames tr (w_fs (os p0)).
Proof.
  intros Hdir Hts Hq.
  destruct (run_steps type dumpDir timestamp baseCounter Hdir Hts p0 cs Hq)
    as (d0 & w0 & d & p & ph & tr & names & Hctor & Hcs & HP & _).
  destruct HP as (Htr & Hfs & Hrun & _).
  assert (Hat : atomic_commit tr (w_fs (os p0)))
    by (eapply commit_run_atomic; [|exact Hrun]; exact I).
  exists d0, w0, d, p, tr, ph. split_and!; auto.
  now apply atomic_commit_stable.
Qed.

Lemma writes_only_to_temp_files_witness :
  exists d0 w0 d p tr ph,
    ctor STREAM_OUT demo_dir demo_timestamp 0 (os (quiet_process ∅)) = (d0, w0) /\
    Calls [CallWriteData (Some ["001"%byte]); CallForceClose] d0
      (with_os w0 (quiet_process ∅)) = Some (d, p) /\
    w_trace (os p) = w_trace (os (quiet_process ∅)) ++ tr /\
    w_fs (os p) = replay tr (w_fs (os (quiet_process ∅))) /\
    commit_run demo_dir Idle tr = Some ph /\
    atomic_commit tr (w_fs (os (quiet_process ∅))) /\
    stable_between_renames tr (w_fs (os (quiet_process ∅))).
Proof.
  apply writes_only_to_temp_files.
  - reflexivity.
  - vm_compute. lia.
  - split; reflexivity.
Defined.

(** C7. Whatever calls are made on a dumper after its construction,
    whichever system calls fail: the files renamed to their final name,
    the names the manager recorded and the notifications logged are the
    same, in the same order, so each finalized file is recorded and
    notified exactly once; and every notification comes after the rename
    of the file it names, with only the manager's append to its queue file
    in between. When the rename fails as a file that holds bytes is closed,
    nothing is recorded or notified, the file system is left as it was (the
    temporary file stays), the dumper is as valid as it was and opens its
    next file whenever the system lets it. *)
Theorem notification_once_after_rename (type : AudioStreamType)
    (dumpDir timestamp : string) (baseCounter : Z) (p0 : process) (cs : list call) :
  nul_free dumpDir -> (String.length (c_str timestamp) <= 200)%nat -> queue_apart p0 ->
  (exists d0 w0 d p tr names,
     ctor type dumpDir timestamp baseCounter (os p0) = (d0, w0) /\
     Calls cs d0 (with_os w0 p0) = Some (d, p) /\
     w_trace (os p) = w_trace (os p0) ++ tr /\
     AudioDumpManager.mCompletedFiles (instance p)
       = AudioDumpManager.mCompletedFiles (instance p0) ++ names /\
     notified_once_after_rename dumpDir tr names) /\
  (forall d p,
     is_open (mFile d) = true -> 0 < mCurrentFileSize d -> rename_fails d p ->
     close_leaves_temp_file d p).
Proof.
  intros Hdir Hts Hq. split; [|apply CloseCurrentFile_rename_fails].
  destruct (run_steps type dumpDir timestamp baseCounter Hdir Hts p0 cs Hq)
    as (d0 & w0 & d & p & ph & tr & names & Hctor & Hcs & HP & HT).
  destruct HP as (Htr & Hfs & Hrun & Hrec & Hnote & _).
  exists d0, w0, d, p, tr, names. split_and!; auto.
  unfold notified_once_after_rename. split_and!; auto.
  - pose proof (commit_run_notified _ _ _ _ Hrun) as Hpair.
    assert (Hph : match ph with Renamed dst => [dst] | _ => [] end = []).
    { destruct ph; auto.
      now destruct (Tracked_not_renamed type dumpDir timestamp baseCounter d _ dst HT). }
    rewrite Hph, app_nil_r in Hpair. cbn [app] in Hpair.
    rewrite Hpair, Hnote, map_map. apply map_ext. intros name.
    apply notified_path_ready.
  - eapply commit_run_notified_after; [|exact Hrun]. discriminate.
Qed.

Lemma notification_once_after_rename_witness :
  (exists d0 w0 d p tr names,
     ctor STREAM_OUT demo_dir demo_timestamp 0 (os rename_fails_process) = (d0, w0) /\
     Calls [CallWriteData (Some ["001"%byte]); CallForceClose] d0
       (with_os w0 rename_fails_process) = Some (d, p) /\
     w_trace (os p) = w_trace (os rename_fails_process) ++ tr /\
     AudioDumpManager.mCompletedFiles (instance p)
       = AudioDumpManager.mCompletedFiles (instance rename_fails_process) ++ names /\
     notified_once_after_rename demo_dir tr names) /\
  (forall d p,
     is_open (mFile d) = true -> 0 < mCurrentFileSize d -> rename_fails d p ->
     close_leaves_temp_file d p).
Proof.
  apply notification_once_after_rename.
  - reflexivity.
  - vm_compute. lia.
  - split; reflexivity.
Defined.

(** One byte written, then [ForceClose], when nothing fails: the file is
    committed, recorded and notified. *)
Example run_commits_one_file :
  run_summary (run STREAM_OUT demo_dir demo_timestamp 0 (quiet_process ∅)
                 [CallWriteData (Some ["001"%byte]); CallForceClose])
  = Some (false,
          [EvOpen (tmp_path STREAM_OUT demo_dir demo_timestamp 0 0);
           EvWrite (tmp_path STREAM_OUT demo_dir demo_timestamp 0 0) ["001"%byte];
           EvClose (tmp_path STREAM_OUT demo_dir demo_timestamp 0 0);
           EvRename (tmp_path STREAM_OUT demo_dir demo_timestamp 0 0)
                    (final_path STREAM_OUT demo_dir demo_timestamp 0 0);
           EvAppend (AudioDumpManager.DEFAULT_DUMP_DIR +:+ AudioDumpManager.QUEUE_FILE_NAME)
                    (queue_line STREAM_OUT demo_dir demo_timestamp 0 0);
           EvLog (ready_line (file_name STREAM_OUT demo_dir demo_timestamp 0 false 0))],
          [file_name STREAM_OUT demo_dir demo_timestamp 0 false 0]).
Proof. vm_compute. reflexivity. Qed.

(** The same calls when the rename fails: the temporary file is closed and
    stays, nothing is recorded or notified. *)
Example run_rename_fails :
  run_summary (run STREAM_OUT demo_dir demo_timestamp 0 rename_fails_process
                 [CallWriteData (Some ["001"%byte]); CallForceClose])
  = Some (false,
          [EvOpen (tmp_path STREAM_OUT demo_dir demo_timestamp 0 0);
           EvWrite (tmp_path STREAM_OUT demo_dir demo_timestamp 0 0) ["001"%byte];
           EvClose (tmp_path STREAM_OUT demo_dir demo_timestamp 0 0)],
          []).
Proof. vm_compute. reflexivity. Qed.

(** * Further properties of the code *)

(** ** File names *)

Lemma digit_char_value d : 0 <= d < 10 -> digit_of_char (digit_char d) = d.
Proof.
  intros H.
  assert (Hd : d = 0 \/ d = 1 \/ d = 2 \/ d = 3 \/ d = 4 \/ d = 5 \/ d = 6 \/ d = 7
               \/ d = 8 \/ d = 9) by lia.
  repeat (destruct Hd as [-> | Hd]; [reflexivity|]). now subst.
Qed.

Lemma digit_char_is_digit d : 0 <= d < 10 -> is_digit (digit_char d) = true.
Proof.
  intros H. unfold is_digit. rewrite digit_char_value by exact H.
  apply andb_true_iff. split; [apply Z.leb_le|apply Z.ltb_lt]; lia.
Qed.

Lemma str_app_cons c x y : String c x +:+ y = String c (x +:+ y).
Proof. reflexivity. Qed.

Lemma str_app_nil_l y : "" +:+ y = y.
Proof. reflexivity. Qed.

Lemma str_app_nil_r s : s +:+ "" = s.
Proof. induction s as [|c s IH]; [reflexivity|]. now rewrite str_app_cons, IH. Qed.

Lemma digits_value_app x : forall acc y,
  digits_value acc (x +:+ y) = digits_value (digits_value acc x) y.
Proof.
  induction x as [|c x IH]; intros acc y; [reflexivity|].
  rewrite str_app_cons. cbn [digits_value]. apply IH.
Qed.

Lemma all_digits_app x y : all_digits (x +:+ y) = all_digits x && all_digits y.
Proof.
  induction x as [|c x IH]; [reflexivity|].
  rewrite str_app_cons. cbn [all_digits]. now rewrite IH, andb_assoc.
Qed.

(** What [%u] prints is the decimal numeral of its argument. *)
Lemma fmt_digits_value fuel : forall n acc,
  0 <= n < 10 ^ Z.of_nat fuel ->
  exists pre,
    fmt_digits fuel n acc = pre +:+ acc /\
    digits_value 0 pre = n /\ all_digits pre = true.
Proof.
  induction fuel as [|fuel IH]; intros n acc Hn.
  - exists "". change (10 ^ Z.of_nat 0) with 1 in Hn. split_and!; auto. cbn. lia.
  - cbn [fmt_digits].
    assert (Hd : 0 <= n mod 10 < 10) by (apply Z.mod_pos_bound; lia).
    destruct (Z.eqb_spec (n / 10) 0) as [Hq|Hq].
    + exists (String (digit_char (n mod 10)) ""). split_and!; [reflexivity| |].
      * cbn. rewrite digit_char_value by exact Hd.
        pose proof (Z.div_mod n 10). lia.
      * cbn. now rewrite digit_char_is_digit.
    + destruct (IH (n / 10) (String (digit_char (n mod 10)) acc)) as (pre & He & Hv & Ha).
      { replace (Z.of_nat (S fuel)) with (Z.of_nat fuel + 1) in Hn by lia.
        rewrite Z.pow_add_r, Z.pow_1_r in Hn by lia.
        split; [apply Z.div_pos; lia|]. apply Z.div_lt_upper_bound; lia. }
      exists (pre +:+ String (digit_char (n mod 10)) ""). split_and!.
      * rewrite He, str_app_assoc. reflexivity.
      * rewrite digits_value_app, Hv. cbn. rewrite digit_char_value by exact Hd.
        pose proof (Z.div_mod n 10). lia.
      * rewrite all_digits_app, Ha. cbn. now rewrite digit_char_is_digit.
Qed.

Lemma fmt_u_value n :
  0 <= n < U32_MODULUS -> digits_value 0 (fmt_u n) = n /\ all_digits (fmt_u n) = true.
Proof.
  intros Hn. destruct (fmt_digits_value 10 n "") as (pre & He & Hv & Ha).
  { unfold U32_MODULUS in Hn. change (10 ^ Z.of_nat 10) with 10000000000. lia. }
  unfold fmt_u. rewrite He, str_app_nil_r. auto.
Qed.

Lemma fmt_u_inj n m :
  0 <= n < U32_MODULUS -> 0 <= m < U32_MODULUS -> fmt_u n = fmt_u m -> n = m.
Proof.
  intros Hn Hm H. destruct (fmt_u_value n Hn) as [<- _].
  destruct (fmt_u_value m Hm) as [<- _]. now rewrite H.
Qed.

(** Two numerals followed by the same character that is no digit. *)
Lemma digits_split sep x : forall y r1 r2,
  is_digit sep = false -> all_digits x = true -> all_digits y = true ->
  x +:+ String sep r1 = y +:+ String sep r2 -> x = y /\ r1 = r2.
Proof.
  induction x as [|c x IH]; intros y r1 r2 Hsep Hx Hy H.
  - destruct y as [|c' y]; rewrite ?str_app_cons, ?str_app_nil_l in H.
    + now inversion H.
    + inversion H; subst. cbn in Hy. rewrite Hsep in Hy. discriminate.
  - destruct y as [|c' y]; rewrite ?str_app_cons, ?str_app_nil_l in H.
    + inversion H; subst. cbn in Hx. rewrite Hsep in Hx. discriminate.
    + inversion H; subst. cbn in Hx, Hy.
      apply andb_true_iff in Hx. apply andb_true_iff in Hy.
      destruct (IH y r1 r2 Hsep (proj2 Hx) (proj2 Hy) H2) as [-> ->]. auto.
Qed.

Lemma filename_text_length withTmp d :
  (String.length (c_str (mTimestamp d)) <= 200)%nat ->
  (String.length (filename_text withTmp d) <= 255)%nat.
Proof.
  intros Hts. unfold filename_text, GetStreamTypeString. rewrite !str_length_app.
  pose proof (fmt_u_length (mBaseCounter d)). pose proof (fmt_u_length (mFileIndex d)).
  destruct (mType d), withTmp; simpl String.length; lia.
Qed.

Lemma GenerateFilename_untruncated withTmp d :
  (String.length (c_str (mTimestamp d)) <= 200)%nat ->
  GenerateFilename withTmp d = filename_text withTmp d.
Proof.
  intros Hts. unfold GenerateFilename, snprintf. apply str_take_all.
  cbn [Nat.pred]. now apply filename_text_length.
Qed.

Lemma filename_inj (withTmp : bool) (d1 d2 : StreamDumper.t) :
  c_str (mTimestamp d1) = c_str (mTimestamp d2) ->
  (String.length (c_str (mTimestamp d1)) <= 200)%nat ->
  0 <= mBaseCounter d1 < U32_MODULUS -> 0 <= mBaseCounter d2 < U32_MODULUS ->
  0 <= mFileIndex d1 < U32_MODULUS -> 0 <= mFileIndex d2 < U32_MODULUS ->
  GenerateFilename withTmp d1 = GenerateFilename withTmp d2 ->
  mType d1 = mType d2 /\ mBaseCounter d1 = mBaseCounter d2 /\
  mFileIndex d1 = mFileIndex d2.
Proof.
  intros Hts Hlen Hc1 Hc2 Hi1 Hi2 H.
  rewrite !GenerateFilename_untruncated in H by (rewrite <- ?Hts; exact Hlen).
  unfold filename_text, GetStreamTypeString in H. rewrite <- Hts in H.
  apply str_app_inv_head in H.
  assert (Hty : mType d1 = mType d2).
  { destruct (mType d1), (mType d2); auto;
      rewrite ?str_app_cons, ?str_app_nil_l in H; discriminate. }
  split; [exact Hty|]. rewrite Hty in H.
  do 4 apply str_app_inv_head in H.
  rewrite !(str_app_cons "_"), !(str_app_cons "."), !str_app_nil_l in H.
  destruct (fmt_u_value _ Hc1) as [_ Ha1]. destruct (fmt_u_value _ Hc2) as [_ Ha2].
  destruct (fmt_u_value _ Hi1) as [_ Hb1]. destruct (fmt_u_value _ Hi2) as [_ Hb2].
  apply digits_split in H; auto. destruct H as [Hc H].
  apply digits_split in H; auto. destruct H as [Hi _].
  split; apply fmt_u_inj; auto.
Qed.

(** X1. A file name tells the dumper and the file apart: two dumpers made
    with the same timestamp (of at most 200 characters) that generate the
    same name, both temporary or both final, have the same stream type,
    the same base counter and the same file index. *)
Theorem GenerateFilename_injective (withTmp : bool) (d1 d2 : StreamDumper.t) :
  c_str (mTimestamp d1) = c_str (mTimestamp d2) ->
  (String.length (c_str (mTimestamp d1)) <= 200)%nat ->
  0 <= mBaseCounter d1 < U32_MODULUS -> 0 <= mBaseCounter d2 < U32_MODULUS ->
  0 <= mFileIndex d1 < U32_MODULUS -> 0 <= mFileIndex d2 < U32_MODULUS ->
  GenerateFilename withTmp d1 = GenerateFilename withTmp d2 ->
  mType d1 = mType d2 /\ mBaseCounter d1 = mBaseCounter d2 /\
  mFileIndex d1 = mFileIndex d2.
Proof. apply filename_inj. Qed.

Lemma GenerateFilename_injective_witness :
  mType (seed STREAM_IN demo_dir demo_timestamp 3)
  = mType (seed STREAM_IN "/sdcard/" demo_timestamp 3) /\
  mBaseCounter (seed STREAM_IN demo_dir demo_timestamp 3)
  = mBaseCounter (seed STREAM_IN "/sdcard/" demo_timestamp 3) /\
  mFileIndex (seed STREAM_IN demo_dir demo_timestamp 3)
  = mFileIndex (seed STREAM_IN "/sdcard/" demo_timestamp 3).
Proof.
  apply (GenerateFilename_injective true).
  - reflexivity.
  - vm_compute. lia.
  - vm_compute. split; [discriminate|reflexivity].
  - vm_compute. split; [discriminate|reflexivity].
  - vm_compute. split; [discriminate|reflexivity].
  - vm_compute. split; [discriminate|reflexivity].
  - reflexivity.
Defined.

(** X2. As long as the timestamp has at most 200 characters, the temporary
    name of a file is its final name followed by [.tmp], and the final name
    is the formatted text in full. *)
Theorem GenerateFilename_tmp_suffix (d : StreamDumper.t) :
  (String.length (c_str (mTimestamp d)) <= 200)%nat ->
  GenerateFilename true d = GenerateFilename false d +:+ ".tmp" /\
  GenerateFilename false d
  = "audio_" +:+ GetStreamTypeString d +:+ "_" +:+ c_str (mTimestamp d) +:+ "_"
      +:+ fmt_u (mBaseCounter d) +:+ "_" +:+ fmt_u (mFileIndex d) +:+ ".pcm".
Proof.
  intros Hts. rewrite !GenerateFilename_untruncated by exact Hts.
  unfold filename_text. split; [|reflexivity].
  rewrite !str_app_assoc. reflexivity.
Qed.

Lemma GenerateFilename_tmp_suffix_witness :
  GenerateFilename true (seed STREAM_OUT demo_dir demo_timestamp 0)
  = GenerateFilename false (seed STREAM_OUT demo_dir demo_timestamp 0) +:+ ".tmp" /\
  GenerateFilename false (seed STREAM_OUT demo_dir demo_timestamp 0)
  = "audio_" +:+ GetStreamTypeString (seed STREAM_OUT demo_dir demo_timestamp 0)
      +:+ "_" +:+ c_str (mTimestamp (seed STREAM_OUT demo_dir demo_timestamp 0)) +:+ "_"
      +:+ fmt_u (mBaseCounter (seed STREAM_OUT demo_dir demo_timestamp 0)) +:+ "_"
      +:+ fmt_u (mFileIndex (seed STREAM_OUT demo_dir demo_timestamp 0)) +:+ ".pcm".
Proof. apply GenerateFilename_tmp_suffix. vm_compute. lia. Defined.

Lemma str_take_length n s : (String.length (str_take n s) <= n)%nat.
Proof.
  revert s. induction n as [|n IH]; intros [|c s]; cbn [str_take String.length]; try lia.
  specialize (IH s). lia.
Qed.

Lemma str_take_app n : forall a b,
  (n <= String.length a)%nat -> str_take n (a +:+ b) = str_take n a.
Proof.
  induction n as [|n IH]; intros [|c a] b H; cbn [String.length] in H; try lia.
  - now destruct b.
  - reflexivity.
  - rewrite str_app_cons. cbn [str_take]. rewrite IH; [reflexivity|lia].
Qed.

Lemma str_take_exact n s :
  (n <= String.length s)%nat -> String.length (str_take n s) = n.
Proof.
  revert s. induction n as [|n IH]; intros [|c s] H; cbn [String.length] in H;
    cbn [str_take String.length]; try lia.
  rewrite IH; lia.
Qed.

(** X3. The name is formatted into 256 characters: it never has more than
    255, and once the timestamp has 240 characters or more the suffix is
    cut off whole, so that the temporary name and the final name of a file
    are one and the same name of 255 characters. *)
Theorem GenerateFilename_truncated (d : StreamDumper.t) :
  (240 <= String.length (c_str (mTimestamp d)))%nat ->
  GenerateFilename true d = GenerateFilename false d /\
  String.length (GenerateFilename false d) = 255%nat.
Proof.
  intros Hts.
  assert (Hcut : forall withTmp,
            GenerateFilename withTmp d
            = str_take 255 (("audio_" +:+ GetStreamTypeString d +:+ "_")
                              +:+ c_str (mTimestamp d))).
  { intros withTmp. unfold GenerateFilename, snprintf, filename_text. cbn [Nat.pred].
    transitivity
      (str_take 255
         ((("audio_" +:+ GetStreamTypeString d +:+ "_") +:+ c_str (mTimestamp d))
            +:+ ("_" +:+ fmt_u (mBaseCounter d) +:+ "_" +:+ fmt_u (mFileIndex d) +:+ "."
                   +:+ (if withTmp then "pcm.tmp" else "pcm")))).
    - f_equal. rewrite !str_app_assoc. reflexivity.
    - apply str_take_app. rewrite !str_length_app. unfold GetStreamTypeString.
      destruct (mType d); simpl String.length; lia. }
  rewrite !Hcut. split; [reflexivity|].
  apply str_take_exact. rewrite !str_length_app. unfold GetStreamTypeString.
  destruct (mType d); simpl String.length; lia.
Qed.

Lemma GenerateFilename_truncated_witness :
  GenerateFilename true (seed STREAM_OUT demo_dir (long_timestamp 240) 0)
  = GenerateFilename false (seed STREAM_OUT demo_dir (long_timestamp 240) 0) /\
  String.length (GenerateFilename false (seed STREAM_OUT demo_dir (long_timestamp 240) 0))
  = 255%nat.
Proof. apply GenerateFilename_truncated. vm_compute. lia. Defined.

(** Whatever the timestamp, a name has at most 255 characters. *)
Lemma GenerateFilename_length withTmp d :
  (String.length (GenerateFilename withTmp d) <= 255)%nat.
Proof. unfold GenerateFilename, snprintf. apply str_take_length. Qed.

(** ** Streams of any length *)

Lemma file_slices_concat (L : list byte) k :
  concat (map (file_slice L) (map Z.of_nat (seq 0 k)))
  = slice L 0 (Z.of_nat k * MAX_FILE_SIZE).
Proof.
  induction k as [|k IH].
  - cbn [seq map concat]. unfold slice. now rewrite take_0.
  - rewrite seq_S, !map_app, concat_app, IH. cbn [map concat Nat.add]. rewrite app_nil_r.
    unfold file_slice. rewrite slice_cat by (unfold MAX_FILE_SIZE; lia).
    f_equal. lia.
Qed.

Section ManyFiles.

Variables (type : AudioStreamType) (dumpDir timestamp : string) (baseCounter : Z).
Variable p0 : process.

Hypothesis dumpDir_nul_free : nul_free dumpDir.
Hypothesis timestamp_short : (String.length (c_str timestamp) <= 200)%nat.
Hypothesis queue_file :
  AudioDumpManager.mQueueFilePath (instance p0)
  = AudioDumpManager.mQueueFilePath AudioDumpManager.ctor.

#[local] Abbreviation Wr := (Written type dumpDir timestamp baseCounter p0).
#[local] Abbreviation fname := (file_name type dumpDir timestamp baseCounter).
#[local] Abbreviation tmpp := (tmp_path type dumpDir timestamp baseCounter).
#[local] Abbreviation finp := (final_path type dumpDir timestamp baseCounter).
#[local] Abbreviation fin_fs := (finalized_fs type dumpDir timestamp baseCounter p0).
#[local] Abbreviation fin_names := (finalized_names type dumpDir timestamp baseCounter).
#[local] Abbreviation qline := (queue_line type dumpDir timestamp baseCounter).

Lemma stem_inj suffix i j :
  0 <= i < U32_MODULUS -> 0 <= j < U32_MODULUS ->
  file_stem type timestamp baseCounter i +:+ String "." suffix
  = file_stem type timestamp baseCounter j +:+ String "." suffix ->
  i = j.
Proof.
  intros Hi Hj H. unfold file_stem in H. rewrite !str_app_assoc in H.
  do 7 apply str_app_inv_head in H.
  unfold wrap_u32 in H. rewrite !Z.mod_small in H by assumption.
  destruct (fmt_u_value i Hi) as [_ Ha]. destruct (fmt_u_value j Hj) as [_ Hb].
  apply digits_split in H; auto. now apply fmt_u_inj.
Qed.

Lemma final_path_inj i j :
  0 <= i < U32_MODULUS -> 0 <= j < U32_MODULUS -> finp i = finp j -> i = j.
Proof.
  intros Hi Hj H.
  rewrite !(final_path_eq type dumpDir timestamp baseCounter dumpDir_nul_free
              timestamp_short) in H.
  apply str_app_inv_head in H. exact (stem_inj "pcm" i j Hi Hj H).
Qed.

Lemma tmp_path_inj i j :
  0 <= i < U32_MODULUS -> 0 <= j < U32_MODULUS -> tmpp i = tmpp j -> i = j.
Proof.
  intros Hi Hj H.
  rewrite !(tmp_path_eq type dumpDir timestamp baseCounter dumpDir_nul_free
              timestamp_short) in H.
  apply str_app_inv_head in H. exact (stem_inj "pcm.tmp" i j Hi Hj H).
Qed.

Lemma queue_final_apart i : queue_path p0 <> finp i.
Proof. exact (queue_not_final type dumpDir timestamp baseCounter p0 dumpDir_nul_free
                timestamp_short queue_file i). Qed.

Lemma queue_tmp_apart i : queue_path p0 <> tmpp i.
Proof. exact (queue_not_tmp type dumpDir timestamp baseCounter p0 dumpDir_nul_free
                timestamp_short queue_file i). Qed.

Lemma tmp_final_apart i j : tmpp i <> finp j.
Proof. exact (tmp_final_distinct type dumpDir timestamp baseCounter dumpDir_nul_free
                timestamp_short i j). Qed.

(** The files of index below [k] in the file system that finalized [k]
    files. *)
Lemma fin_fs_finalized (L : list byte) k : Z.of_nat k <= U32_MODULUS ->
  forall i, 0 <= i < Z.of_nat k ->
    fin_fs L k !! finp i = Some (NFile (file_slice L i)) /\
    fin_fs L k !! tmpp i = None.
Proof.
  induction k as [|k IH]; intros Hk i Hi; [lia|].
  rewrite finalized_fs_succ.
  pose proof (queue_final_apart i). pose proof (queue_tmp_apart i).
  pose proof (queue_final_apart (Z.of_nat k)). pose proof (queue_tmp_apart (Z.of_nat k)).
  pose proof (tmp_final_apart (Z.of_nat k) i). pose proof (tmp_final_apart i (Z.of_nat k)).
  pose proof (tmp_final_apart i i).
  destruct (Z.eq_dec i (Z.of_nat k)) as [->|Hne].
  - split; [now apply finalize_step_final|]. apply finalize_step_tmp; congruence.
  - assert (Hf : finp (Z.of_nat k) <> finp i)
      by (intros E; apply final_path_inj in E; lia).
    assert (Ht : tmpp (Z.of_nat k) <> tmpp i)
      by (intros E; apply tmp_path_inj in E; lia).
    rewrite !finalize_step_other by congruence.
    apply IH; lia.
Qed.

(** Those of index [k] or above are as they were. *)
Lemma fin_fs_untouched (L : list byte) k : Z.of_nat k <= U32_MODULUS ->
  forall i, Z.of_nat k <= i < U32_MODULUS ->
    fin_fs L k !! finp i = w_fs (os p0) !! finp i /\
    fin_fs L k !! tmpp i = w_fs (os p0) !! tmpp i.
Proof.
  induction k as [|k IH]; intros Hk i Hi; [split; reflexivity|].
  rewrite finalized_fs_succ.
  pose proof (queue_final_apart i). pose proof (queue_tmp_apart i).
  pose proof (tmp_final_apart (Z.of_nat k) i). pose proof (tmp_final_apart i (Z.of_nat k)).
  assert (Hf : finp (Z.of_nat k) <> finp i)
    by (intros E; apply final_path_inj in E; lia).
  assert (Ht : tmpp (Z.of_nat k) <> tmpp i)
    by (intros E; apply tmp_path_inj in E; lia).
  rewrite !finalize_step_other by congruence.
  apply IH; lia.
Qed.

Lemma fin_fs_queue (L : list byte) k :
  file_content (fin_fs L k) (queue_path p0)
  = file_content (w_fs (os p0)) (queue_path p0)
      ++ concat (map qline (map Z.of_nat (seq 0 k))).
Proof.
  induction k as [|k IH].
  - cbn [seq map concat]. now rewrite app_nil_r.
  - rewrite finalized_fs_succ, seq_S, !map_app, concat_app, app_assoc, <- IH.
    cbn [map concat Nat.add]. rewrite app_nil_r.
    pose proof (queue_final_apart (Z.of_nat k)). pose proof (queue_tmp_apart (Z.of_nat k)).
    unfold file_content at 1. unfold apply_event at 1. rewrite lookup_insert_eq.
    f_equal. unfold file_content, apply_event. rewrite lookup_insert_eq.
    rewrite lookup_insert_ne by congruence. rewrite lookup_delete_ne by congruence.
    now rewrite lookup_insert_ne by congruence.
Qed.

End ManyFiles.

Lemma all_finalized_run (type : AudioStreamType) (dumpDir timestamp : string)
    (baseCounter : Z) (p0 : process) (datas : list (list byte)) :
  fault_free (w_faults (os p0)) = true ->
  nul_free dumpDir ->
  (String.length (c_str timestamp) <= 200)%nat ->
  AudioDumpManager.mQueueFilePath (instance p0)
    = AudioDumpManager.mQueueFilePath AudioDumpManager.ctor ->
  Forall sendable datas ->
  0 < total_size datas <= (U32_MODULUS - 1) * MAX_FILE_SIZE ->
  all_files_finalized type dumpDir timestamp baseCounter p0 datas.
Proof.
  intros HF Hdir Hts Hq Hall Htotal.
  destruct (ctor_Written type dumpDir timestamp baseCounter p0 HF) as (d0 & w0 & Hctor & HW0).
  destruct (WriteAll_Written type dumpDir timestamp baseCounter p0 datas [] d0 _ HW0 Hall)
    as (d & p & Hall' & HW).
  simpl app in HW. unfold all_files_finalized.
  rewrite total_size_concat in Htotal.
  set (L := concat datas) in *. set (n := Z.of_nat (length L)) in *.
  set (r := files_done n).
  assert (Hr0 : 0 <= r) by (subst r; layout_arith).
  assert (HrT : r * MAX_FILE_SIZE < n <= (r + 1) * MAX_FILE_SIZE) by (subst r; layout_arith).
  assert (Hr32 : r + 1 < U32_MODULUS) by (subst r; layout_arith).
  destruct (ForceClose_Written _ _ _ _ _ L d p HW) as (buf & F & tr & Hfc & Hnot); [lia|].
  fold n r in Hfc, Hnot. rewrite <- Z_to_nat_succ in Hnot by exact Hr0.
  eexists d0, w0, d, p, _, _.
  split; [exact Hctor|]. split; [exact Hall'|]. split; [exact Hfc|].
  unfold process_closed, dumper_closed. fold n r.
  rewrite <- Z_to_nat_succ by exact Hr0.
  simpl instance. simpl os. simpl w_fs.
  unfold GetFileCount, GetTotalBytesWritten. cbn [mFileCount mTotalBytesWritten].
  split_and!.
  - unfold wrap_u32. apply Z.mod_small. lia.
  - unfold wrap_size. apply Z.mod_small. unfold SIZE_MODULUS, U32_MODULUS, MAX_FILE_SIZE in *. lia.
  - reflexivity.
  - exact Hnot.
  - intros i Hi.
    destruct (fin_fs_finalized type dumpDir timestamp baseCounter p0 Hdir Hts Hq L
                (Z.to_nat (r + 1))) with (i := i) as [Hf Ht]; [lia|lia|].
    split; [exact Hf|]. split; [exact Ht|].
    unfold file_slice. rewrite slice_length by (unfold MAX_FILE_SIZE; lia). fold n.
    destruct (Z.ltb_spec i (r + 1 - 1)); unfold MAX_FILE_SIZE in *; lia.
  - intros i j Hi Hj Hne E.
    apply (final_path_inj type dumpDir timestamp baseCounter Hdir Hts) in E; lia.
  - unfold indices. rewrite file_slices_concat. apply slice_all. fold n. lia.
Qed.

(** X4. A stream of any length is kept whole. When no call fails, writing
    any buffers to a dumper and closing it leaves every byte in a
    finalized file: [k] files for [n] bytes, where [k] is [n] over
    [MAX_FILE_SIZE] rounded up, each of [MAX_FILE_SIZE] bytes but the last,
    under names that differ from one another, which one after the other
    hold the bytes written in order; each file was recorded and notified
    once, in order, and no temporary file is left. *)
Theorem all_bytes_finalized (type : AudioStreamType) (dumpDir timestamp : string)
    (baseCounter : Z) (p0 : process) (datas : list (list byte)) :
  fault_free (w_faults (os p0)) = true ->
  nul_free dumpDir ->
  (String.length (c_str timestamp) <= 200)%nat ->
  AudioDumpManager.mQueueFilePath (instance p0)
    = AudioDumpManager.mQueueFilePath AudioDumpManager.ctor ->
  Forall sendable datas ->
  0 < total_size datas <= (U32_MODULUS - 1) * MAX_FILE_SIZE ->
  all_files_finalized type dumpDir timestamp baseCounter p0 datas.
Proof. apply all_finalized_run. Qed.

Lemma all_bytes_finalized_witness :
  all_files_finalized STREAM_OUT demo_dir demo_timestamp 0 (quiet_process ∅)
    [["001"%byte; "002"%byte]; ["003"%byte]].
Proof.
  apply all_bytes_finalized.
  - reflexivity.
  - reflexivity.
  - vm_compute. lia.
  - reflexivity.
  - repeat (constructor; [split; [discriminate|reflexivity]|]). constructor.
  - vm_compute. split; [reflexivity|discriminate].
Defined.

(** X5. While a dumper is written to and no call fails, it holds back
    fewer than [BUFFER_SIZE] bytes: after any writes, the finalized files,
    the temporary file in use and the first [mBufferOffset] bytes of the
    buffer are, one after the other, the bytes written; the file in use
    never has more than [MAX_FILE_SIZE] bytes. *)
Theorem writes_reach_files (type : AudioStreamType) (dumpDir timestamp : string)
    (baseCounter : Z) (p0 : process) (datas : list (list byte)) :
  fault_free (w_faults (os p0)) = true ->
  nul_free dumpDir ->
  (String.length (c_str timestamp) <= 200)%nat ->
  AudioDumpManager.mQueueFilePath (instance p0)
    = AudioDumpManager.mQueueFilePath AudioDumpManager.ctor ->
  Forall sendable datas ->
  total_size datas <= (U32_MODULUS - 1) * MAX_FILE_SIZE ->
  all_but_buffer_in_files type dumpDir timestamp baseCounter p0 datas.
Proof.
  intros HF Hdir Hts Hq Hall Htotal.
  destruct (ctor_Written type dumpDir timestamp baseCounter p0 HF) as (d0 & w0 & Hctor & HW0).
  destruct (WriteAll_Written type dumpDir timestamp baseCounter p0 datas [] d0 _ HW0 Hall)
    as (d & p & Hall' & HW).
  simpl app in HW. unfold all_but_buffer_in_files.
  rewrite total_size_concat in Htotal.
  set (L := concat datas) in *. set (n := Z.of_nat (length L)) in *.
  set (r := files_done n).
  assert (Hn0 : 0 <= n) by lia.
  assert (Hr0 : 0 <= r) by (subst r; layout_arith).
  assert (HrT : r * MAX_FILE_SIZE <= flushed n <= n /\ n <= (r + 1) * MAX_FILE_SIZE)
    by (subst r; layout_arith).
  assert (Hr32 : r < U32_MODULUS) by (subst r; layout_arith).
  assert (Hpend : 0 <= n mod BUFFER_SIZE < BUFFER_SIZE /\ n - n mod BUFFER_SIZE = flushed n)
    by layout_arith.
  unfold Written in HW. fold n r in HW.
  destruct HW as (buf & F & tr & -> & -> & Hlen & Hbuf & _ & _). fold n in Hbuf.
  eexists d0, w0, _, _, (n mod BUFFER_SIZE).
  split; [exact Hctor|]. split; [exact Hall'|].
  unfold process_at, dumper_at, IsValid, GetCurrentFileSize. fold n.
  simpl os. simpl w_fs. cbn [mIsValid mBuffer mBufferOffset mCurrentFileSize].
  destruct Hpend as [Hp1 Hp2]. rewrite Hp2.
  split_and!; try reflexivity; try lia.
  - intros i Hi.
    pose proof (tmp_final_apart type dumpDir timestamp baseCounter Hdir Hts r i).
    assert (Ht : tmp_path type dumpDir timestamp baseCounter r
                 <> tmp_path type dumpDir timestamp baseCounter i)
      by (intros E; apply (tmp_path_inj type dumpDir timestamp baseCounter Hdir Hts) in E;
          lia).
    rewrite !lookup_insert_ne by assumption.
    apply (fin_fs_finalized type dumpDir timestamp baseCounter p0 Hdir Hts Hq); lia.
  - apply lookup_insert_eq.
  - unfold indices. rewrite file_slices_concat, Hbuf, app_assoc.
    rewrite Z2Nat.id by exact Hr0. rewrite slice_cat by (unfold MAX_FILE_SIZE in *; lia).
    unfold slice. change (Z.to_nat 0) with 0%nat. rewrite drop_0, Z.sub_0_r.
    apply take_drop.
Qed.

Lemma writes_reach_files_witness :
  all_but_buffer_in_files STREAM_IN demo_dir demo_timestamp 5 (quiet_process ∅)
    [["001"%byte; "002"%byte]; ["003"%byte]].
Proof.
  apply writes_reach_files.
  - reflexivity.
  - reflexivity.
  - vm_compute. lia.
  - reflexivity.
  - repeat (constructor; [split; [discriminate|reflexivity]|]). constructor.
  - vm_compute. discriminate.
Defined.

(** X6. The queue file lists what was finalized. When no call fails,
    writing any buffers to a dumper and closing it appends to the
    manager's queue file the names of the finalized files, each followed by
    a line feed, in the order of their indices, after what the file held. *)
Theorem queue_file_in_order (type : AudioStreamType) (dumpDir timestamp : string)
    (baseCounter : Z) (p0 : process) (datas : list (list byte)) :
  fault_free (w_faults (os p0)) = true ->
  nul_free dumpDir ->
  (String.length (c_str timestamp) <= 200)%nat ->
  AudioDumpManager.mQueueFilePath (instance p0)
    = AudioDumpManager.mQueueFilePath AudioDumpManager.ctor ->
  Forall sendable datas ->
  0 < total_size datas ->
  queue_file_lists type dumpDir timestamp baseCounter p0 datas.
Proof.
  intros HF Hdir Hts Hq Hall Htotal.
  destruct (ctor_Written type dumpDir timestamp baseCounter p0 HF) as (d0 & w0 & Hctor & HW0).
  destruct (WriteAll_Written type dumpDir timestamp baseCounter p0 datas [] d0 _ HW0 Hall)
    as (d & p & Hall' & HW).
  simpl app in HW. unfold queue_file_lists.
  rewrite total_size_concat in Htotal.
  set (L := concat datas) in *. set (n := Z.of_nat (length L)) in *.
  set (r := files_done n).
  assert (Hr0 : 0 <= r) by (subst r; layout_arith).
  destruct (ForceClose_Written _ _ _ _ _ L d p HW) as (buf & F & tr & Hfc & _); [lia|].
  fold n r in Hfc.
  eexists d0, w0, d, p, _, _.
  split; [exact Hctor|]. split; [exact Hall'|]. split; [exact Hfc|].
  unfold process_closed. fold n r. simpl os. simpl w_fs.
  rewrite (fin_fs_queue type dumpDir timestamp baseCounter p0 Hdir Hts Hq).
  unfold indices. now rewrite Z_to_nat_succ by exact Hr0.
Qed.

Lemma queue_file_in_order_witness :
  queue_file_lists STREAM_OUT demo_dir demo_timestamp 0 (quiet_process ∅)
    [["001"%byte; "002"%byte]; ["003"%byte]].
Proof.
  apply queue_file_in_order.
  - reflexivity.
  - reflexivity.
  - vm_compute. lia.
  - reflexivity.
  - repeat (constructor; [split; [discriminate|reflexivity]|]). constructor.
  - reflexivity.
Defined.

(** ** The manager *)

(** X7. A stream kind is dumped exactly when its own property reads [1]:
    an unset or empty property, and any other value, leave it off. *)
Theorem dump_enabled_exact (type : AudioStreamType) (w : world) :
  dump_enabled type w = true <-> w_props w !! prop_name type = Some "1".
Proof.
  unfold dump_enabled, prop_name, AudioDumpManager.IsStreamOutDumpEnabled,
    AudioDumpManager.IsStreamInDumpEnabled, property_get.
  destruct type;
    (destruct (w_props w !! _) as [v|]; [|split; discriminate];
     destruct (String.eqb_spec v "") as [->|Hne]; [split; discriminate|];
     rewrite String.eqb_eq; split; [now intros ->|now intros [= ->]]).
Qed.

(** X8. [Initialize] on a manager that is not initialized: when it
    returns true the manager is initialized, the dump directory is a
    directory, no other path changed, and any further [Initialize] returns
    true without a look at the file system; when it returns false the
    manager, the file system and the trace are as they were, and the path
    is no directory. *)
Theorem Initialize_outcome (m : AudioDumpManager.t) (w : world) :
  AudioDumpManager.mInitialized m = false ->
  let '(ok, m', w') := AudioDumpManager.Initialize m w in
  if ok then
    AudioDumpManager.mInitialized m' = true /\
    w_fs w' !! c_str (AudioDumpManager.mDumpDirectory m) = Some NDir /\
    (forall q, q <> c_str (AudioDumpManager.mDumpDirectory m) ->
               w_fs w' !! q = w_fs w !! q) /\
    (forall w2, AudioDumpManager.Initialize m' w2 = (true, m', w2))
  else
    m' = m /\ w_fs w' = w_fs w /\ w_trace w' = w_trace w /\
    w_fs w !! c_str (AudioDumpManager.mDumpDirectory m) <> Some NDir.
Proof.
  intros Hinit.
  unfold AudioDumpManager.Initialize, AudioDumpManager.EnsureDumpDirectory, sys_mkdir,
    sys_stat, outcome.
  rewrite Hinit.
  destruct (w_fs w !! c_str (AudioDumpManager.mDumpDirectory m)) as [[c|]|] eqn:E.
  - simpl. split_and!; auto; discriminate.
  - simpl. split_and!; auto.
  - destruct (hd true _); simpl.
    + split_and!; auto.
      * unfold apply_event. apply lookup_insert_eq.
      * intros q Hq. unfold apply_event. now apply lookup_insert_ne.
    + split_and!; auto; discriminate.
Qed.

Lemma Initialize_outcome_witness :
  let '(ok, m', w') := AudioDumpManager.Initialize AudioDumpManager.ctor (quiet_world ∅) in
  if ok then
    AudioDumpManager.mInitialized m' = true /\
    w_fs w' !! c_str (AudioDumpManager.mDumpDirectory AudioDumpManager.ctor) = Some NDir /\
    (forall q, q <> c_str (AudioDumpManager.mDumpDirectory AudioDumpManager.ctor) ->
               w_fs w' !! q = w_fs (quiet_world ∅) !! q) /\
    (forall w2, AudioDumpManager.Initialize m' w2 = (true, m', w2))
  else
    m' = AudioDumpManager.ctor /\ w_fs w' = w_fs (quiet_world ∅) /\
    w_trace w' = w_trace (quiet_world ∅) /\
    w_fs (quiet_world ∅) !! c_str (AudioDumpManager.mDumpDirectory AudioDumpManager.ctor)
    <> Some NDir.
Proof. apply (Initialize_outcome AudioDumpManager.ctor (quiet_world ∅)). reflexivity. Defined.

(** X9. With the switch on, a manager that is not initialized and a dump
    directory that cannot be made ready, [CreateStreamDumper] returns no
    dumper, takes no counter, leaves the manager uninitialized and does
    nothing to the file system. *)
Theorem CreateStreamDumper_no_directory (type : AudioStreamType) (timestamp : string)
    (p : process) :
  dump_enabled type (os p) = true ->
  AudioDumpManager.mInitialized (instance p) = false ->
  directory_unavailable (instance p) (os p) ->
  let '(r, p') := CreateStreamDumper type timestamp p in
  r = None /\ instance p' = instance p /\
  w_fs (os p') = w_fs (os p) /\ w_trace (os p') = w_trace (os p).
Proof.
  intros Hen Hinit Hdir. unfold CreateStreamDumper.
  replace (match type with
           | STREAM_OUT => AudioDumpManager.IsStreamOutDumpEnabled (os p)
           | STREAM_IN => AudioDumpManager.IsStreamInDumpEnabled (os p)
           end) with true by (symmetry; exact Hen).
  rewrite Hinit. cbn [negb].
  unfold AudioDumpManager.Initialize, AudioDumpManager.EnsureDumpDirectory, sys_mkdir,
    sys_stat, outcome.
  rewrite Hinit.
  destruct Hdir as [[c Hc]|[Hnone Hfail]].
  - rewrite Hc. simpl. auto.
  - rewrite Hnone, Hfail. simpl. auto.
Qed.

Lemma CreateStreamDumper_no_directory_witness :
  let '(r, p') := CreateStreamDumper STREAM_OUT demo_timestamp blocked_process in
  r = None /\ instance p' = instance blocked_process /\
  w_fs (os p') = w_fs (os blocked_process) /\
  w_trace (os p') = w_trace (os blocked_process).
Proof.
  apply (CreateStreamDumper_no_directory STREAM_OUT demo_timestamp blocked_process).
  - reflexivity.
  - reflexivity.
  - left. exists []. reflexivity.
Defined.

(** X10. [OnDumpFileCompleted] records the name at the back of the queue
    and logs the notification whether or not the queue file can be
    written; when it can, the queue file gains the name and a line feed
    at its end; no other path changes. *)
Theorem OnDumpFileCompleted_outcome (filename : string) (m : AudioDumpManager.t)
    (w : world) :
  let '(m', w') := AudioDumpManager.OnDumpFileCompleted filename m w in
  AudioDumpManager.mCompletedFiles m'
    = AudioDumpManager.mCompletedFiles m ++ [filename] /\
  notifications (w_trace w')
    = notifications (w_trace w) ++ [AudioDumpManager.READY_TAG +:+ c_str filename] /\
  (forall x, x <> c_str (AudioDumpManager.mQueueFilePath m) ->
             w_fs w' !! x = w_fs w !! x) /\
  (if hd true (get_faults SysAppend (w_faults w))
   then file_content (w_fs w') (c_str (AudioDumpManager.mQueueFilePath m))
        = file_content (w_fs w) (c_str (AudioDumpManager.mQueueFilePath m))
            ++ list_byte_of_string (filename +:+ newline)
   else w_fs w' = w_fs w).
Proof.
  unfold AudioDumpManager.OnDumpFileCompleted, AudioDumpManager.AppendToQueueFile, outcome.
  destruct (hd true _); simpl.
  - split_and!; auto.
    + rewrite !notifications_app. simpl. now rewrite app_nil_r.
    + intros x Hx. unfold apply_event. now apply lookup_insert_ne.
    + unfold file_content at 1. unfold apply_event. now rewrite lookup_insert_eq.
  - split_and!; auto. rewrite notifications_app. reflexivity.
Qed.

(** ** What calls on a dumper leave alone *)

Ltac grows :=
  first [ solve [exists []; now rewrite app_nil_r]
        | solve [repeat rewrite <- app_assoc; eexists; reflexivity] ].

Ltac identity :=
  unfold keeps_identity; simpl; split_and!; auto; try grows.

Lemma keeps_identity_refl d p : keeps_identity d p d p.
Proof. identity. Qed.

Lemma keeps_identity_trans d1 p1 d2 p2 d3 p3 :
  keeps_identity d1 p1 d2 p2 -> keeps_identity d2 p2 d3 p3 -> keeps_identity d1 p1 d3 p3.
Proof.
  intros (A1 & A2 & A3 & A4 & A5 & A6 & A7 & A8 & A9 & A10 & [n1 A11] & [t1 A12])
         (B1 & B2 & B3 & B4 & B5 & B6 & B7 & B8 & B9 & B10 & [n2 B11] & [t2 B12]).
  unfold keeps_identity. split_and!; try congruence; auto.
  - exists (n1 ++ n2). now rewrite B11, A11, app_assoc.
  - exists (t1 ++ t2). now rewrite B12, A12, app_assoc.
Qed.

Lemma wrap_u32_range x : 0 <= wrap_u32 x < U32_MODULUS.
Proof. unfold wrap_u32, U32_MODULUS. apply Z.mod_pos_bound. lia. Qed.

Lemma OpenNewFile_keeps d p ok d' w' :
  OpenNewFile d (os p) = (ok, d', w') ->
  keeps_identity d p d' (with_os w' p) /\ mIsValid d' = mIsValid d /\
  (is_open (mFile d) = false ->
   is_open (mFile d') = ok /\ (ok = true -> mBufferOffset d' = 0)).
Proof.
  unfold OpenNewFile, ofs_open, outcome. simpl.
  destruct (is_open (mFile d)) eqn:Ho; simpl.
  - intros [= <- <- <-]. split; [|split; [reflexivity|discriminate]].
    identity. intros _. apply wrap_u32_range.
  - destruct (hd true _); simpl; intros [= <- <- <-].
    + split; [|split; [reflexivity|auto]]. identity. intros _. apply wrap_u32_range.
    + split; [|split; [reflexivity|]]; [identity|]. split; [reflexivity|discriminate].
Qed.

Lemma CloseCurrentFile_keeps complete d p d' p' :
  CloseCurrentFile complete d p = (d', p') ->
  keeps_identity d p d' p' /\ is_open (mFile d') = false /\
  mIsValid d' = mIsValid d /\ mBufferOffset d' = mBufferOffset d.
Proof.
  unfold CloseCurrentFile, ofs_close.
  destruct (is_open (mFile d)) eqn:Ho; simpl.
  2:{ intros [= <- <-]. split; [apply keeps_identity_refl|auto]. }
  destruct (complete && _).
  - unfold sys_rename, outcome. simpl.
    destruct (apply_event _ _ !! _); [|intros [= <- <-]; split; [identity|auto]].
    destruct (hd true _); simpl.
    + unfold AudioDumpManager.OnDumpFileCompleted, AudioDumpManager.AppendToQueueFile,
        outcome. simpl.
      destruct (hd true _); simpl; intros [= <- <-]; (split; [identity|auto]).
    + intros [= <- <-]. split; [identity|auto].
  - unfold sys_unlink. simpl. intros [= <- <-]. split; [identity|auto].
Qed.

Lemma ofs_write_keeps data f w f' w' :
  ofs_write data f w = (f', w') ->
  is_open f' = is_open f /\ w_props w' = w_props w /\
  exists tr, w_trace w' = w_trace w ++ tr.
Proof.
  unfold ofs_write, outcome.
  destruct (is_open f) eqn:Ho; simpl; [destruct (good f); simpl; [destruct (hd true _)|]|];
    intros [= <- <-]; simpl; split_and!; auto; grows.
Qed.

Lemma ofs_flush_keeps f w f' w' :
  ofs_flush f w = (f', w') ->
  is_open f' = is_open f /\ w_props w' = w_props w /\
  exists tr, w_trace w' = w_trace w ++ tr.
Proof.
  unfold ofs_flush, outcome.
  destruct (is_open f) eqn:Ho; simpl; [destruct (good f); simpl; [destruct (hd true _)|]|];
    intros [= <- <-]; simpl; split_and!; auto; grows.
Qed.

Lemma FlushBuffer_keeps d p ok d' w' :
  FlushBuffer d (os p) = (ok, d', w') ->
  keeps_identity d p d' (with_os w' p) /\ is_open (mFile d') = is_open (mFile d) /\
  mIsValid d' = mIsValid d /\ (ok = true -> mBufferOffset d' = 0).
Proof.
  unfold FlushBuffer.
  destruct (Z.eqb_spec (mBufferOffset d) 0) as [E0|E0].
  { intros [= <- <- <-]. split; [identity|auto]. }
  destruct (is_open (mFile d)) eqn:Ho; simpl.
  2:{ intros [= <- <- <-]. split; [identity|]. split_and!; auto; discriminate. }
  destruct (ofs_write _ (mFile d) (os p)) as [f w1] eqn:Ew.
  apply ofs_write_keeps in Ew. destruct Ew as (Hof & Hprops & Htr). rewrite Ho in Hof.
  destruct (good f); simpl; intros [= <- <- <-]; simpl;
    (split; [identity|split_and!; auto; discriminate]).
Qed.

Lemma rotate_keeps d p opened d' p' :
  Usable d -> mIsValid d = true ->
  (if MAX_FILE_SIZE <=? mCurrentFileSize d then
     let '(d, p) := CloseCurrentFile true d p in
     let '(ok, d, w) := OpenNewFile d (os p) in
     (ok, d, with_os w p)
   else (true, d, p)) = (opened, d', p') ->
  keeps_identity d p d' p' /\ mIsValid d' = true /\
  (opened = true ->
   is_open (mFile d') = true /\ 0 <= mBufferOffset d' < BUFFER_SIZE).
Proof.
  intros HU Hv.
  destruct (MAX_FILE_SIZE <=? mCurrentFileSize d).
  2:{ intros [= <- <- <-]. split; [apply keeps_identity_refl|]. split; auto. }
  destruct (CloseCurrentFile true d p) as [d1 p1] eqn:Hc.
  destruct (CloseCurrentFile_keeps _ _ _ _ _ Hc) as (Hk1 & Ho1 & Hv1 & _).
  destruct (OpenNewFile d1 (os p1)) as [[ok d2] w2] eqn:Hopen.
  destruct (OpenNewFile_keeps _ _ _ _ _ Hopen) as (Hk2 & Hv2 & Hok).
  destruct (Hok Ho1) as [Ho2 Hoff].
  intros [= <- <- <-].
  split; [exact (keeps_identity_trans _ _ _ _ _ _ Hk1 Hk2)|].
  split; [congruence|].
  intros ->. split; [exact Ho2|]. rewrite (Hoff eq_refl). unfold BUFFER_SIZE. lia.
Qed.

Lemma keeps_identity_dumper d p d' d'' p' :
  keeps_identity d p d' p' ->
  mType d'' = mType d' -> mDumpDirectory d'' = mDumpDirectory d' ->
  mTimestamp d'' = mTimestamp d' -> mBaseCounter d'' = mBaseCounter d' ->
  mFileIndex d'' = mFileIndex d' ->
  keeps_identity d p d'' p'.
Proof.
  intros (A1 & A2 & A3 & A4 & A5 & A6 & A7 & A8 & A9 & A10 & A11 & A12) E1 E2 E3 E4 E5.
  unfold keeps_identity. rewrite E1, E2, E3, E4, E5. split_and!; auto.
Qed.

Lemma WriteTurn_keeps data d p :
  Usable d -> mIsValid d = true -> data <> [] ->
  match WriteTurn data d p with
  | inl (d', p') => keeps_identity d p d' p' /\ mIsValid d' = false
  | inr (c, data', d', p') =>
      keeps_identity d p d' p' /\ Usable d' /\ mIsValid d' = true /\
      1 <= c <= Z.of_nat (length data) /\ data' = drop (Z.to_nat c) data
  end.
Proof.
  intros HU Hv Hdata. unfold WriteTurn.
  destruct (if MAX_FILE_SIZE <=? mCurrentFileSize d then _ else _)
    as [[opened d1] p1] eqn:Hrot.
  destruct (rotate_keeps _ _ _ _ _ HU Hv Hrot) as (Hk1 & Hv1 & Hop).
  destruct opened; cbn [negb].
  2:{ split; [|reflexivity]. apply (keeps_identity_dumper _ _ d1); auto. }
  destruct (Hop eq_refl) as [Ho1 Hoff1].
  set (c := Z.min (Z.of_nat (length data)) (wrap_size (BUFFER_SIZE - mBufferOffset d1))).
  assert (Hc : 1 <= c <= BUFFER_SIZE - mBufferOffset d1 /\ c <= Z.of_nat (length data)).
  { subst c. unfold wrap_size, SIZE_MODULUS, BUFFER_SIZE in *.
    rewrite Z.mod_small by lia. destruct data; [congruence|]. simpl length. lia. }
  cbv zeta. fold c.
  set (d2 := with_mBufferOffset _ _).
  assert (Hk2 : keeps_identity d p d2 p1)
    by (apply (keeps_identity_dumper _ _ d1); auto).
  assert (Hoff2 : mBufferOffset d2 = mBufferOffset d1 + c).
  { subst d2. simpl. unfold wrap_size, SIZE_MODULUS, BUFFER_SIZE in *.
    rewrite Z.mod_small; lia. }
  assert (Ho2 : is_open (mFile d2) = true) by exact Ho1.
  assert (Hv2 : mIsValid d2 = true) by exact Hv1.
  clearbody d2.
  destruct (if BUFFER_SIZE <=? mBufferOffset d2 then _ else _)
    as [[fl d3] w3] eqn:Hfl.
  assert (H3 : keeps_identity d2 p1 d3 (with_os w3 p1) /\
               is_open (mFile d3) = true /\ mIsValid d3 = true /\
               (fl = true -> 0 <= mBufferOffset d3 < BUFFER_SIZE)).
  { destruct (Z.leb_spec BUFFER_SIZE (mBufferOffset d2)) as [Hfull|Hroom].
    - destruct (FlushBuffer_keeps _ _ _ _ _ Hfl) as (Hk & Ho3 & Hv3 & Hz).
      split_and!; auto; try congruence.
      intros E. rewrite (Hz E). unfold BUFFER_SIZE. lia.
    - injection Hfl as <- <- <-. split_and!; auto; [identity|]. intros _. lia. }
  destruct H3 as (Hk3 & Ho3 & Hv3 & Hoff3).
  pose proof (keeps_identity_trans _ _ _ _ _ _ Hk2 Hk3) as Hk13.
  destruct fl; cbn [negb].
  2:{ split; [|reflexivity]. apply (keeps_identity_dumper _ _ d3); auto. }
  destruct (if FLUSH_THRESHOLD <=? mBytesSinceFlush d3 then _ else _)
    as [d4 w4] eqn:Hth.
  assert (H4 : keeps_identity d3 (with_os w3 p1) d4 (with_os w4 p1) /\
               is_open (mFile d4) = true /\ mIsValid d4 = true /\
               mBufferOffset d4 = mBufferOffset d3).
  { destruct (FLUSH_THRESHOLD <=? mBytesSinceFlush d3).
    - destruct (ofs_flush (mFile d3) w3) as [f w] eqn:Ef.
      destruct (ofs_flush_keeps _ _ _ _ Ef) as (Hof & Hprops & Htr).
      injection Hth as <- <-. simpl. split_and!; auto; [identity|congruence].
    - injection Hth as <- <-. split_and!; auto. identity. }
  destruct H4 as (Hk4 & Ho4 & Hv4 & Hoff4).
  split; [exact (keeps_identity_trans _ _ _ _ _ _ Hk13 Hk4)|].
  split; [|split_and!; auto; lia].
  intros _. split; [exact Ho4|]. rewrite Hoff4. auto.
Qed.

Lemma WriteLoop_keeps fuel : forall data tw d p,
  Usable d -> mIsValid d = true -> (length data < fuel)%nat ->
  0 <= tw < SIZE_MODULUS ->
  exists r d' p',
    WriteLoop fuel data tw d p = Some (r, d', p') /\
    keeps_identity d p d' p' /\ Usable d' /\
    ((r = to_ssize (wrap_size (tw + Z.of_nat (length data))) /\ mIsValid d' = true) \/
     (r = -1 /\ mIsValid d' = false)).
Proof.
  induction fuel as [|fuel IH]; intros data tw d p HU Hv Hfuel Htw; [lia|].
  destruct data as [|b data'] eqn:Edata.
  { exists (to_ssize tw), d, p. split; [reflexivity|].
    split; [apply keeps_identity_refl|]. split; [exact HU|]. left. split; [|exact Hv].
    change (Z.of_nat (length (@nil byte))) with 0. rewrite Z.add_0_r.
    unfold wrap_size. now rewrite Z.mod_small. }
  rewrite <- Edata in *.
  assert (Hne : data <> []) by (rewrite Edata; discriminate).
  pose proof (WriteTurn_keeps data d p HU Hv Hne) as Hturn.
  assert (Hstep : WriteLoop (S fuel) data tw d p
                  = match WriteTurn data d p with
                    | inl (d, p) => Some (-1, d, p)
                    | inr (bytesToCopy, data, d, p) =>
                        WriteLoop fuel data (wrap_size (tw + bytesToCopy)) d p
                    end).
  { rewrite Edata at 1. cbn [WriteLoop]. now rewrite <- Edata. }
  rewrite Hstep. clear Hstep.
  destruct (WriteTurn data d p) as [[d1 p1]|[[[c data1] d1] p1]].
  - destruct Hturn as (Hk1 & Hv1).
    exists (-1), d1, p1. split_and!; auto. now apply Usable_invalid.
  - destruct Hturn as (Hk1 & HU1 & Hv1 & Hc & ->).
    destruct (IH (drop (Z.to_nat c) data) (wrap_size (tw + c)) d1 p1 HU1 Hv1)
      as (r & d' & p' & Hloop & Hk2 & HU' & Hres).
    + rewrite length_drop. lia.
    + unfold wrap_size, SIZE_MODULUS. apply Z.mod_pos_bound. lia.
    + exists r, d', p'. split; [exact Hloop|].
      split; [exact (keeps_identity_trans _ _ _ _ _ _ Hk1 Hk2)|]. split; [exact HU'|].
      destruct Hres as [[-> Hv']|Hres]; [left|right; exact Hres].
      split; [|exact Hv']. f_equal. rewrite length_drop.
      unfold wrap_size, SIZE_MODULUS. rewrite Zplus_mod_idemp_l. f_equal. lia.
Qed.

Lemma to_ssize_sendable data :
  sendable data -> to_ssize (wrap_size (0 + Z.of_nat (length data))) = Z.of_nat (length data).
Proof.
  intros [_ Hlim]. unfold to_ssize, wrap_size, SIZE_MODULUS, SSIZE_LIMIT in *.
  rewrite Z.add_0_l, Z.mod_small by lia.
  destruct (Z.ltb_spec (Z.of_nat (length data)) 9223372036854775808); lia.
Qed.

Lemma WriteData_keeps buffer d p :
  Usable d ->
  exists r d' p',
    WriteData buffer d p = Some (r, d', p') /\
    keeps_identity d p d' p' /\ Usable d' /\
    (forall data, buffer = Some data -> sendable data -> all_or_error data r d').
Proof.
  intros HU. unfold WriteData.
  destruct buffer as [data|].
  2:{ exists (-1), d, p. split_and!; auto using keeps_identity_refl. discriminate. }
  destruct (mIsValid d) eqn:Hv; cbn [negb orb].
  2:{ exists (-1), d, p. split_and!; auto using keeps_identity_refl.
      intros ? _ _. right. auto. }
  destruct (Z.eqb_spec (Z.of_nat (length data)) 0) as [E0|E0].
  { exists (-1), d, p. split_and!; auto using keeps_identity_refl.
    intros ? [= <-] [Hne _]. destruct data; [congruence|discriminate]. }
  destruct (WriteLoop_keeps (S (length data)) data 0 d p HU Hv)
    as (r & d' & p' & Hloop & Hk & HU' & Hres); [lia|unfold SIZE_MODULUS; lia|].
  exists r, d', p'. split_and!; auto.
  intros ? [= <-] Hs. unfold all_or_error, IsValid.
  rewrite (to_ssize_sendable _ Hs) in Hres. exact Hres.
Qed.

Lemma ForceClose_keeps d p d' p' :
  ForceClose d p = (d', p') ->
  keeps_identity d p d' p' /\ Usable d' /\
  is_open (mFile d') = false /\ mIsValid d' = false.
Proof.
  intros Hf.
  pose proof (ForceClose_closed d p) as [Ho Hv]. rewrite Hf in Ho, Hv. simpl in Ho, Hv.
  split; [|split; [now apply Usable_invalid|auto]].
  revert Hf. unfold ForceClose.
  destruct (is_open (mFile d)) eqn:Hopen.
  2:{ intros [= <- <-]. apply (keeps_identity_dumper _ _ d); auto using keeps_identity_refl. }
  destruct (if 0 <? mBufferOffset d then _ else _) as [d1 w1] eqn:Hfl.
  assert (H1 : keeps_identity d p d1 (with_os w1 p)).
  { destruct (0 <? mBufferOffset d).
    - destruct (ofs_write _ (mFile d) (os p)) as [f w] eqn:Ew.
      destruct (ofs_write_keeps _ _ _ _ _ Ew) as (_ & Hprops & Htr).
      injection Hfl as <- <-. identity.
    - injection Hfl as <- <-. identity. }
  destruct (CloseCurrentFile true d1 (with_os w1 p)) as [d2 p2] eqn:Hc.
  destruct (CloseCurrentFile_keeps _ _ _ _ _ Hc) as (Hk2 & _).
  intros [= <- <-].
  apply (keeps_identity_dumper _ _ d2); auto.
  exact (keeps_identity_trans _ _ _ _ _ _ H1 Hk2).
Qed.

Lemma ctor_keeps type dumpDir timestamp baseCounter p0 d0 w0 :
  ctor type dumpDir timestamp baseCounter (os p0) = (d0, w0) ->
  keeps_identity (seed type dumpDir timestamp baseCounter) p0 d0 (with_os w0 p0) /\
  Usable d0.
Proof.
  rewrite ctor_seed.
  destruct (OpenNewFile (seed type dumpDir timestamp baseCounter) (os p0))
    as [[ok d1] w1] eqn:Hopen.
  destruct (OpenNewFile_keeps _ _ _ _ _ Hopen) as (Hk & Hv & Hok).
  destruct (Hok eq_refl) as [Ho Hoff].
  destruct ok; intros [= <- <-].
  - split; [apply (keeps_identity_dumper _ _ d1); auto|].
    intros _. simpl. split; [exact Ho|]. rewrite (Hoff eq_refl). unfold BUFFER_SIZE. lia.
  - split; [exact Hk|]. apply Usable_invalid. now rewrite Hv.
Qed.

Lemma Calls_keeps cs : forall d p,
  Usable d ->
  exists d' p',
    Calls cs d p = Some (d', p') /\ keeps_identity d p d' p' /\ Usable d'.
Proof.
  induction cs as [|c cs IH]; intros d p HU.
  { exists d, p. split_and!; auto using keeps_identity_refl. }
  destruct c as [buffer|]; cbn [Calls].
  - destruct (WriteData_keeps buffer d p HU) as (r & d1 & p1 & Hw & Hk1 & HU1 & _).
    rewrite Hw. destruct (IH d1 p1 HU1) as (d' & p' & Hcs & Hk2 & HU').
    exists d', p'. split_and!; auto.
    exact (keeps_identity_trans _ _ _ _ _ _ Hk1 Hk2).
  - destruct (ForceClose d p) as [d1 p1] eqn:Hf.
    destruct (ForceClose_keeps _ _ _ _ Hf) as (Hk1 & HU1 & _).
    destruct (IH d1 p1 HU1) as (d' & p' & Hcs & Hk2 & HU').
    exists d', p'. split_and!; auto.
    exact (keeps_identity_trans _ _ _ _ _ _ Hk1 Hk2).
Qed.

Lemma run_keeps type dumpDir timestamp baseCounter p0 cs :
  exists d p,
    run type dumpDir timestamp baseCounter p0 cs = Some (d, p) /\
    keeps_identity (seed type dumpDir timestamp baseCounter) p0 d p /\ Usable d.
Proof.
  unfold run.
  destruct (ctor type dumpDir timestamp baseCounter (os p0)) as [d0 w0] eqn:Hctor.
  destruct (ctor_keeps _ _ _ _ _ _ _ Hctor) as (Hk0 & HU0).
  destruct (Calls_keeps cs d0 (with_os w0 p0) HU0) as (d & p & Hcs & Hk & HU).
  exists d, p. split_and!; auto.
  exact (keeps_identity_trans _ _ _ _ _ _ Hk0 Hk).
Qed.

(** X11. [WriteData] never reports a partial write. On a dumper in any
    state that construction and calls lead to, whichever system calls
    fail, [WriteData] with a buffer that is not empty returns: either
    the size given, and the dumper is valid, or -1, and the dumper is not
    valid when it returns. *)
Theorem WriteData_all_or_error (type : AudioStreamType) (dumpDir timestamp : string)
    (baseCounter : Z) (p0 : process) (cs : list call) (data : list byte) :
  sendable data ->
  exists d p r d' p',
    run type dumpDir timestamp baseCounter p0 cs = Some (d, p) /\
    WriteData (Some data) d p = Some (r, d', p') /\
    all_or_error data r d'.
Proof.
  intros Hs.
  destruct (run_keeps type dumpDir timestamp baseCounter p0 cs) as (d & p & Hrun & _ & HU).
  destruct (WriteData_keeps (Some data) d p HU) as (r & d' & p' & Hw & _ & _ & Hres).
  exists d, p, r, d', p'. split_and!; auto.
Qed.

Lemma WriteData_all_or_error_witness :
  exists d p r d' p',
    run STREAM_OUT demo_dir demo_timestamp 0 rename_fails_process
      [CallWriteData (Some ["001"%byte]); CallForceClose] = Some (d, p) /\
    WriteData (Some ["002"%byte; "003"%byte]) d p = Some (r, d', p') /\
    all_or_error ["002"%byte; "003"%byte] r d'.
Proof.
  apply WriteData_all_or_error. split; [discriminate|reflexivity].
Defined.

(** X12. Calls on a dumper leave its identity and the manager alone.
    Whatever calls are made on a dumper after its construction, whichever
    system calls fail, the dumper keeps the stream type, directory,
    timestamp and base counter it was constructed with and a file index
    within 32 bits; the manager keeps its counter, directory, queue file
    path and initialized flag, and its list of completed files only grows;
    no system property is written. *)
Theorem calls_keep_identity (type : AudioStreamType) (dumpDir timestamp : string)
    (baseCounter : Z) (p0 : process) (cs : list call) :
  exists d p,
    run type dumpDir timestamp baseCounter p0 cs = Some (d, p) /\
    keeps_identity (seed type dumpDir timestamp baseCounter) p0 d p.
Proof.
  destruct (run_keeps type dumpDir timestamp baseCounter p0 cs) as (d & p & Hrun & Hk & _).
  exists d, p. auto.
Qed.

Lemma Calls_closed cs : forall d p,
  is_open (mFile d) = false -> mIsValid d = false -> Calls cs d p = Some (d, p).
Proof.
  induction cs as [|c cs IH]; intros d p Ho Hv; [reflexivity|].
  destruct c as [buffer|]; cbn [Calls].
  - rewrite (WriteData_invalid buffer d p Hv). now apply IH.
  - rewrite (ForceClose_noop d p Ho Hv). now apply IH.
Qed.

(** X13. A closed dumper is inert. Once [ForceClose] has returned, the
    dumper is not valid, [WriteData] returns -1 whatever the buffer, and
    no sequence of calls changes the dumper or anything in the process. *)
Theorem closed_dumper_inert (d : StreamDumper.t) (p : process) (cs : list call)
    (buffer : option (list byte)) :
  let '(d1, p1) := ForceClose d p in
  IsValid d1 = false /\
  WriteData buffer d1 p1 = Some (-1, d1, p1) /\
  Calls cs d1 p1 = Some (d1, p1).
Proof.
  pose proof (ForceClose_closed d p) as [Ho Hv].
  destruct (ForceClose d p) as [d1 p1]. simpl in Ho, Hv.
  split; [exact Hv|]. split; [now apply WriteData_invalid|now apply Calls_closed].
Qed.

Lemma WriteLoop_turn fuel data tw d p :
  data <> [] ->
  WriteLoop (S fuel) data tw d p
  = match WriteTurn data d p with
    | inl (d', p') => Some (-1, d', p')
    | inr (bytesToCopy, rest, d', p') =>
        WriteLoop fuel rest (wrap_size (tw + bytesToCopy)) d' p'
    end.
Proof. intros Hne. destruct data; [congruence|reflexivity]. Qed.

Lemma WriteLoop_done fuel tw d p : WriteLoop fuel [] tw d p = Some (to_ssize tw, d, p).
Proof. destruct fuel; reflexivity. Qed.

(** X14. A write that fits in the free part of the buffer is only
    buffered. On a valid dumper whose file is below [MAX_FILE_SIZE] and
    whose periodic flush is not due, [WriteData] with fewer bytes than the
    buffer has free copies them into the buffer at [mBufferOffset],
    advances the offset, returns their number, and makes no system call:
    the process is as it was. *)
Theorem WriteData_buffered (d : StreamDumper.t) (p : process) (data : list byte) :
  mIsValid d = true ->
  data <> [] ->
  0 <= mBufferOffset d ->
  Z.of_nat (length data) < BUFFER_SIZE - mBufferOffset d ->
  mCurrentFileSize d < MAX_FILE_SIZE ->
  mBytesSinceFlush d < FLUSH_THRESHOLD ->
  WriteData (Some data) d p
  = Some (Z.of_nat (length data),
          with_mBufferOffset (mBufferOffset d + Z.of_nat (length data))
            (with_mBuffer (memcpy_at (mBuffer d) (mBufferOffset d) data) d),
          p).
Proof.
  intros Hv Hne Hoff Hfit Hsize Hflush.
  assert (Hn : 0 < Z.of_nat (length data)) by (destruct data; [congruence|simpl length; lia]).
  unfold WriteData. rewrite Hv. cbn [negb orb].
  destruct (Z.eqb_spec (Z.of_nat (length data)) 0) as [E|_]; [lia|].
  assert (Hturn : WriteTurn data d p
                  = inr (Z.of_nat (length data), [],
                         with_mBufferOffset (mBufferOffset d + Z.of_nat (length data))
                           (with_mBuffer (memcpy_at (mBuffer d) (mBufferOffset d) data) d),
                         p)).
  { unfold WriteTurn.
    destruct (Z.leb_spec MAX_FILE_SIZE (mCurrentFileSize d)) as [?|_]; [lia|].
    cbn [negb]. cbv zeta.
    assert (Hc : Z.min (Z.of_nat (length data)) (wrap_size (BUFFER_SIZE - mBufferOffset d))
                 = Z.of_nat (length data)).
    { unfold wrap_size, SIZE_MODULUS, BUFFER_SIZE in *. rewrite Z.mod_small; lia. }
    rewrite Hc, Nat2Z.id, firstn_all, drop_all. simpl.
    assert (Hw : wrap_size (mBufferOffset d + Z.of_nat (length data))
                 = mBufferOffset d + Z.of_nat (length data)).
    { unfold wrap_size, SIZE_MODULUS, BUFFER_SIZE in *. rewrite Z.mod_small; lia. }
    rewrite Hw.
    destruct (Z.leb_spec BUFFER_SIZE (mBufferOffset d + Z.of_nat (length data))) as [?|_];
      [lia|].
    cbn [negb]. simpl.
    destruct (Z.leb_spec FLUSH_THRESHOLD (mBytesSinceFlush d)) as [?|_]; [lia|].
    destruct p; reflexivity. }
  rewrite (WriteLoop_turn _ _ _ _ _ Hne), Hturn, WriteLoop_done. do 3 f_equal.
  unfold to_ssize, wrap_size, SIZE_MODULUS, SSIZE_LIMIT, BUFFER_SIZE in *.
  rewrite Z.add_0_l, Z.mod_small by lia.
  destruct (Z.ltb_spec (Z.of_nat (length data)) 9223372036854775808); lia.
Qed.

Lemma WriteData_buffered_witness :
  WriteData (Some ["001"%byte])
    (ctor STREAM_OUT demo_dir demo_timestamp 0 (quiet_world ∅)).1 (quiet_process ∅)
  = Some (Z.of_nat (length ["001"%byte]),
          with_mBufferOffset
            (mBufferOffset (ctor STREAM_OUT demo_dir demo_timestamp 0 (quiet_world ∅)).1
             + Z.of_nat (length ["001"%byte]))
            (with_mBuffer
               (memcpy_at
                  (mBuffer (ctor STREAM_OUT demo_dir demo_timestamp 0 (quiet_world ∅)).1)
                  (mBufferOffset (ctor STREAM_OUT demo_dir demo_timestamp 0 (quiet_world ∅)).1)
                  ["001"%byte])
               (ctor STREAM_OUT demo_dir demo_timestamp 0 (quiet_world ∅)).1),
          quiet_process ∅).
Proof.
  apply WriteData_buffered.
  - vm_compute. reflexivity.
  - discriminate.
  - vm_compute. discriminate.
  - vm_compute. reflexivity.
  - vm_compute. reflexivity.
  - vm_compute. reflexivity.
Defined.

(** ** Creation through the manager, again *)

Lemma ctor_created type dumpDir timestamp baseCounter w d w' :
  ctor type dumpDir timestamp baseCounter w = (d, w') ->
  IsValid d = is_open (mFile d) /\
  GetFileCount d = (if IsValid d then 1 else 0) /\
  (IsValid d = false -> w_fs w' = w_fs w /\ w_trace w' = w_trace w).
Proof.
  unfold ctor, OpenNewFile, ofs_open, outcome. simpl.
  destruct (hd true _); simpl; intros [= <- <-]; simpl; split_and!; auto; discriminate.
Qed.

Lemma CreateStreamDumper_some type timestamp p d p' :
  CreateStreamDumper type timestamp p = (Some d, p') ->
  exists pb,
    ctor type (AudioDumpManager.mDumpDirectory (instance p)) timestamp
      (AudioDumpManager.mFileCounter (instance p)) (os pb) = (d, os p') /\
    dump_enabled type (os p) = true /\
    AudioDumpManager.mFileCounter (instance p')
      = wrap_u32 (AudioDumpManager.mFileCounter (instance p) + 1) /\
    AudioDumpManager.mDumpDirectory (instance p')
      = AudioDumpManager.mDumpDirectory (instance p) /\
    AudioDumpManager.mInitialized (instance p') = true.
Proof.
  unfold CreateStreamDumper.
  change (match type with
          | STREAM_OUT => AudioDumpManager.IsStreamOutDumpEnabled (os p)
          | STREAM_IN => AudioDumpManager.IsStreamInDumpEnabled (os p)
          end) with (dump_enabled type (os p)).
  destruct (dump_enabled type (os p)); cbn [negb]; [|discriminate].
  destruct (if negb (AudioDumpManager.mInitialized (instance p)) then _ else _)
    as [[ok m] w] eqn:Hinit.
  assert (Hm : ok = true ->
               AudioDumpManager.mDumpDirectory m
                 = AudioDumpManager.mDumpDirectory (instance p) /\
               AudioDumpManager.mFileCounter m
                 = AudioDumpManager.mFileCounter (instance p) /\
               AudioDumpManager.mInitialized m = true).
  { destruct (AudioDumpManager.mInitialized (instance p)) eqn:Hi; cbn [negb] in Hinit.
    - injection Hinit as <- <- <-. auto.
    - revert Hinit. unfold AudioDumpManager.Initialize. rewrite Hi.
      destruct (AudioDumpManager.EnsureDumpDirectory _ _) as [[] w1];
        intros [= <- <- <-]; [auto|discriminate]. }
  destruct ok; cbn [negb]; [|discriminate].
  destruct (Hm eq_refl) as (Hd & Hc & Hi).
  unfold AudioDumpManager.GetNextCounter. simpl. rewrite Hd, Hc.
  destruct (ctor _ _ _ _ w) as [d0 w0] eqn:Hctor.
  intros [= <- <-]. exists {| instance := m; os := w |}. simpl. auto.
Qed.

(** X15. What [CreateStreamDumper] returns. A dumper, and then the switch
    of its stream type is on, the dumper carries that type, the manager's
    directory, the timestamp of the call and the counter the manager had,
    the manager is initialized and its counter is one further (modulo
    2^32), and the dumper is valid exactly when its first file is open,
    which is then its only file; or no dumper, and then the manager, its
    counter included, the file system and the trace are as they were. *)
Theorem CreateStreamDumper_outcome (type : AudioStreamType) (timestamp : string)
    (p : process) :
  let '(r, p') := CreateStreamDumper type timestamp p in
  created type timestamp p r p'.
Proof.
  destruct (CreateStreamDumper type timestamp p) as [[d|] p'] eqn:Hc.
  - destruct (CreateStreamDumper_some _ _ _ _ _ Hc) as (pb & Hctor & Hen & Hcnt & Hdir & Hi).
    destruct (ctor_keeps _ _ _ _ _ _ _ Hctor) as ((A1 & A2 & A3 & A4 & _) & _).
    destruct (ctor_created _ _ _ _ _ _ _ Hctor) as (Hv & Hn & _).
    unfold created. split_and!; auto.
  - revert Hc. unfold CreateStreamDumper, created.
    destruct (negb _); [now intros [= <-]|].
    destruct (AudioDumpManager.mInitialized (instance p)) eqn:Hi; cbn [negb].
    + unfold AudioDumpManager.GetNextCounter. simpl. destruct (ctor _ _ _ _ _). discriminate.
    + unfold AudioDumpManager.Initialize, AudioDumpManager.EnsureDumpDirectory, sys_mkdir,
        sys_stat, outcome. rewrite Hi.
      destruct (w_fs (os p) !! _) as [[c|]|]; simpl.
      * now intros [= <-].
      * unfold AudioDumpManager.GetNextCounter. simpl. destruct (ctor _ _ _ _ _). discriminate.
      * destruct (hd true _); simpl.
        -- unfold AudioDumpManager.GetNextCounter. simpl. destruct (ctor _ _ _ _ _). discriminate.
        -- now intros [= <-].
Qed.

Lemma GenerateFilename_last withTmp d :
  (String.length (c_str (mTimestamp d)) <= 200)%nat ->
  last_char (GenerateFilename withTmp d)
  = Some (if withTmp then "p"%char else "m"%char).
Proof.
  intros Hts. rewrite GenerateFilename_untruncated by exact Hts.
  unfold filename_text. rewrite <- !str_app_assoc.
  destruct withTmp; now rewrite last_char_app by discriminate.
Qed.

Lemma wrap_u32_succ_neq c : 0 <= c < U32_MODULUS -> wrap_u32 (c + 1) <> c.
Proof.
  unfold wrap_u32, U32_MODULUS. intros Hc H.
  destruct (Z.eq_dec c 4294967295) as [->|Hne]; [discriminate|].
  rewrite Z.mod_small in H; lia.
Qed.

(** X16. Two dumpers never share a file. Of two dumpers the manager makes
    one after the other, be it within the same second and for the same
    stream type, and whatever calls are made on each, the second has the
    counter that follows the first one's, and no file name of the one,
    temporary or final, is a file name of the other. *)
Theorem successive_dumpers_differ (type1 type2 : AudioStreamType) (timestamp : string)
    (p0 : process) (cs1 cs2 : list call) (d1 d2 : StreamDumper.t) (tmp1 tmp2 : bool) :
  0 <= AudioDumpManager.mFileCounter (instance p0) < U32_MODULUS ->
  (String.length (c_str timestamp) <= 200)%nat ->
  two_dumpers type1 type2 timestamp p0 cs1 cs2 = Some (d1, d2) ->
  mBaseCounter d2 = wrap_u32 (mBaseCounter d1 + 1) /\
  GenerateFilename tmp1 d1 <> GenerateFilename tmp2 d2.
Proof.
  intros Hc0 Hts. unfold two_dumpers.
  destruct (CreateStreamDumper type1 timestamp p0) as [[a1|] p1] eqn:Hc1; [|discriminate].
  destruct (CreateStreamDumper_some _ _ _ _ _ Hc1) as (pb1 & Hctor1 & _ & Hcnt1 & Hdir1 & _).
  destruct (ctor_keeps _ _ _ _ _ _ _ Hctor1) as (Hk1 & HU1).
  destruct (Calls_keeps cs1 a1 p1 HU1) as (a1' & p1' & Hcs1 & Hk1' & _).
  rewrite Hcs1.
  destruct (CreateStreamDumper type2 timestamp p1') as [[a2|] p2] eqn:Hc2; [|discriminate].
  destruct (CreateStreamDumper_some _ _ _ _ _ Hc2) as (pb2 & Hctor2 & _ & _).
  destruct (ctor_keeps _ _ _ _ _ _ _ Hctor2) as (Hk2 & HU2).
  destruct (Calls_keeps cs2 a2 p2 HU2) as (a2' & p2' & Hcs2 & Hk2' & _).
  rewrite Hcs2. intros [= <- <-].
  destruct Hk1 as (_ & _ & T1 & C1 & I1 & _).
  destruct Hk1' as (_ & _ & T1' & C1' & I1' & M1' & _).
  destruct Hk2 as (_ & _ & T2 & C2 & I2 & _).
  destruct Hk2' as (_ & _ & T2' & C2' & I2' & _).
  cbn [seed mTimestamp mBaseCounter mFileIndex] in *.
  assert (Hb1 : mBaseCounter a1' = AudioDumpManager.mFileCounter (instance p0))
    by congruence.
  assert (Hb2 : mBaseCounter a2'
                = wrap_u32 (AudioDumpManager.mFileCounter (instance p0) + 1))
    by congruence.
  assert (Ht1 : mTimestamp a1' = timestamp) by congruence.
  assert (Ht2 : mTimestamp a2' = timestamp) by congruence.
  assert (Hi1 : 0 <= mFileIndex a1' < U32_MODULUS)
    by (apply I1', I1; unfold U32_MODULUS; lia).
  assert (Hi2 : 0 <= mFileIndex a2' < U32_MODULUS)
    by (apply I2', I2; unfold U32_MODULUS; lia).
  split; [now rewrite Hb1, Hb2|].
  intros E.
  destruct (Bool.bool_dec tmp1 tmp2) as [<-|Hne].
  - apply filename_inj in E; rewrite ?Ht1, ?Ht2, ?Hb1, ?Hb2; auto using wrap_u32_range.
    destruct E as (_ & Hc & _). rewrite Hb1, Hb2 in Hc.
    symmetry in Hc. exact (wrap_u32_succ_neq _ Hc0 Hc).
  - apply (f_equal last_char) in E.
    rewrite !GenerateFilename_last in E by (rewrite ?Ht1, ?Ht2; exact Hts).
    destruct tmp1, tmp2; congruence.
Qed.

Lemma successive_dumpers_differ_witness :
  match two_dumpers STREAM_OUT STREAM_OUT demo_timestamp (quiet_process streamout_on)
          [CallWriteData (Some ["001"%byte])] [] with
  | Some (d1, d2) =>
      mBaseCounter d2 = wrap_u32 (mBaseCounter d1 + 1) /\
      GenerateFilename true d1 <> GenerateFilename true d2
  | None => False
  end.
Proof.
  assert (H : match two_dumpers STREAM_OUT STREAM_OUT demo_timestamp
                      (quiet_process streamout_on) [CallWriteData (Some ["001"%byte])] []
              with Some _ => true | None => false end = true)
    by (vm_compute; reflexivity).
  destruct (two_dumpers STREAM_OUT STREAM_OUT demo_timestamp (quiet_process streamout_on)
              [CallWriteData (Some ["001"%byte])] []) as [[d1 d2]|] eqn:E.
  - apply (successive_dumpers_differ STREAM_OUT STREAM_OUT demo_timestamp
             (quiet_process streamout_on) [CallWriteData (Some ["001"%byte])] []).
    + vm_compute. split; [discriminate|reflexivity].
    + vm_compute. lia.
    + exact E.
  - discriminate H.
Defined.

(** ** A stream and its dumper *)

Lemma WriteAll_keeps buffers : forall d p rs d' p',
  Usable d -> WriteAll buffers d p = Some (rs, d', p') ->
  keeps_identity d p d' p' /\ Usable d'.
Proof.
  induction buffers as [|buffer buffers IH]; intros d p rs d' p' HU; cbn [WriteAll].
  { intros [= <- <- <-]. split; [apply keeps_identity_refl|exact HU]. }
  destruct (WriteData_keeps buffer d p HU) as (r & d1 & p1 & Hw & Hk1 & HU1 & _).
  rewrite Hw. destruct (WriteAll buffers d1 p1) as [[[rs1 d2] p2]|] eqn:Hall; [|discriminate].
  intros [= <- <- <-]. destruct (IH _ _ _ _ _ HU1 Hall) as (Hk2 & HU2).
  split; [exact (keeps_identity_trans _ _ _ _ _ _ Hk1 Hk2)|exact HU2].
Qed.

Lemma sized_whole (data : list byte) :
  sized (Some data) (Z.of_nat (length data)) = Some data.
Proof. unfold sized. now rewrite Nat2Z.id, firstn_all. Qed.

Lemma to_ssize_length (data : list byte) :
  sendable data ->
  to_ssize (Z.of_nat (length data)) = Z.of_nat (length data) /\
  0 < Z.of_nat (length data).
Proof.
  intros [Hne Hlim]. unfold to_ssize, SSIZE_LIMIT in *.
  destruct (Z.ltb_spec (Z.of_nat (length data)) 9223372036854775808); [|lia].
  split; [reflexivity|]. destruct data; [congruence|simpl length; lia].
Qed.

(** The transfers of a stream that holds a dumper are the writes to the
    dumper. *)
Lemma transfer_all_WriteAll datas : forall d p rs d' p',
  Forall sendable datas ->
  WriteAll (map Some datas) d p = Some (rs, d', p') ->
  transfer_all datas {| StreamWithDump.mDumper := Some d |} p
  = Some (sizes datas, {| StreamWithDump.mDumper := Some d' |}, p').
Proof.
  induction datas as [|data datas IH]; intros d p rs d' p' Hall; cbn [map WriteAll].
  { now intros [= <- <- <-]. }
  inversion Hall as [|? ? Hs Hrest]; subst.
  destruct (to_ssize_length data Hs) as [Hsz Hpos].
  destruct (WriteData (Some data) d p) as [[[r d1] p1]|] eqn:Hw; [|discriminate].
  destruct (WriteAll (map Some datas) d1 p1) as [[[rs1 d2] p2]|] eqn:Hw2; [|discriminate].
  intros [= <- <- <-].
  cbn [transfer_all]. unfold StreamWithDump.transfer. cbn [StreamWithDump.mDumper].
  rewrite Hsz. destruct (Z.ltb_spec 0 (Z.of_nat (length data))) as [_|?]; [|lia].
  rewrite sized_whole, Hw, (IH _ _ _ _ _ Hrest Hw2). reflexivity.
Qed.

(** What a wrapper that holds a dumper is told of is written to the
    dumper: on a dumper that is not valid, [WriteData] does nothing. *)
Lemma onData_all_WriteAll datas : forall d p rs d' p',
  WriteAll (map Some datas) d p = Some (rs, d', p') ->
  onData_all datas {| StreamDumpWrapper.mDumper := Some d |} p
  = Some ({| StreamDumpWrapper.mDumper := Some d' |}, p').
Proof.
  induction datas as [|data datas IH]; intros d p rs d' p'; cbn [map WriteAll].
  { now intros [= <- <- <-]. }
  cbn [onData_all]. unfold StreamDumpWrapper.onData. cbn [StreamDumpWrapper.mDumper].
  unfold IsValid. destruct (mIsValid d) eqn:Hv.
  - destruct (WriteData (Some data) d p) as [[[r d1] p1]|] eqn:Hw; [|discriminate].
    destruct (WriteAll (map Some datas) d1 p1) as [[[rs1 d2] p2]|] eqn:Hw2; [|discriminate].
    intros [= <- <- <-]. exact (IH _ _ _ _ _ Hw2).
  - rewrite (WriteData_invalid (Some data) d p Hv).
    destruct (WriteAll (map Some datas) d p) as [[[rs1 d2] p2]|] eqn:Hw2; [|discriminate].
    intros [= <- <- <-]. exact (IH _ _ _ _ _ Hw2).
Qed.

Lemma destroy_closed d p :
  is_open (mFile d) = false -> mIsValid d = false -> destroy (Some d) p = p.
Proof. intros Ho Hv. unfold destroy, dtor. now rewrite ForceClose_noop. Qed.

Lemma bootstrapped_counter p0 :
  AudioDumpManager.mFileCounter (instance (bootstrapped p0))
  = wrap_u32 (AudioDumpManager.mFileCounter (instance p0) + 1).
Proof.
  unfold bootstrapped.
  destruct (Initialize_inv (instance p0) (os p0)) as (_ & _ & _ & Hc & _).
  destruct (AudioDumpManager.Initialize (instance p0) (os p0)) as [[ok m] w].
  simpl in *. now rewrite Hc.
Qed.

(** A dumper from its creation by the manager to its end, when no call
    fails. *)
Lemma session_core (type : AudioStreamType) (timestamp : string) (p0 : process)
    (datas : list (list byte)) :
  dump_enabled type (os p0) = true ->
  (AudioDumpManager.Initialize (instance p0) (os p0)).1.1 = true ->
  fault_free (w_faults (os p0)) = true ->
  nul_free (AudioDumpManager.mDumpDirectory (instance p0)) ->
  (String.length (c_str timestamp) <= 200)%nat ->
  AudioDumpManager.mQueueFilePath (instance p0)
    = AudioDumpManager.mQueueFilePath AudioDumpManager.ctor ->
  Forall sendable datas ->
  0 < total_size datas <= (U32_MODULUS - 1) * MAX_FILE_SIZE ->
  exists d0 p1 d p d' p',
    CreateStreamDumper type timestamp p0 = (Some d0, p1) /\
    WriteAll (map Some datas) d0 p1 = Some (sizes datas, d, p) /\
    ForceClose d p = (d', p') /\
    is_open (mFile d') = false /\ mIsValid d' = false /\
    session_outcome type timestamp p0 datas p'.
Proof.
  intros Hen Hinit HF Hdir Hts Hq Hall Htotal.
  set (dir := AudioDumpManager.mDumpDirectory (instance p0)) in *.
  set (counter := AudioDumpManager.mFileCounter (instance p0)).
  destruct (bootstrapped_inv p0) as (Hc0 & Hq0 & Hn0 & HF0).
  pose proof (bootstrapped_counter p0) as Hcnt.
  rewrite <- Hq0 in Hq.
  rewrite CreateStreamDumper_enabled by assumption. fold dir counter.
  set (pI := bootstrapped p0) in *.
  destruct (all_finalized_run type dir timestamp counter pI datas (HF0 HF) Hdir Hts Hq
              Hall Htotal)
    as (d0 & w0 & d & p & d' & p' & Hctor & Hw & Hfc & _ & _ & Hdone & Hnot & Hfiles
        & _ & Hcat).
  rewrite Hctor. exists d0, (with_os w0 pI), d, p, d', p'.
  split; [reflexivity|]. split; [exact Hw|]. split; [exact Hfc|].
  pose proof (ForceClose_closed d p) as [Ho Hv]. rewrite Hfc in Ho, Hv.
  split; [exact Ho|]. split; [exact Hv|].
  destruct (ctor_keeps _ _ _ _ _ _ _ Hctor) as (_ & HU0).
  destruct (WriteAll_keeps _ _ _ _ _ _ HU0 Hw) as ((_ & _ & _ & _ & _ & M1 & _) & _).
  destruct (ForceClose_keeps _ _ _ _ Hfc) as ((_ & _ & _ & _ & _ & M2 & _) & _).
  unfold session_outcome. fold dir counter.
  split_and!.
  - rewrite M2, M1. exact Hcnt.
  - now rewrite Hdone, Hc0.
  - now rewrite Hnot, Hn0.
  - intros i Hi. destruct (Hfiles i Hi) as (Hf & Ht & _). auto.
  - exact Hcat.
Qed.

(** X17. A stream dumps all it transfers. With the switch of its kind on,
    the dump directory ready or creatable and no call failing, a stream
    that is constructed, transfers any buffers and is closed returns from
    each transfer the size given, holds no dumper in the end, and leaves
    every byte transferred in finalized files of one dumper: files 0 to
    [k - 1], which one after the other are the bytes transferred, each
    recorded and notified once, no temporary file left; the manager's
    counter has moved on by one. *)
Theorem stream_session_keeps_all (type : AudioStreamType) (timestamp : string)
    (p0 : process) (datas : list (list byte)) :
  dump_enabled type (os p0) = true ->
  (AudioDumpManager.Initialize (instance p0) (os p0)).1.1 = true ->
  fault_free (w_faults (os p0)) = true ->
  nul_free (AudioDumpManager.mDumpDirectory (instance p0)) ->
  (String.length (c_str timestamp) <= 200)%nat ->
  AudioDumpManager.mQueueFilePath (instance p0)
    = AudioDumpManager.mQueueFilePath AudioDumpManager.ctor ->
  Forall sendable datas ->
  0 < total_size datas <= (U32_MODULUS - 1) * MAX_FILE_SIZE ->
  exists p',
    stream_session type timestamp p0 datas
    = Some (sizes datas, {| StreamWithDump.mDumper := None |}, p') /\
    session_outcome type timestamp p0 datas p'.
Proof.
  intros Hen Hinit HF Hdir Hts Hq Hall Htotal.
  destruct (session_core type timestamp p0 datas Hen Hinit HF Hdir Hts Hq Hall Htotal)
    as (d0 & p1 & d & p & d' & p' & Hc & Hw & Hfc & Ho & Hv & Hout).
  exists p'. split; [|exact Hout].
  unfold stream_session, StreamWithDump.ctor, StreamWithDump.initDumper.
  change (IsDumpEnabled type (os p0)) with (dump_enabled type (os p0)).
  rewrite Hen, Hc. cbn [StreamWithDump.mDumper destroy].
  rewrite (transfer_all_WriteAll _ _ _ _ _ _ Hall Hw).
  unfold StreamWithDump.close, StreamWithDump.closeDumper. cbn [StreamWithDump.mDumper].
  rewrite Hfc, (destroy_closed _ _ Ho Hv). reflexivity.
Qed.

Lemma stream_session_keeps_all_witness :
  exists p',
    stream_session STREAM_OUT demo_timestamp (quiet_process streamout_on)
      [["001"%byte; "002"%byte]; ["003"%byte]]
    = Some (sizes [["001"%byte; "002"%byte]; ["003"%byte]],
            {| StreamWithDump.mDumper := None |}, p') /\
    session_outcome STREAM_OUT demo_timestamp (quiet_process streamout_on)
      [["001"%byte; "002"%byte]; ["003"%byte]] p'.
Proof.
  apply stream_session_keeps_all.
  - vm_compute. reflexivity.
  - vm_compute. reflexivity.
  - reflexivity.
  - reflexivity.
  - vm_compute. lia.
  - reflexivity.
  - repeat (constructor; [split; [discriminate|reflexivity]|]). constructor.
  - vm_compute. split; [reflexivity|discriminate].
Defined.

(** X18. A wrapper dumps all it is told of. Under the same conditions, a
    wrapper that is constructed, told of any buffers and destroyed leaves
    every byte in finalized files, as a stream does. *)
Theorem wrapper_session_keeps_all (type : AudioStreamType) (timestamp : string)
    (p0 : process) (datas : list (list byte)) :
  dump_enabled type (os p0) = true ->
  (AudioDumpManager.Initialize (instance p0) (os p0)).1.1 = true ->
  fault_free (w_faults (os p0)) = true ->
  nul_free (AudioDumpManager.mDumpDirectory (instance p0)) ->
  (String.length (c_str timestamp) <= 200)%nat ->
  AudioDumpManager.mQueueFilePath (instance p0)
    = AudioDumpManager.mQueueFilePath AudioDumpManager.ctor ->
  Forall sendable datas ->
  0 < total_size datas <= (U32_MODULUS - 1) * MAX_FILE_SIZE ->
  exists p',
    wrapper_session type timestamp p0 datas = Some p' /\
    session_outcome type timestamp p0 datas p'.
Proof.
  intros Hen Hinit HF Hdir Hts Hq Hall Htotal.
  destruct (session_core type timestamp p0 datas Hen Hinit HF Hdir Hts Hq Hall Htotal)
    as (d0 & p1 & d & p & d' & p' & Hc & Hw & Hfc & Ho & Hv & Hout).
  exists p'. split; [|exact Hout].
  unfold wrapper_session, StreamDumpWrapper.ctor.
  change (IsDumpEnabled type (os p0)) with (dump_enabled type (os p0)).
  rewrite Hen, Hc. rewrite (onData_all_WriteAll _ _ _ _ _ _ Hw).
  unfold StreamDumpWrapper.dtor. cbn [StreamDumpWrapper.mDumper].
  rewrite Hfc, (destroy_closed _ _ Ho Hv). reflexivity.
Qed.

Lemma wrapper_session_keeps_all_witness :
  exists p',
    wrapper_session STREAM_IN demo_timestamp
      (quiet_process {[ AudioDumpManager.PROP_STREAMIN_DUMP := "1" ]})
      [["001"%byte; "002"%byte]; ["003"%byte]] = Some p' /\
    session_outcome STREAM_IN demo_timestamp
      (quiet_process {[ AudioDumpManager.PROP_STREAMIN_DUMP := "1" ]})
      [["001"%byte; "002"%byte]; ["003"%byte]] p'.
Proof.
  apply wrapper_session_keeps_all.
  - vm_compute. reflexivity.
  - vm_compute. reflexivity.
  - reflexivity.
  - reflexivity.
  - vm_compute. lia.
  - reflexivity.
  - repeat (constructor; [split; [discriminate|reflexivity]|]). constructor.
  - vm_compute. split; [reflexivity|discriminate].
Defined.

Lemma transfer_all_none datas : forall p,
  Forall (fun data : list byte => Z.of_nat (length data) < SSIZE_LIMIT) datas ->
  transfer_all datas {| StreamWithDump.mDumper := None |} p
  = Some (sizes datas, {| StreamWithDump.mDumper := None |}, p).
Proof.
  induction datas as [|data datas IH]; intros p Hall; [reflexivity|].
  inversion Hall as [|? ? Hs Hrest]; subst.
  cbn [transfer_all]. unfold StreamWithDump.transfer. cbn [StreamWithDump.mDumper].
  rewrite (IH p Hrest). unfold to_ssize.
  destruct (Z.ltb_spec (Z.of_nat (length data)) SSIZE_LIMIT); [reflexivity|lia].
Qed.

(** X19. A stream whose dump is switched off costs nothing. When the
    switch of its kind is off, a stream that is constructed, transfers any
    buffers and is closed returns from each transfer the size given, never
    holds a dumper, and leaves the process, the manager included, exactly
    as it was. *)
Theorem stream_session_off (type : AudioStreamType) (timestamp : string)
    (p0 : process) (datas : list (list byte)) :
  dump_enabled type (os p0) = false ->
  Forall (fun data : list byte => Z.of_nat (length data) < SSIZE_LIMIT) datas ->
  stream_session type timestamp p0 datas
  = Some (sizes datas, {| StreamWithDump.mDumper := None |}, p0).
Proof.
  intros Hoff Hall.
  unfold stream_session, StreamWithDump.ctor, StreamWithDump.initDumper.
  change (IsDumpEnabled type (os p0)) with (dump_enabled type (os p0)).
  rewrite Hoff, (transfer_all_none _ _ Hall). reflexivity.
Qed.

Lemma stream_session_off_witness :
  stream_session STREAM_IN demo_timestamp (quiet_process streamout_on)
    [["001"%byte]; []]
  = Some (sizes [["001"%byte]; []], {| StreamWithDump.mDumper := None |},
          quiet_process streamout_on).
Proof.
  apply stream_session_off.
  - vm_compute. reflexivity.
  - repeat (constructor; [reflexivity|]). constructor.
Defined.

(** X20. [refreshDumpStatus] follows the switch. With the switch off, the
    stream holds no dumper afterwards, the one it held having been closed
    with [ForceClose]; with the switch on, a stream that holds a dumper
    keeps it, valid or not, and nothing happens, and a stream that holds
    none gets what [CreateStreamDumper] returns. *)
Theorem refreshDumpStatus_outcome (type : AudioStreamType) (timestamp : string)
    (s : StreamWithDump.t) (p : process) :
  let '(s', p') := StreamWithDump.refreshDumpStatus type timestamp s p in
  if dump_enabled type (os p) then
    match StreamWithDump.mDumper s with
    | Some _ => s' = s /\ p' = p
    | None => (StreamWithDump.mDumper s', p') = CreateStreamDumper type timestamp p
    end
  else
    StreamWithDump.mDumper s' = None /\
    p' = match StreamWithDump.mDumper s with
         | Some d => (ForceClose d p).2
         | None => p
         end.
Proof.
  unfold StreamWithDump.refreshDumpStatus, StreamWithDump.initDumper,
    StreamWithDump.closeDumper, StreamWithDump.holds.
  change (IsDumpEnabled type (os p)) with (dump_enabled type (os p)).
  destruct (dump_enabled type (os p)) eqn:Hen; destruct s as [[d|]]; cbn.
  - auto.
  - destruct (CreateStreamDumper type timestamp p) as [r p1]. reflexivity.
  - pose proof (ForceClose_closed d p) as [Ho Hv].
    destruct (ForceClose d p) as [d1 p1]. simpl in Ho, Hv. cbn.
    split; [reflexivity|]. now apply destroy_closed.
  - auto.
Qed.

(** ** The manager's counter and queue *)

Lemma take_counters_spec n : forall m,
  0 <= AudioDumpManager.mFileCounter m < U32_MODULUS ->
  (take_counters n m).1
  = map (fun k => wrap_u32 (AudioDumpManager.mFileCounter m + Z.of_nat k)) (seq 0 n) /\
  AudioDumpManager.mFileCounter (take_counters n m).2
  = wrap_u32 (AudioDumpManager.mFileCounter m + Z.of_nat n).
Proof.
  induction n as [|n IH]; intros m Hm.
  - cbn. rewrite Z.add_0_r. unfold wrap_u32. split; [reflexivity|].
    now rewrite Z.mod_small.
  - cbn [take_counters]. unfold AudioDumpManager.GetNextCounter.
    set (m1 := AudioDumpManager.with_mFileCounter _ m).
    destruct (IH m1 (wrap_u32_range _)) as [Hl Hc].
    destruct (take_counters n m1) as [cs m2]. cbn [fst snd] in *.
    assert (Hstep : forall k,
              wrap_u32 (AudioDumpManager.mFileCounter m1 + k)
              = wrap_u32 (AudioDumpManager.mFileCounter m + (k + 1))).
    { intros k. subst m1. cbn. unfold wrap_u32, U32_MODULUS.
      rewrite Zplus_mod_idemp_l. f_equal. lia. }
    split.
    + cbn [seq map]. f_equal.
      * rewrite Z.add_0_r. unfold wrap_u32. now rewrite Z.mod_small.
      * rewrite Hl, <- seq_shift, map_map. apply map_ext. intros k.
        rewrite Hstep. f_equal. lia.
    + rewrite Hc, Hstep. f_equal. lia.
Qed.

(** X21. The counters the manager hands out are consecutive modulo 2^32:
    [n] successive calls of [GetNextCounter] return the counter, the
    counter plus one, and so on, wrapped to 32 bits, and leave the counter
    [n] further; up to 2^32 calls, no two of them return the same
    value. *)
Theorem GetNextCounter_consecutive (n : nat) (m : AudioDumpManager.t) :
  0 <= AudioDumpManager.mFileCounter m < U32_MODULUS ->
  Z.of_nat n <= U32_MODULUS ->
  (take_counters n m).1
  = map (fun k => wrap_u32 (AudioDumpManager.mFileCounter m + Z.of_nat k)) (seq 0 n) /\
  AudioDumpManager.mFileCounter (take_counters n m).2
  = wrap_u32 (AudioDumpManager.mFileCounter m + Z.of_nat n) /\
  NoDup (take_counters n m).1.
Proof.
  intros Hm Hn. destruct (take_counters_spec n m Hm) as [Hl Hc].
  split; [exact Hl|]. split; [exact Hc|]. rewrite Hl.
  apply NoDup_fmap_2_strong; [|apply NoDup_seq].
  intros j k Hj Hk E. apply elem_of_seq in Hj, Hk.
  unfold wrap_u32, U32_MODULUS in *.
  assert (Hjk : (Z.of_nat j - Z.of_nat k) mod 4294967296 = 0).
  { rewrite Zminus_mod.
    replace (Z.of_nat j) with ((AudioDumpManager.mFileCounter m + Z.of_nat j)
                                - AudioDumpManager.mFileCounter m) at 1 by lia.
    replace (Z.of_nat k) with ((AudioDumpManager.mFileCounter m + Z.of_nat k)
                                - AudioDumpManager.mFileCounter m) at 1 by lia.
    rewrite (Zminus_mod (_ + Z.of_nat j)), (Zminus_mod (_ + Z.of_nat k)), E.
    rewrite <- Zminus_mod. now rewrite Z.sub_diag. }
  apply Z.mod_divide in Hjk; [|lia]. destruct Hjk as [q Hq]. nia.
Qed.

Lemma GetNextCounter_consecutive_witness :
  (take_counters 3 (AudioDumpManager.with_mFileCounter 4294967295 AudioDumpManager.ctor)).1
  = map (fun k => wrap_u32
                    (AudioDumpManager.mFileCounter
                       (AudioDumpManager.with_mFileCounter 4294967295 AudioDumpManager.ctor)
                     + Z.of_nat k)) (seq 0 3) /\
  AudioDumpManager.mFileCounter
    (take_counters 3 (AudioDumpManager.with_mFileCounter 4294967295 AudioDumpManager.ctor)).2
  = wrap_u32 (AudioDumpManager.mFileCounter
                (AudioDumpManager.with_mFileCounter 4294967295 AudioDumpManager.ctor)
              + Z.of_nat 3) /\
  NoDup (take_counters 3
           (AudioDumpManager.with_mFileCounter 4294967295 AudioDumpManager.ctor)).1.
Proof.
  apply GetNextCounter_consecutive.
  - vm_compute. split; [discriminate|reflexivity].
  - vm_compute. discriminate.
Defined.

(** X22. [Shutdown] leaves the manager not initialized and keeps its
    counter, directory and queue file path; it empties the queue of
    completed files of a manager that was initialized, and does nothing at
    all to one that was not; a second [Shutdown] changes nothing. *)
Theorem Shutdown_outcome (m : AudioDumpManager.t) :
  AudioDumpManager.mInitialized (AudioDumpManager.Shutdown m) = false /\
  AudioDumpManager.mFileCounter (AudioDumpManager.Shutdown m)
    = AudioDumpManager.mFileCounter m /\
  AudioDumpManager.mDumpDirectory (AudioDumpManager.Shutdown m)
    = AudioDumpManager.mDumpDirectory m /\
  AudioDumpManager.mQueueFilePath (AudioDumpManager.Shutdown m)
    = AudioDumpManager.mQueueFilePath m /\
  (AudioDumpManager.mInitialized m = true ->
   AudioDumpManager.mCompletedFiles (AudioDumpManager.Shutdown m) = []) /\
  (AudioDumpManager.mInitialized m = false -> AudioDumpManager.Shutdown m = m) /\
  AudioDumpManager.Shutdown (AudioDumpManager.Shutdown m) = AudioDumpManager.Shutdown m.
Proof.
  unfold AudioDumpManager.Shutdown.
  destruct (AudioDumpManager.mInitialized m) eqn:Hi; cbn; rewrite ?Hi;
    split_and!; auto; discriminate.
Qed.

(** ** When a call fails *)

Lemma CloseCurrentFile_commit d p :
  is_open (mFile d) = true ->
  0 < mCurrentFileSize d ->
  hd true (get_faults SysRename (w_faults (os p))) = true ->
  hd true (get_faults SysAppend (w_faults (os p))) = true ->
  is_Some (w_fs (os p) !! c_str (mCurrentFilePath d)) ->
  exists d' p',
    CloseCurrentFile true d p = (d', p') /\
    is_open (mFile d') = false /\ mIsValid d' = mIsValid d /\
    w_trace (os p') = w_trace (os p) ++ commit_events d p /\
    w_fs (os p') = replay (commit_events d p) (w_fs (os p)) /\
    AudioDumpManager.mCompletedFiles (instance p')
      = AudioDumpManager.mCompletedFiles (instance p) ++ [mCurrentFilename d] /\
    get_faults SysOpen (w_faults (os p')) = get_faults SysOpen (w_faults (os p)).
Proof.
  intros Ho Hsz Hren Happ [nd Hnd].
  unfold CloseCurrentFile, ofs_close. rewrite Ho. simpl.
  replace (0 <? mCurrentFileSize d) with true by (symmetry; now apply Z.ltb_lt).
  unfold sys_rename. simpl. rewrite apply_event_close, Hnd.
  unfold outcome. simpl. rewrite Hren.
  unfold AudioDumpManager.OnDumpFileCompleted, AudioDumpManager.AppendToQueueFile, outcome.
  simpl.
  change (get_faults SysAppend (next_faults SysRename (w_faults (os p))))
    with (get_faults SysAppend (w_faults (os p))).
  rewrite Happ. eexists _, _. split; [reflexivity|]. simpl.
  split_and!; auto.
  unfold commit_events. now rewrite <- !app_assoc.
Qed.

(** X23. When the next file cannot be opened. On a valid dumper whose
    file has reached [MAX_FILE_SIZE], with the rename and the queue append
    succeeding and the open of the next file failing, [WriteData] with a
    buffer that is not empty still commits the full file (close, rename,
    queue line, notification, in this order, and nothing else), records
    its name, opens nothing, returns -1 and leaves the dumper not valid
    with no file open. *)
Theorem WriteData_open_fails (d : StreamDumper.t) (p : process) (data : list byte) :
  mIsValid d = true ->
  data <> [] ->
  is_open (mFile d) = true ->
  MAX_FILE_SIZE <= mCurrentFileSize d ->
  is_Some (w_fs (os p) !! c_str (mCurrentFilePath d)) ->
  next_open_fails (w_faults (os p)) ->
  exists d' p',
    WriteData (Some data) d p = Some (-1, d', p') /\
    IsValid d' = false /\ is_open (mFile d') = false /\
    w_trace (os p') = w_trace (os p) ++ commit_events d p /\
    w_fs (os p') = replay (commit_events d p) (w_fs (os p)) /\
    AudioDumpManager.mCompletedFiles (instance p')
      = AudioDumpManager.mCompletedFiles (instance p) ++ [mCurrentFilename d].
Proof.
  intros Hv Hne Ho Hfull Hfile (Hren & Happ & Hopen).
  destruct (CloseCurrentFile_commit d p Ho) as (d1 & p1 & Hc & Ho1 & Hv1 & Htr & Hfs & Hdone & HF);
    auto; [unfold MAX_FILE_SIZE in Hfull; lia|].
  unfold WriteData. rewrite Hv. cbn [negb orb].
  destruct (Z.eqb_spec (Z.of_nat (length data)) 0) as [E|_];
    [destruct data; [congruence|discriminate]|].
  rewrite (WriteLoop_turn _ _ _ _ _ Hne). unfold WriteTurn.
  destruct (Z.leb_spec MAX_FILE_SIZE (mCurrentFileSize d)) as [_|?]; [|lia].
  rewrite Hc.
  destruct (OpenNewFile d1 (os p1)) as [[ok d2] w2] eqn:Hopen2.
  revert Hopen2. unfold OpenNewFile, ofs_open, outcome. simpl. rewrite Ho1. simpl.
  rewrite HF, Hopen. simpl. intros [= <- <- <-]. cbn [negb].
  eexists _, _. split; [reflexivity|]. simpl. split_and!; auto.
Qed.

Lemma WriteData_open_fails_witness :
  exists d' p',
    WriteData (Some ["001"%byte]) full_file_dumper full_file_process = Some (-1, d', p') /\
    IsValid d' = false /\ is_open (mFile d') = false /\
    w_trace (os p')
      = w_trace (os full_file_process) ++ commit_events full_file_dumper full_file_process /\
    w_fs (os p')
      = replay (commit_events full_file_dumper full_file_process)
          (w_fs (os full_file_process)) /\
    AudioDumpManager.mCompletedFiles (instance p')
      = AudioDumpManager.mCompletedFiles (instance full_file_process)
          ++ [mCurrentFilename full_file_dumper].
Proof.
  apply WriteData_open_fails.
  - vm_compute. reflexivity.
  - discriminate.
  - vm_compute. reflexivity.
  - vm_compute. discriminate.
  - assert (H : match w_fs (os full_file_process)
                        !! c_str (mCurrentFilePath full_file_dumper) with
                | Some _ => true
                | None => false
                end = true) by (vm_compute; reflexivity).
    destruct (w_fs (os full_file_process) !! c_str (mCurrentFilePath full_file_dumper));
      [eauto|discriminate H].
  - repeat split.
Defined.






(** ** The buffer *)

Lemma CloseCurrentFile_buffer complete d p :
  mBuffer (CloseCurrentFile complete d p).1 = mBuffer d.
Proof.
  unfold CloseCurrentFile. destruct (is_open (mFile d)); simpl; [|reflexivity].
  unfold ofs_close. destruct (is_open (mFile d)); reflexivity.
Qed.

Lemma OpenNewFile_buffer d w : mBuffer (OpenNewFile d w).1.2 = mBuffer d.
Proof.
  unfold OpenNewFile, ofs_open, outcome. simpl.
  destruct (is_open (mFile d)); simpl; [reflexivity|].
  destruct (hd true _); reflexivity.
Qed.

Lemma FlushBuffer_buffer d w : mBuffer (FlushBuffer d w).1.2 = mBuffer d.
Proof.
  unfold FlushBuffer.
  destruct (mBufferOffset d =? 0); [reflexivity|].
  destruct (is_open (mFile d)); simpl; [|reflexivity].
  destruct (ofs_write _ _ _) as [f w1]. destruct (good f); reflexivity.
Qed.

Lemma ForceClose_buffer d p : mBuffer (ForceClose d p).1 = mBuffer d.
Proof.
  unfold ForceClose. destruct (is_open (mFile d)); [|reflexivity].
  destruct (0 <? mBufferOffset d).
  - destruct (ofs_write _ _ _) as [f w].
    match goal with |- context [CloseCurrentFile true ?a ?b] =>
      pose proof (CloseCurrentFile_buffer true a b) as Hb;
      destruct (CloseCurrentFile true a b) as [d1 p1] end.
    simpl in *. exact Hb.
  - match goal with |- context [CloseCurrentFile true ?a ?b] =>
      pose proof (CloseCurrentFile_buffer true a b) as Hb;
      destruct (CloseCurrentFile true a b) as [d1 p1] end.
    simpl in *. exact Hb.
Qed.

(** One turn of the loop copies within the buffer. *)
Lemma WriteTurn_buffer data d p :
  Usable d -> mIsValid d = true -> data <> [] ->
  length (mBuffer d) = Z.to_nat BUFFER_SIZE ->
  match WriteTurn data d p with
  | inl (d', _) => length (mBuffer d') = Z.to_nat BUFFER_SIZE
  | inr (_, _, d', _) => length (mBuffer d') = Z.to_nat BUFFER_SIZE
  end.
Proof.
  intros HU Hv Hdata Hlen. unfold WriteTurn.
  destruct (if MAX_FILE_SIZE <=? mCurrentFileSize d then _ else _)
    as [[opened d1] p1] eqn:Hrot.
  destruct (rotate_keeps _ _ _ _ _ HU Hv Hrot) as (_ & _ & Hop).
  assert (Hlen1 : length (mBuffer d1) = Z.to_nat BUFFER_SIZE).
  { revert Hrot. destruct (MAX_FILE_SIZE <=? mCurrentFileSize d).
    - pose proof (CloseCurrentFile_buffer true d p) as Hb1.
      destruct (CloseCurrentFile true d p) as [da pa].
      pose proof (OpenNewFile_buffer da (os pa)) as Hb2.
      destruct (OpenNewFile da (os pa)) as [[ok db] wb].
      simpl in Hb1, Hb2. intros [= <- <- <-]. congruence.
    - now intros [= <- <- <-]. }
  destruct opened; cbn [negb]; [|exact Hlen1].
  destruct (Hop eq_refl) as [_ Hoff1].
  set (c := Z.min (Z.of_nat (length data)) (wrap_size (BUFFER_SIZE - mBufferOffset d1))).
  assert (Hc : 0 <= c <= BUFFER_SIZE - mBufferOffset d1 /\ c <= Z.of_nat (length data)).
  { subst c. unfold wrap_size, SIZE_MODULUS, BUFFER_SIZE in *.
    rewrite Z.mod_small by lia. lia. }
  cbv zeta. fold c.
  set (d2 := with_mBufferOffset _ _).
  assert (Hlen2 : length (mBuffer d2) = Z.to_nat BUFFER_SIZE).
  { subst d2. simpl. rewrite memcpy_at_length; [exact Hlen1|lia|].
    rewrite length_take, Hlen1. unfold BUFFER_SIZE in *. lia. }
  clearbody d2.
  destruct (if BUFFER_SIZE <=? mBufferOffset d2 then _ else _)
    as [[fl d3] w3] eqn:Hfl.
  assert (Hlen3 : length (mBuffer d3) = Z.to_nat BUFFER_SIZE).
  { revert Hfl. destruct (BUFFER_SIZE <=? mBufferOffset d2).
    - pose proof (FlushBuffer_buffer d2 (os p1)) as Hb.
      destruct (FlushBuffer d2 (os p1)) as [[ok db] wb]. simpl in Hb.
      intros [= <- <- <-]. congruence.
    - now intros [= <- <- <-]. }
  destruct fl; cbn [negb]; [|exact Hlen3].
  destruct (FLUSH_THRESHOLD <=? mBytesSinceFlush d3).
  - destruct (ofs_flush (mFile d3) w3) as [f w]. exact Hlen3.
  - exact Hlen3.
Qed.

Lemma WriteLoop_buffer fuel : forall data tw d p r d' p',
  Usable d -> mIsValid d = true ->
  length (mBuffer d) = Z.to_nat BUFFER_SIZE ->
  WriteLoop fuel data tw d p = Some (r, d', p') ->
  length (mBuffer d') = Z.to_nat BUFFER_SIZE.
Proof.
  induction fuel as [|fuel IH]; intros data tw d p r d' p' HU Hv Hlen.
  { destruct data; [now intros [= <- <- <-]|discriminate]. }
  destruct data as [|b data'] eqn:Edata; [now intros [= <- <- <-]|].
  rewrite <- Edata in *.
  assert (Hne : data <> []) by (rewrite Edata; discriminate).
  rewrite (WriteLoop_turn _ _ _ _ _ Hne).
  pose proof (WriteTurn_keeps data d p HU Hv Hne) as Hk.
  pose proof (WriteTurn_buffer data d p HU Hv Hne Hlen) as Hb.
  destruct (WriteTurn data d p) as [[d1 p1]|[[[c data1] d1] p1]].
  - now intros [= <- <- <-].
  - destruct Hk as (_ & HU1 & Hv1 & _). now apply IH.
Qed.

Lemma WriteData_buffer buffer d p r d' p' :
  Usable d -> length (mBuffer d) = Z.to_nat BUFFER_SIZE ->
  WriteData buffer d p = Some (r, d', p') ->
  length (mBuffer d') = Z.to_nat BUFFER_SIZE.
Proof.
  intros HU Hlen. unfold WriteData.
  destruct buffer as [data|]; [|now intros [= <- <- <-]].
  destruct (mIsValid d) eqn:Hv; cbn [negb orb]; [|now intros [= <- <- <-]].
  destruct (Z.of_nat (length data) =? 0); [now intros [= <- <- <-]|].
  now apply WriteLoop_buffer.
Qed.

Lemma Calls_buffer cs : forall d p d' p',
  Usable d -> length (mBuffer d) = Z.to_nat BUFFER_SIZE ->
  Calls cs d p = Some (d', p') ->
  length (mBuffer d') = Z.to_nat BUFFER_SIZE.
Proof.
  induction cs as [|c cs IH]; intros d p d' p' HU Hlen; cbn [Calls].
  { now intros [= <- <-]. }
  destruct c as [buffer|].
  - destruct (WriteData_keeps buffer d p HU) as (r & d1 & p1 & Hw & _ & HU1 & _).
    rewrite Hw. apply IH; [exact HU1|]. exact (WriteData_buffer _ _ _ _ _ _ HU Hlen Hw).
  - pose proof (ForceClose_buffer d p) as Hb.
    destruct (ForceClose d p) as [d1 p1] eqn:Hf. simpl in Hb.
    destruct (ForceClose_keeps _ _ _ _ Hf) as (_ & HU1 & _).
    apply IH; [exact HU1|congruence].
Qed.

Lemma seed_buffer_length type dumpDir timestamp baseCounter :
  length (mBuffer (seed type dumpDir timestamp baseCounter)) = Z.to_nat BUFFER_SIZE.
Proof. unfold seed. cbn [mBuffer]. apply repeat_length. Qed.

(** X26. The buffer is never overrun. Whatever calls are made on a
    dumper after its construction, whichever system calls fail, the
    buffer has its [BUFFER_SIZE] bytes, no more: no copy of [WriteData]
    went past its end; and while the dumper is valid its file is open and
    [mBufferOffset] is within the buffer, short of its end. *)
Theorem buffer_never_overrun (type : AudioStreamType) (dumpDir timestamp : string)
    (baseCounter : Z) (p0 : process) (cs : list call) :
  exists d p,
    run type dumpDir timestamp baseCounter p0 cs = Some (d, p) /\
    Z.of_nat (length (mBuffer d)) = BUFFER_SIZE /\
    (IsValid d = true ->
     is_open (mFile d) = true /\ 0 <= mBufferOffset d < BUFFER_SIZE).
Proof.
  unfold run.
  destruct (ctor type dumpDir timestamp baseCounter (os p0)) as [d0 w0] eqn:Hctor.
  destruct (ctor_keeps _ _ _ _ _ _ _ Hctor) as (_ & HU0).
  assert (Hlen0 : length (mBuffer d0) = Z.to_nat BUFFER_SIZE).
  { revert Hctor. rewrite ctor_seed.
    pose proof (OpenNewFile_buffer (seed type dumpDir timestamp baseCounter) (os p0)) as Hb.
    destruct (OpenNewFile _ _) as [[ok d1] w1]. cbn [fst snd] in Hb.
    destruct ok; intros [= <- <-].
    - unfold with_mIsValid. cbn [mBuffer]. rewrite Hb. apply seed_buffer_length.
    - rewrite Hb. apply seed_buffer_length. }
  destruct (Calls_keeps cs d0 (with_os w0 p0) HU0) as (d & p & Hcs & _ & HU).
  exists d, p. split; [exact Hcs|].
  split; [|exact HU].
  rewrite (Calls_buffer _ _ _ _ _ HU0 Hlen0 Hcs). apply Z2Nat.id. discriminate.
Qed.
